(** * OnaccClimateRisk: drought and flood risk engine

    A shallow embedding of the indicator, scoring, segmentation, forecast and
    group-alert code of the repository, followed by the properties proved
    about it.

    Conventions.
    - Python [str] values are [string]s, that is UTF-8 byte sequences; prefix
      tests, replacement and splitting on an ASCII separator agree on bytes
      and on code points.
    - Python floats holding measurements are real numbers ([R]): np.std takes
      a square root. Integer scores are [Z]; quotients of integer counts and
      the flood and forecast arithmetic, which only use field operations, are
      rationals ([Q]) and compute. Where a statement depends on how float64
      arithmetic rounds, its operations are a parameter ([Np.Float64] for
      the z-score of the SPI, [Forecast.Arith] for the forecasts).
    - A Python [dict] is a [gmap]; [d.get(k, v)] is [default v (d !! k)].
    - A call that can raise returns an [option]; [None] is the exception, and
      a [try/except] is a [match] on it. *)

From Stdlib Require Import ZArith QArith Qround Qabs Qminmax Reals Lra Lia List String Ascii DecimalString.
From Stdlib Require Lqa.
From stdpp Require Import base option list gmap strings.

Open Scope string_scope.

(* ================================================================== *)
(** * Definitions *)
(* ================================================================== *)

(** ** Python string methods used by the alert text format *)

Module PyStr.

Definition nl_char : ascii := ascii_of_nat 10.
Definition nl : string := String nl_char "".

(** The ASCII white space of [str.strip()]: tab, line feed, vertical tab,
    form feed, carriage return, the four separators 28..31 and space. *)
Definition is_space (c : ascii) : bool :=
  let n := nat_of_ascii c in
  ((9 <=? n)%nat && (n <=? 13)%nat) || ((28 <=? n)%nat && (n <=? 32)%nat).

(** The white space of [str.strip()] beyond ASCII, in UTF-8: U+0085 and
    U+00A0 on two bytes; U+1680, U+2000..U+200A, U+2028, U+2029, U+202F,
    U+205F and U+3000 on three. *)
Definition is_space2 (c d : ascii) : bool :=
  let '(c, d) := (nat_of_ascii c, nat_of_ascii d) in
  (c =? 194)%nat && ((d =? 133)%nat || (d =? 160)%nat).

Definition is_space3 (c d e : ascii) : bool :=
  let '(c, d, e) := (nat_of_ascii c, nat_of_ascii d, nat_of_ascii e) in
  ((c =? 225)%nat && (d =? 154)%nat && (e =? 128)%nat)
  || ((c =? 226)%nat && (d =? 128)%nat
      && (((128 <=? e)%nat && (e <=? 138)%nat)
          || (e =? 168)%nat || (e =? 169)%nat || (e =? 175)%nat))
  || ((c =? 226)%nat && (d =? 129)%nat && (e =? 159)%nat)
  || ((c =? 227)%nat && (d =? 128)%nat && (e =? 128)%nat).

(** The number of bytes of the white-space character [s] starts with, 0 when
    it starts with none. *)
Definition space_width (s : string) : nat :=
  match s with
  | String c rest =>
      if is_space c then 1
      else match rest with
           | String d rest' =>
               if is_space2 c d then 2
               else match rest' with
                    | String e _ => if is_space3 c d e then 3 else 0
                    | EmptyString => 0
                    end
           | EmptyString => 0
           end
  | EmptyString => 0
  end.

Definition startswith (s p : string) : bool := String.prefix p s.

(** [s.lstrip()]; [skip] counts the bytes of a white-space character still
    to be dropped. *)
Fixpoint lstrip_go (skip : nat) (s : string) : string :=
  match s with
  | EmptyString => EmptyString
  | String c s' =>
      match skip with
      | S k => lstrip_go k s'
      | O =>
          match space_width (String c s') with
          | S k => lstrip_go k s'
          | O => String c s'
          end
      end
  end.

Definition lstrip (s : string) : string := lstrip_go 0 s.

(** [s] holds white space only. *)
Definition isspace_or_empty (s : string) : bool :=
  match lstrip s with
  | EmptyString => true
  | _ => false
  end.

(** [s.rstrip()]: cut where the rest is white space only. A byte inside a
    character starts no white space, so the cut falls between characters. *)
Fixpoint rstrip (s : string) : string :=
  match s with
  | String c s' =>
      if isspace_or_empty (String c s') then EmptyString else String c (rstrip s')
  | EmptyString => EmptyString
  end.

Definition strip (s : string) : string := rstrip (lstrip s).

(** [s.replace(old, new)] for a non-empty [old]: every occurrence, scanning
    left to right; [skip] counts the bytes of a match still to be dropped. *)
Fixpoint replace_go (old new : string) (skip : nat) (s : string) : string :=
  match s with
  | EmptyString => EmptyString
  | String c s' =>
      match skip with
      | S k => replace_go old new k s'
      | O =>
          if String.prefix old s
          then new +:+ replace_go old new (String.length old - 1) s'
          else String c (replace_go old new 0 s')
      end
  end.

Definition replace (s old new : string) : string := replace_go old new 0 s.

(** [s.split(sep)] for a one-character separator. *)
Fixpoint split (s : string) (sep : ascii) : list string :=
  match s with
  | EmptyString => [EmptyString]
  | String c s' =>
      if Ascii.eqb c sep then EmptyString :: split s' sep
      else match split s' sep with
           | w :: ws => String c w :: ws
           | [] => [String c EmptyString]
           end
  end.

(** [sep.join(items)] *)
Fixpoint join (sep : string) (items : list string) : string :=
  match items with
  | [] => EmptyString
  | [x] => x
  | x :: rest => x +:+ sep +:+ join sep rest
  end.

(** [str(n)] for a non-negative integer. *)
Definition str_of_N (n : N) : string := NilZero.string_of_uint (N.to_uint n).

(** Round to the nearest integer, ties to the even one. *)
Definition round_half_even (x : Q) : Z :=
  let f := Qfloor x in
  let r := (x - inject_Z f)%Q in
  match (r ?= 1 # 2)%Q with
  | Lt => f
  | Gt => (f + 1)%Z
  | Eq => if Z.even f then f else (f + 1)%Z
  end.

(** The format specification [:.1f]: one digit after the point. *)
Definition format_1f (x : Q) : string :=
  let n := Z.to_N (round_half_even (Qabs x * 10)%Q) in
  (if Qlt_le_dec x 0 then "-" else "")
    +:+ str_of_N (n / 10) +:+ "." +:+ str_of_N (n mod 10).

End PyStr.

(** ** alert_generator.py: the fallback text and its parser *)

Module AlertText.
Import PyStr.

(** One entry of [risk_templates]. *)
Record Template := mkTemplate {
  titre : string;
  evaluation : string;
  zones_prioritaires : list string;
  actions : list string;
  periode : string;
  urgence : string
}.

Definition template_tres_eleve (group_name group_type : string) (avg_score : Q) :=
  {| titre := "CRISE - " +:+ group_type +:+ " " +:+ group_name;
     evaluation := "Situation de crise avec un risque moyen de "
       +:+ format_1f avg_score +:+ "%. Intervention coordonnée requise.";
     zones_prioritaires :=
       ["Toute la zone affectée";
        "Secteurs agricoles prioritaires";
        "Zones de concentration population"];
     actions :=
       ["Plan d'urgence régional activé";
        "Coordination inter-services renforcée";
        "Ressources mutualisées";
        "Communication unifiée"];
     periode := "Immédiate - 30 jours";
     urgence := "CRITIQUE" |}.

Definition template_eleve (group_name group_type : string) (avg_score : Q) :=
  {| titre := "ALERTE - " +:+ group_type +:+ " " +:+ group_name;
     evaluation := "Risque élevé (" +:+ format_1f avg_score
       +:+ "%) nécessitant une action coordonnée.";
     zones_prioritaires :=
       ["Sous-régions les plus affectées";
        "Bassins versants critiques"];
     actions :=
       ["Surveillance renforcée";
        "Planification des restrictions";
        "Coordination locale"];
     periode := "15-45 jours";
     urgence := "ÉLEVÉE" |}.

Definition template_modere (group_name group_type : string) (avg_score : Q) :=
  {| titre := "VIGILANCE - " +:+ group_type +:+ " " +:+ group_name;
     evaluation := "Situation sous surveillance (" +:+ format_1f avg_score +:+ "%).";
     zones_prioritaires := ["Points chauds identifiés"];
     actions := ["Monitoring continu"; "Préparation des plans"];
     periode := "1-2 mois";
     urgence := "MODÉRÉE" |}.

Definition risk_templates (group_name group_type : string) (avg_score : Q)
  : gmap string Template :=
  <["Très Élevé" := template_tres_eleve group_name group_type avg_score]>
  (<["Élevé" := template_eleve group_name group_type avg_score]>
  (<["Modéré" := template_modere group_name group_type avg_score]> ∅)).

(** The eight blanks that indent every line of the triple-quoted f-string. *)
Definition indent : string := "        ".

(** [generate_fallback_group_alert]; of [indicators] only [len(indicators)]
    is used. *)
Definition generate_fallback_group_alert {A : Type}
    (group_name group_type risk_level : string) (avg_score : Q)
    (indicators : list A) : string :=
  let template :=
    default (template_modere group_name group_type avg_score)
            (risk_templates group_name group_type avg_score !! risk_level) in
  nl
  +:+ indent +:+ "TITRE_GROUPE: " +:+ titre template +:+ nl
  +:+ indent +:+ "ÉVALUATION: " +:+ evaluation template
      +:+ " Basé sur l'analyse de " +:+ str_of_N (N.of_nat (length indicators))
      +:+ " localités échantillons." +:+ nl
  +:+ indent +:+ "ZONES_PRIORITAIRES: " +:+ join "; " (zones_prioritaires template) +:+ nl
  +:+ indent +:+ "ACTIONS_COORDONNÉES: " +:+ join "; " (actions template) +:+ nl
  +:+ indent +:+ "PÉRIODE: " +:+ periode template +:+ nl
  +:+ indent +:+ "URGENCE: " +:+ urgence template +:+ nl
  +:+ indent.

(** A value of the parsed dict: a string, or a list of strings. *)
Inductive field :=
  | Text (s : string)
  | Items (l : list string).

Definition semicolon : ascii := ascii_of_nat 59.

(** The body of the [for line in lines] loop. *)
Definition parse_line (parsed_alert : gmap string field) (line : string)
  : gmap string field :=
  if startswith line "TITRE_GROUPE:" then
    <["titre_groupe" := Text (strip (replace line "TITRE_GROUPE:" ""))]> parsed_alert
  else if startswith line "ÉVALUATION:" then
    <["evaluation" := Text (strip (replace line "ÉVALUATION:" ""))]> parsed_alert
  else if startswith line "ZONES_PRIORITAIRES:" then
    let zones_text := strip (replace line "ZONES_PRIORITAIRES:" "") in
    <["zones_prioritaires" := Items (map strip (split zones_text semicolon))]> parsed_alert
  else if startswith line "ACTIONS_COORDONNÉES:" then
    let actions_text := strip (replace line "ACTIONS_COORDONNÉES:" "") in
    <["actions_coordonnees" := Items (map strip (split actions_text semicolon))]> parsed_alert
  else if startswith line "PÉRIODE:" then
    <["periode" := Text (strip (replace line "PÉRIODE:" ""))]> parsed_alert
  else if startswith line "URGENCE:" then
    <["urgence" := Text (strip (replace line "URGENCE:" ""))]> parsed_alert
  else parsed_alert.

Definition parse_group_alert_message (alert_text : string) : gmap string field :=
  fold_left parse_line (split alert_text nl_char) ∅.

(** The six keys of a fully parsed alert. *)
Definition text_fields : list string := ["titre_groupe"; "evaluation"; "periode"; "urgence"].
Definition list_fields : list string := ["zones_prioritaires"; "actions_coordonnees"].

(** A field is present and non-empty. *)
Definition field_filled (parsed : gmap string field) (key : string) : Prop :=
  match parsed !! key with
  | Some (Text s) => s ≠ ""
  | Some (Items l) => l ≠ [] ∧ Forall (λ x, x ≠ "") l
  | None => False
  end.

(** The four values of a group's risk level. *)
Definition group_risk_levels : list string :=
  ["Très Élevé"; "Élevé"; "Modéré"; "Faible"].

End AlertText.

(** ** NumPy reductions over real-valued sequences *)

Module Np.
Open Scope R_scope.

(** Comparisons of reals are decided (classically). *)
#[global] Instance Rlt_decision (x y : R) : Decision (x < y) := Rlt_dec x y.
#[global] Instance Rgt_decision (x y : R) : Decision (x > y) := Rgt_dec x y.
#[global] Instance Rle_decision (x y : R) : Decision (x <= y) := Rle_dec x y.

Definition sum (l : list R) : R := fold_right Rplus 0 l.

(** [np.mean] *)
Definition mean (l : list R) : R := sum l / INR (length l).

(** [np.std]: the population standard deviation. *)
Definition std (l : list R) : R :=
  sqrt (mean (map (λ x, (x - mean l) * (x - mean l)) l)).

(** [np.max] and [np.min] of a non-empty sequence. *)
Definition max (l : list R) : R :=
  match l with
  | [] => 0
  | x :: rest => fold_left Rmax rest x
  end.

Definition min (l : list R) : R :=
  match l with
  | [] => 0
  | x :: rest => fold_left Rmin rest x
  end.

(** A float as NumPy classifies it: finite, infinite or not a number. *)
Inductive float :=
  | Finite (x : R)
  | PosInf
  | NegInf
  | NaN.

(** [x if not np.isinf(x) and not np.isnan(x) else d] *)
Definition finite_or (d : R) (x : float) : R :=
  match x with
  | Finite v => v
  | _ => d
  end.

(** [enumerate(l)] *)
Definition enumerate {A : Type} (l : list A) : list (nat * A) := imap pair l.

(** The float64 arithmetic of NumPy, where its rounding matters: each
    operation takes the real values of finite floats and returns the real
    value of the float it computes, which need not be the exact result. *)
Record Float64 := mkFloat64 {
  (** [np.sum], [np.mean] and [np.std] of a sequence *)
  fl_sum : list R → R;
  fl_mean : list R → R;
  fl_std : list R → R;
  (** [x - y] and [x / y] *)
  fl_sub : R → R → R;
  fl_div : R → R → R
}.

(** The smallest positive float64, 2^-1074. *)
Definition smallest_subnormal : R := / 2 ^ 1074.

(** What IEEE 754 arithmetic guarantees of the signs, rounding to nearest
    with gradual underflow: a difference of two distinct floats has the sign
    of the exact difference; a quotient by a positive float does not have
    the opposite sign of its numerator, and is not 0 unless the exact
    quotient lies below the smallest positive float. *)
Record ieee_signs (fl : Float64) : Prop := mk_ieee_signs {
  sub_sign : ∀ x y, (y < x → 0 < fl_sub fl x y) ∧ (x < y → fl_sub fl x y < 0);
  div_sign : ∀ a s, 0 < s → (0 < a → 0 <= fl_div fl a s) ∧ (a < 0 → fl_div fl a s <= 0);
  div_nonzero : ∀ a s, 0 < s → smallest_subnormal <= Rabs a / s → fl_div fl a s ≠ 0
}.

(** Arithmetic without rounding. *)
Definition exact : Float64 :=
  {| fl_sum := sum; fl_mean := mean; fl_std := std; fl_sub := Rminus; fl_div := Rdiv |}.

End Np.

(** The three SciPy calls of [calculate_spi]; each may raise. *)
Record Scipy := mkScipy {
  gamma_params : Type;
  (** [stats.gamma.fit(data)], returning shape, location and scale *)
  gamma_fit : list R → option gamma_params;
  (** [stats.gamma.cdf(x, shape, loc, scale)] *)
  gamma_cdf : R → gamma_params → option Np.float;
  (** [stats.norm.ppf(q)] *)
  norm_ppf : Np.float → option Np.float
}.

(** ** drought_calculator.py *)

Module DroughtCalculator.
Open Scope R_scope.

(** The dict returned by [get_climate_data]; absent days are not modelled,
    every sequence holds numbers. Dates are day numbers. *)
Record ClimateData := mkClimateData {
  dates : list Z;
  temperature_2m_max : list R;
  temperature_2m_min : list R;
  temperature_2m_mean : list R;
  precipitation : list R;
  soil_moisture : list R;
  et0 : list R;
  relative_humidity : list R
}.

(** A value of the indicators dict: a number, or the SPI series. *)
Inductive value :=
  | Num (x : R)
  | Series (m : gmap nat R).

Section SPI.
Context (scipy : Scipy).

(** The [len(precipitation) < 7] branch: a z-score for every point. *)
Definition spi_simple (precipitation : list R) : gmap nat R :=
  let mean_precip := Np.mean precipitation in
  let std_precip :=
    if (1 <? length precipitation)%nat then Np.std precipitation else 1 in
  fold_left
    (λ spi_values '(i, precip),
       let spi := if Rlt_dec 0 std_precip
                  then (precip - mean_precip) / std_precip else 0 in
       <[i := spi]> spi_values)
    (Np.enumerate precipitation) ∅.

(** The window of index [i]: [precipitation[:i+1]] at the start, else
    [precipitation[i-period+1:i+1]], whose start [i-period+1] is not
    negative there. *)
Definition spi_window (precipitation : list R) (period i : nat) : list R :=
  if (i <? period - 1)%nat then take (i + 1) precipitation
  else drop (i + 1 - period) (take (i + 1) precipitation).

(** The SPI of one window; the inner [try] is the fit, its bare [except]
    the z-score of the window total. *)
Definition spi_of_window (window : list R) : R :=
  let total_precip := Np.sum window in
  match fitted ← gamma_fit scipy (map (Rmax 0.1) window);
        cdf ← gamma_cdf scipy total_precip fitted;
        norm_ppf scipy cdf with
  | Some spi => Np.finite_or 0 spi
  | None =>
      let mean_window := Np.mean window in
      let std_window := if (1 <? length window)%nat then Np.std window else 1 in
      if Rlt_dec 0 std_window
      then (total_precip - mean_window) / std_window else 0
  end.

(** The [else] branch: an entry for each index whose window holds at least
    seven days. *)
Definition spi_windowed (precipitation : list R) (period : nat) : gmap nat R :=
  fold_left
    (λ spi_values i,
       let window := spi_window precipitation period i in
       if (7 <=? length window)%nat
       then <[i := spi_of_window window]> spi_values
       else spi_values)
    (seq 0 (length precipitation)) ∅.

(** [calculate_spi(precipitation, dates, period=30)]. Nothing raises
    outside the inner [try] on numeric sequences, so the outer handler, which
    would reset every index to 0, is not reached; [dates] is not read. *)
Definition calculate_spi (precipitation : list R) (period : nat) : gmap nat R :=
  if (length precipitation <? 7)%nat then spi_simple precipitation
  else spi_windowed precipitation period.

End SPI.

(** [calculate_spi] once more, with the rounding of its float64 arithmetic
    made explicit: the sums, means and deviations, the subtraction and the
    division are those of [fl]. At exact arithmetic this is [calculate_spi]
    above. *)
Section SPIRounded.
Context (fl : Np.Float64) (scipy : Scipy).

Definition spi_simple_rounded (precipitation : list R) : gmap nat R :=
  let mean_precip := Np.fl_mean fl precipitation in
  let std_precip :=
    if (1 <? length precipitation)%nat then Np.fl_std fl precipitation else 1 in
  fold_left
    (λ spi_values '(i, precip),
       let spi := if Rlt_dec 0 std_precip
                  then Np.fl_div fl (Np.fl_sub fl precip mean_precip) std_precip
                  else 0 in
       <[i := spi]> spi_values)
    (Np.enumerate precipitation) ∅.

Definition spi_of_window_rounded (window : list R) : R :=
  let total_precip := Np.fl_sum fl window in
  match fitted ← gamma_fit scipy (map (Rmax 0.1) window);
        cdf ← gamma_cdf scipy total_precip fitted;
        norm_ppf scipy cdf with
  | Some spi => Np.finite_or 0 spi
  | None =>
      let mean_window := Np.fl_mean fl window in
      let std_window := if (1 <? length window)%nat then Np.fl_std fl window else 1 in
      if Rlt_dec 0 std_window
      then Np.fl_div fl (Np.fl_sub fl total_precip mean_window) std_window else 0
  end.

Definition spi_windowed_rounded (precipitation : list R) (period : nat) : gmap nat R :=
  fold_left
    (λ spi_values i,
       let window := spi_window precipitation period i in
       if (7 <=? length window)%nat
       then <[i := spi_of_window_rounded window]> spi_values
       else spi_values)
    (seq 0 (length precipitation)) ∅.

Definition calculate_spi_rounded (precipitation : list R) (period : nat) : gmap nat R :=
  if (length precipitation <? 7)%nat then spi_simple_rounded precipitation
  else spi_windowed_rounded precipitation period.

End SPIRounded.

(** [calculate_normal_precipitation] *)
Definition calculate_normal_precipitation (days : nat) : R := 3.0 * INR days.

(** [calculate_consecutive_dry_days(precipitation, threshold=0.1)]; the
    loop state is [(max_dry_days, current_dry_days)]. *)
Definition calculate_consecutive_dry_days (precipitation : list R) (threshold : R) : nat :=
  match precipitation with
  | [] => 0%nat
  | _ =>
      fst (fold_left
             (λ '(max_dry_days, current_dry_days) precip,
                if Rlt_dec precip threshold
                then (Nat.max max_dry_days (current_dry_days + 1), current_dry_days + 1)%nat
                else (max_dry_days, 0%nat))
             precipitation (0%nat, 0%nat))
  end.

(** [calculate_heat_stress(temperatures, threshold=35)] *)
Definition calculate_heat_stress (temperatures : list R) (threshold : R) : R :=
  match temperatures with
  | [] => 0
  | _ =>
      let hot_days := length (filter (λ temp, temp > threshold) temperatures) in
      INR hot_days / INR (length temperatures) * 100
  end.

Definition get_default_indicators : gmap string value :=
  <["spi" := Series {[ 0%nat := 0 ]}]>
  (<["spi_mean" := Num 0]>
  (<["precipitation_deficit" := Num 0]>
  (<["consecutive_dry_days" := Num 0]>
  (<["avg_temperature" := Num 25]>
  (<["max_temperature" := Num 30]>
  (<["heat_stress" := Num 0]>
  (<["soil_moisture_mean" := Num 50]>
  (<["soil_moisture_min" := Num 30]>
  (<["et0_mean" := Num 4]>
  (<["water_balance" := Num 0]>
  (<["humidity_mean" := Num 65]> ∅))))))))))).

(** [f(l) if len(l) > 0 else d] *)
Definition if_nonempty (f : list R → R) (l : list R) (d : R) : R :=
  match l with
  | [] => d
  | _ => f l
  end.

(** [calculate_drought_indicators(climate_data)] *)
Definition calculate_drought_indicators (scipy : Scipy)
    (climate_data : option ClimateData) : gmap string value :=
  match climate_data with
  | None => get_default_indicators
  | Some cd =>
      if (length (dates cd) =? 0)%nat then get_default_indicators
      else
        let precip := precipitation cd in
        let spi := calculate_spi scipy precip 30 in
        let spi_mean :=
          if (size spi =? 0)%nat then 0 else Np.mean ((map_to_list spi).*2) in
        let avg_precipitation := if_nonempty Np.mean precip 0 in
        let normal_precipitation := calculate_normal_precipitation (length precip) in
        let deficit :=
          if Rlt_dec 0 normal_precipitation
          then Rmax 0 ((1 - avg_precipitation / normal_precipitation) * 100)
          else 0 in
        <["spi" := Series spi]>
        (<["spi_mean" := Num spi_mean]>
        (<["precipitation_deficit" := Num deficit]>
        (<["consecutive_dry_days" :=
             Num (INR (calculate_consecutive_dry_days precip 0.1))]>
        (<["avg_temperature" := Num (if_nonempty Np.mean (temperature_2m_mean cd) 25)]>
        (<["max_temperature" := Num (if_nonempty Np.max (temperature_2m_max cd) 30)]>
        (<["heat_stress" := Num (calculate_heat_stress (temperature_2m_max cd) 35)]>
        (<["soil_moisture_mean" := Num (if_nonempty Np.mean (soil_moisture cd) 50)]>
        (<["soil_moisture_min" := Num (if_nonempty Np.min (soil_moisture cd) 30)]>
        (<["et0_mean" := Num (if_nonempty Np.mean (et0 cd) 4)]>
        (<["water_balance" :=
             Num (match precip with
                  | [] => 0
                  | _ => Np.sum precip - Np.sum (et0 cd)
                  end)]>
        (<["humidity_mean" := Num (if_nonempty Np.mean (relative_humidity cd) 65)]>
         ∅)))))))))))
  end.

(** The dict returned by [assess_drought_risk]. *)
Record RiskAssessment := mkRiskAssessment {
  risk_level : string;
  risk_score : Z;
  risk_color : string;
  factors : list string;
  spi_value : R;
  precipitation_deficit : R;
  avg_temperature : value;
  recommendations : list string
}.

(** [indicators.get(key, dflt)] where the result is compared with a number:
    comparing the SPI series (a dict) with a number raises. *)
Definition get_num (indicators : gmap string value) (key : string) (dflt : R) : option R :=
  match indicators !! key with
  | None => Some dflt
  | Some (Num x) => Some x
  | Some (Series _) => None
  end.

Definition get_default_risk_assessment : RiskAssessment :=
  {| risk_level := "Indéterminé";
     risk_score := 0;
     risk_color := "gray";
     factors := ["Données insuffisantes pour l'analyse"];
     spi_value := 0;
     precipitation_deficit := 0;
     avg_temperature := Num 25;
     recommendations := ["Collecter plus de données pour une analyse fiable"] |}.

(** [generate_recommendations(risk_level, indicators)] *)
Definition generate_recommendations (risk_level : string)
    (indicators : gmap string value) : option (list string) :=
  let recommendations :=
    if bool_decide (risk_level ∈ ["Élevé"; "Très Élevé"]) then
      ["Activation des plans d'urgence sécheresse";
       "Restrictions d'eau obligatoires";
       "Mise en place de systèmes d'irrigation d'urgence";
       "Surveillance renforcée des ressources en eau";
       "Préparation à la distribution d'aide humanitaire"]
    else if bool_decide (risk_level = "Modéré") then
      ["Sensibilisation des agriculteurs aux économies d'eau";
       "Promotion des pratiques agricoles résilientes";
       "Surveillance accrue des indicateurs climatiques";
       "Planification des mesures de restriction volontaire"]
    else
      ["Surveillance de routine des paramètres climatiques";
       "Maintien des bonnes pratiques de gestion de l'eau";
       "Planification à long terme de l'adaptation climatique"] in
  soil_moisture ← get_num indicators "soil_moisture_mean" 100;
  let recommendations :=
    if Rlt_dec soil_moisture 30
    then (recommendations ++ ["Irrigation de sauvegarde recommandée pour les cultures sensibles"])%list
    else recommendations in
  dry_days ← get_num indicators "consecutive_dry_days" 0;
  let recommendations :=
    if Rgt_dec dry_days 15
    then (recommendations ++ ["Évaluation des besoins en fourrage pour le bétail"])%list
    else recommendations in
  heat_stress ← get_num indicators "heat_stress" 0;
  let recommendations :=
    if Rgt_dec heat_stress 40
    then (recommendations ++ ["Mise en place de zones d'ombre et d'abreuvement pour le bétail"])%list
    else recommendations in
  Some recommendations.

(** The points and reason of each of the five factors, in the order the
    code adds them. *)
Definition spi_factor (spi_mean : R) : Z * list string :=
  if Rle_dec spi_mean (-2.0) then (40%Z, ["SPI très bas (sécheresse extrême)"])
  else if Rle_dec spi_mean (-1.5) then (30%Z, ["SPI bas (sécheresse sévère)"])
  else if Rle_dec spi_mean (-1.0) then (20%Z, ["SPI modérément bas"])
  else if Rle_dec spi_mean (-0.5) then (10%Z, ["SPI légèrement bas"])
  else (0%Z, []).

Definition deficit_factor (deficit : R) : Z * list string :=
  if Rgt_dec deficit 60 then (30%Z, ["Déficit pluviométrique extrême"])
  else if Rgt_dec deficit 40 then (20%Z, ["Déficit pluviométrique sévère"])
  else if Rgt_dec deficit 20 then (10%Z, ["Déficit pluviométrique modéré"])
  else (0%Z, []).

Definition dry_days_factor (dry_days : R) : Z * list string :=
  if Rgt_dec dry_days 20 then (20%Z, ["Longue période sans pluie"])
  else if Rgt_dec dry_days 10 then (10%Z, ["Période sèche prolongée"])
  else (0%Z, []).

Definition heat_factor (heat_stress : R) : Z * list string :=
  if Rgt_dec heat_stress 50 then (10%Z, ["Fort stress thermique"])
  else (0%Z, []).

Definition soil_factor (soil_moisture : R) : Z * list string :=
  if Rlt_dec soil_moisture 20 then (15%Z, ["Humidité du sol très critique"])
  else if Rlt_dec soil_moisture 30 then (10%Z, ["Humidité du sol faible"])
  else (0%Z, []).

(** [risk_score += points; factors.append(reason)] *)
Definition add_factor (acc : Z * list string) (f : Z * list string) : Z * list string :=
  ((acc.1 + f.1)%Z, (acc.2 ++ f.2)%list).

(** The level and colour of a score. *)
Definition classify (risk_score : Z) : string * string :=
  if (70 <=? risk_score)%Z then ("Très Élevé", "red")
  else if (50 <=? risk_score)%Z then ("Élevé", "orange")
  else if (30 <=? risk_score)%Z then ("Modéré", "yellow")
  else if (15 <=? risk_score)%Z then ("Faible", "blue")
  else ("Très Faible", "green").

(** The body of the [try] of [assess_drought_risk]. *)
Definition assess_drought_risk_try (indicators : gmap string value)
  : option RiskAssessment :=
  let acc := (0%Z, []) in
  spi_mean ← get_num indicators "spi_mean" 0;
  let acc := add_factor acc (spi_factor spi_mean) in
  deficit ← get_num indicators "precipitation_deficit" 0;
  let acc := add_factor acc (deficit_factor deficit) in
  dry_days ← get_num indicators "consecutive_dry_days" 0;
  let acc := add_factor acc (dry_days_factor dry_days) in
  heat_stress ← get_num indicators "heat_stress" 0;
  let acc := add_factor acc (heat_factor heat_stress) in
  soil_moisture ← get_num indicators "soil_moisture_mean" 50;
  let acc := add_factor acc (soil_factor soil_moisture) in
  let '(risk_score, factors) := acc in
  let '(risk_level, color) := classify risk_score in
  recommendations ← generate_recommendations risk_level indicators;
  Some {| risk_level := risk_level;
          risk_score := risk_score;
          risk_color := color;
          factors := factors;
          spi_value := spi_mean;
          precipitation_deficit := deficit;
          avg_temperature := default (Num 0) (indicators !! "avg_temperature");
          recommendations := recommendations |}.

(** [assess_drought_risk(indicators)]: the [except] clause returns the
    default assessment. *)
Definition assess_drought_risk (indicators : gmap string value) : RiskAssessment :=
  default get_default_risk_assessment (assess_drought_risk_try indicators).

End DroughtCalculator.

(** ** app.py: drought periods *)

Module DroughtPeriods.
Import DroughtCalculator.
Open Scope R_scope.

(** [current_period] while it is open. *)
Record Current := mkCurrent {
  cur_start_date : Z;
  cur_start_index : nat;
  cur_dry_days : nat;
  cur_total_precip : R
}.

(** A period once closed, with the keys of the dict. *)
Record Period := mkPeriod {
  start_date : Z;
  start_index : nat;
  dry_days : nat;
  total_precip : R;
  end_date : Z;
  end_index : nat;
  avg_precip : R;
  avg_deficit : R;
  intensity : string
}.

(** [assess_drought_intensity(duration, deficit)] *)
Definition assess_drought_intensity (duration : nat) (deficit : R) : string :=
  let intensity_score := INR duration * deficit in
  if Rgt_dec intensity_score 10 then "extrême"
  else if Rgt_dec intensity_score 5 then "sévère"
  else if Rgt_dec intensity_score 2 then "modérée"
  else "faible".

(** The five assignments that close a period. *)
Definition close (dry_threshold : R) (cur : Current) (end_date : Z) (end_index : nat)
  : Period :=
  let avg_precip := cur_total_precip cur / INR (cur_dry_days cur) in
  let avg_deficit := dry_threshold - avg_precip in
  {| start_date := cur_start_date cur;
     start_index := cur_start_index cur;
     dry_days := cur_dry_days cur;
     total_precip := cur_total_precip cur;
     end_date := end_date;
     end_index := end_index;
     avg_precip := avg_precip;
     avg_deficit := avg_deficit;
     intensity := assess_drought_intensity (cur_dry_days cur) avg_deficit |}.

(** One turn of the loop over [enumerate(zip(dates, precipitation))]; the
    state is [(drought_periods, current_period)]. *)
Definition scan_day (dry_threshold : R)
    (state : list Period * option Current) (item : nat * (Z * R))
  : list Period * option Current :=
  let '(drought_periods, current_period) := state in
  let '(i, (date, precip)) := item in
  if Rlt_dec precip dry_threshold then
    match current_period with
    | None =>
        (drought_periods,
         Some {| cur_start_date := date; cur_start_index := i;
                 cur_dry_days := 1; cur_total_precip := precip |})
    | Some cur =>
        (drought_periods,
         Some {| cur_start_date := cur_start_date cur;
                 cur_start_index := cur_start_index cur;
                 cur_dry_days := cur_dry_days cur + 1;
                 cur_total_precip := cur_total_precip cur + precip |})
    end
  else
    match current_period with
    | Some cur =>
        let closed := close dry_threshold cur (date - 1)%Z (i - 1)%nat in
        (if (3 <=? cur_dry_days cur)%nat
         then (drought_periods ++ [closed])%list else drought_periods,
         None)
    | None => (drought_periods, None)
    end.

(** [detect_drought_periods(climate_data, drought_indicators,
    dry_threshold=0.1)], up to its [return]; [drought_indicators] is not
    read. *)
Definition detect_drought_periods (climate_data : ClimateData)
    (drought_indicators : gmap string value) (dry_threshold : R) : list Period :=
  let dates := dates climate_data in
  let '(drought_periods, current_period) :=
    fold_left (scan_day dry_threshold)
              (Np.enumerate (zip dates (precipitation climate_data)))
              ([], None) in
  match current_period with
  | Some cur =>
      if (3 <=? cur_dry_days cur)%nat
      then (drought_periods
              ++ [close dry_threshold cur (List.last dates 0%Z) (length dates - 1)%nat])%list
      else drought_periods
  | None => drought_periods
  end.

End DroughtPeriods.

(** ** alert_generator.py: group alerts *)

Module AlertGenerator.
Import AlertText.

(** A row of the localities table. *)
Record Locality := mkLocality {
  localite : string;
  region : string;
  zone : string;
  latitude : R;
  longitude : R
}.

(** What the generator calls and does not compute itself.
    [get_climate_data] returns [None] when it raises and [Some None] when it
    returns a falsy value. *)
Record Services := mkServices {
  scipy : Scipy;
  (** [DataFrame.sample(n=k, random_state=42)] *)
  sample : nat → list Locality → list Locality;
  (** [DataFrame.groupby(column)]: the keys with their rows *)
  groupby : (Locality → string) → list Locality → list (string * list Locality);
  get_climate_data : R → R → string → option (option DroughtCalculator.ClimateData);
  (** [os.getenv('DEEPSEEK_API_KEY')] *)
  api_key : option string;
  (** [datetime.now().isoformat()] *)
  now_isoformat : string
}.

(** An entry of [group_indicators]. *)
Record SampleIndicator := mkSampleIndicator {
  ind_localite : string;
  ind_risk_level : string;
  ind_risk_score : Z;
  ind_spi : DroughtCalculator.value;
  ind_deficit : DroughtCalculator.value;
  ind_dry_days : DroughtCalculator.value
}.

(** The dict returned by [generate_group_alert]. *)
Record GroupAlert := mkGroupAlert {
  groupe_nom : string;
  groupe_type : string;
  localites_echantillon : list string;
  total_localites : nat;
  periode_analyse : string;
  date_generation : string;
  niveau_risque_groupe : string;
  score_risque_moyen : Q;
  ratio_risque_eleve : Q;
  indicateurs_echantillon : list SampleIndicator;
  alerte : string;
  recommandations_prioritaires : gmap string string
}.

(** [self.call_deepseek_api(prompt)]: the class defines no such method, so
    the attribute lookup raises whatever the prompt. *)
Definition call_deepseek_api (prompt : string) : option string := None.

(** [generate_group_ai_alert]. The prompt is built first, from a non-empty
    sample and without raising; its text is not modelled, the call that
    would receive it raises. *)
Definition generate_group_ai_alert (env : Services)
    (group_name group_type : string) (indicators : list SampleIndicator)
    (risk_level : string) (avg_score : Q) (total_localities : nat) : string :=
  match api_key env with
  | None | Some EmptyString =>
      generate_fallback_group_alert group_name group_type risk_level avg_score indicators
  | Some _ =>
      let prompt := EmptyString in
      match call_deepseek_api prompt with
      | Some response => response
      | None =>
          generate_fallback_group_alert group_name group_type risk_level avg_score indicators
      end
  end.

Definition recommendation (coordination communication ressources surveillance : string)
  : gmap string string :=
  <["coordination" := coordination]>
  (<["communication" := communication]>
  (<["ressources" := ressources]>
  (<["surveillance" := surveillance]> ∅))).

(** [generate_group_recommendations(risk_level, group_type)] *)
Definition generate_group_recommendations (risk_level group_type : string)
  : gmap string string :=
  let modere :=
    recommendation "Point bi-hebdomadaire" "Bulletin d'information régulier"
                   "Évaluation des stocks" "Monitoring standard" in
  let recommendations : gmap string (gmap string string) :=
    <["Très Élevé" :=
        recommendation "Activation cellule de crise régionale"
                       "Alerte unifiée à toute la population"
                       "Mobilisation ressources d'urgence"
                       "Monitoring horaire des indicateurs"]>
    (<["Élevé" :=
        recommendation "Réunion hebdomadaire des acteurs"
                       "Information ciblée aux agriculteurs"
                       "Prépositionnement des ressources"
                       "Surveillance quotidienne renforcée"]>
    (<["Modéré" := modere]>
    (<["Faible" :=
        recommendation "Réunion mensuelle" "Information standard"
                       "Maintenance routine" "Contrôle périodique"]> ∅))) in
  default modere (recommendations !! risk_level).

(** [level in ['Élevé', 'Très Élevé']] *)
Definition is_high_risk (level : string) : bool :=
  bool_decide (level ∈ ["Élevé"; "Très Élevé"]).

(** One turn of the loop over the sampled localities; the state is
    [(group_indicators, high_risk_count, total_risk_score)]. A sample whose
    data cannot be fetched, or is falsy, leaves the state as it is. *)
Definition analyse_sample (env : Services) (analysis_period : string)
    (state : list SampleIndicator * nat * Z) (locality : Locality)
  : list SampleIndicator * nat * Z :=
  let '(group_indicators, high_risk_count, total_risk_score) := state in
  match get_climate_data env (latitude locality) (longitude locality) analysis_period with
  | Some (Some climate_data) =>
      let drought_indicators :=
        DroughtCalculator.calculate_drought_indicators (scipy env) (Some climate_data) in
      let risk_assessment := DroughtCalculator.assess_drought_risk drought_indicators in
      let entry :=
        {| ind_localite := localite locality;
           ind_risk_level := DroughtCalculator.risk_level risk_assessment;
           ind_risk_score := DroughtCalculator.risk_score risk_assessment;
           ind_spi := default (DroughtCalculator.Num 0) (drought_indicators !! "spi_mean");
           ind_deficit :=
             default (DroughtCalculator.Num 0) (drought_indicators !! "precipitation_deficit");
           ind_dry_days :=
             default (DroughtCalculator.Num 0) (drought_indicators !! "consecutive_dry_days") |} in
      ((group_indicators ++ [entry])%list,
       if is_high_risk (DroughtCalculator.risk_level risk_assessment)
       then (high_risk_count + 1)%nat else high_risk_count,
       (total_risk_score + DroughtCalculator.risk_score risk_assessment)%Z)
  | Some None | None => state
  end.

(** The group's level from the share of high-risk samples and the average
    score. *)
Definition group_level (high_risk_ratio avg_risk_score : Q) : string :=
  if Qle_bool 0.7 high_risk_ratio || Qle_bool 70 avg_risk_score then "Très Élevé"
  else if Qle_bool 0.4 high_risk_ratio || Qle_bool 50 avg_risk_score then "Élevé"
  else if Qle_bool 0.2 high_risk_ratio || Qle_bool 30 avg_risk_score then "Modéré"
  else "Faible".

(** [generate_group_alert]; [None] is the [return None] of a group without
    any analysed sample. *)
Definition generate_group_alert (env : Services) (group_name : string)
    (group_localities : list Locality) (analysis_period group_type : string)
  : option GroupAlert :=
  let sample_size := Nat.min 3 (length group_localities) in
  let sample_localities := sample env sample_size group_localities in
  let '(group_indicators, high_risk_count, total_risk_score) :=
    fold_left (analyse_sample env analysis_period) sample_localities ([], 0%nat, 0%Z) in
  match group_indicators with
  | [] => None
  | _ =>
      let n := inject_Z (Z.of_nat (length group_indicators)) in
      let avg_risk_score := (inject_Z total_risk_score / n)%Q in
      let high_risk_ratio := (inject_Z (Z.of_nat high_risk_count) / n)%Q in
      let group_risk_level := group_level high_risk_ratio avg_risk_score in
      let alert_message :=
        generate_group_ai_alert env group_name group_type group_indicators
          group_risk_level avg_risk_score (length group_localities) in
      Some {| groupe_nom := group_name;
              groupe_type := group_type;
              localites_echantillon := map ind_localite group_indicators;
              total_localites := length group_localities;
              periode_analyse := analysis_period;
              date_generation := now_isoformat env;
              niveau_risque_groupe := group_risk_level;
              score_risque_moyen := avg_risk_score;
              ratio_risque_eleve := high_risk_ratio;
              indicateurs_echantillon := group_indicators;
              alerte := alert_message;
              recommandations_prioritaires :=
                generate_group_recommendations group_risk_level group_type |}
  end.

(** The loop of [generate_alerts_by_group]: [if group_alert:
    alerts.append(group_alert)]. Nothing in [generate_group_alert] raises
    past its own handlers, so the loop's [except] is not reached. *)
Definition alerts_of_groups (env : Services) (analysis_period group_by : string)
    (groups : list (string * list Locality)) : list GroupAlert :=
  fold_left
    (λ alerts '(group_name_value, group_localities),
       match generate_group_alert env group_name_value group_localities
               analysis_period group_by with
       | Some group_alert => (alerts ++ [group_alert])%list
       | None => alerts
       end)
    groups [].

(** [generate_alerts_by_group]; for any other [group_by] it calls
    [generate_alerts_for_all_localities], which the class does not define:
    [None] is that error. *)
Definition generate_alerts_by_group (env : Services) (localities_df : list Locality)
    (analysis_period group_by : string) : option (list GroupAlert) :=
  if bool_decide (group_by = "region") then
    Some (alerts_of_groups env analysis_period group_by (groupby env region localities_df))
  else if bool_decide (group_by = "zone") then
    Some (alerts_of_groups env analysis_period group_by (groupby env zone localities_df))
  else None.

End AlertGenerator.

(** ** forecast_analyzer.py: simulated forecasts *)

(** NumPy's global random generator: seeding replaces its state, every draw
    reads and advances it. *)
Record NumpyRandom := mkNumpyRandom {
  rng : Type;
  (** [np.random.seed(s)] *)
  seed : Z → rng;
  (** [np.random.normal(loc, scale, size)] *)
  normal : Q → Q → nat → rng → list Q * rng;
  (** [np.random.exponential(scale, size)] *)
  exponential : Q → nat → rng → list Q * rng;
  (** [np.random.binomial(n, p)] for an array [p] *)
  binomial : nat → list Q → rng → list Q * rng
}.

(** A draw returns as many samples as requested. *)
Definition draws_as_requested (np : NumpyRandom) : Prop :=
  (∀ loc scale n st, length (normal np loc scale n st).1 = n)
  ∧ (∀ scale n st, length (exponential np scale n st).1 = n)
  ∧ (∀ n p st, length (binomial np n p st).1 = length p).

Module Forecast.
Import PyStr.
Open Scope Q_scope.

(** A reading of [datetime.now()]: microseconds of local time since the
    first of January 1970. *)
Definition microseconds_per_day : Z := 86400000000.

Definition day_of (t : Z) : Z := (t / microseconds_per_day)%Z.
Definition time_of_day (t : Z) : Z := (t mod microseconds_per_day)%Z.

(** [timedelta(days=n)] *)
Definition days (n : Z) : Z := (n * microseconds_per_day)%Z.

(** Year, month and day of a day number (proleptic Gregorian calendar). *)
Definition civil_of_days (d : Z) : Z * Z * Z :=
  let z := (d + 719468)%Z in
  let era := (z / 146097)%Z in
  let doe := (z - era * 146097)%Z in
  let yoe := ((doe - doe / 1460 + doe / 36524 - doe / 146096) / 365)%Z in
  let doy := (doe - (365 * yoe + yoe / 4 - yoe / 100))%Z in
  let mp := ((5 * doy + 2) / 153)%Z in
  let day := (doy - (153 * mp + 2) / 5 + 1)%Z in
  let month := (if (mp <? 10)%Z then mp + 3 else mp - 9)%Z in
  let year := (yoe + era * 400 + (if (month <=? 2)%Z then 1 else 0))%Z in
  (year, month, day).

(** The last day of a month is followed by a first. *)
Definition is_month_end (d : Z) : bool := ((civil_of_days (d + 1)).2 =? 1)%Z.

(** [pd.date_range(start, end, freq='D')]: [start], [start] + 1 day, ... up
    to [end]. *)
Definition date_range_daily (start end_ : Z) : list Z :=
  if (end_ <? start)%Z then []
  else map (λ k, (start + days k)%Z) (seqZ 0 ((end_ - start) / microseconds_per_day + 1)).

(** [pd.date_range(start, end, freq='M')]: the month ends from [start] on,
    at the time of day of [start], up to [end]. *)
Definition date_range_monthly (start end_ : Z) : list Z :=
  filter (λ t, (t <= end_)%Z)
    (map (λ d, (days d + time_of_day start)%Z)
       (filter (λ d, is_month_end d = true)
          (seqZ (day_of start) (day_of end_ - day_of start + 1)))).

(** The float64 arithmetic of the forecasts, on the values of finite
    floats: each operation returns the value of the float that is computed,
    which need not be the exact result. *)
Record Arith := mkArith {
  fadd : Q → Q → Q;
  fsub : Q → Q → Q;
  fmul : Q → Q → Q;
  fdiv : Q → Q → Q
}.

(** Arithmetic without rounding. *)
Definition exact : Arith :=
  {| fadd := Qplus; fsub := Qminus; fmul := Qmult; fdiv := Qdiv |}.

(** [np.linspace(a, b, n)]: [a + i * step] for the step [(b - a) / (n - 1)],
    the last value being [b] itself. *)
Definition linspace (fl : Arith) (a b : Q) (n : nat) : list Q :=
  match n with
  | O => []
  | S O => [a]
  | S n' =>
      let step := fdiv fl (fsub fl b a) (inject_Z (Z.of_nat n')) in
      (map (λ i, fadd fl (fmul fl (inject_Z (Z.of_nat i)) step) a) (seq 0 n') ++ [b])%list
  end.

(** [int(x)]: truncation toward zero. *)
Definition int_of (x : Q) : Z := (Qnum x ÷ Z.pos (Qden x))%Z.

(** [np.random.seed(s)] raises unless [0 <= s < 2**32]; otherwise the state
    [st] the global generator was in is replaced. *)
Definition np_seed (np : NumpyRandom) (s : Z) (st : rng np) : option (rng np) :=
  if ((0 <=? s) && (s <? 2 ^ 32))%Z then Some (seed np s) else None.

(** The dict of a forecast; the keys a horizon does not set are [None]. *)
Record ForecastData := mkForecastData {
  dates : list Z;
  temperature_max : list Q;
  temperature_min : option (list Q);
  precipitation : list Q;
  et0 : option (list Q);
  type : string;
  timeframe : string;
  confidence : Q;
  warming_trend : option (list Q);
  precip_trend : option (list Q)
}.

(** [get_30day_forecast(latitude, longitude)]. The clock is read twice,
    first for [end_date], then for the start of the range. [st] is the state
    the global generator is in when the call is made, left there by whatever
    drew from it before; the result comes with the state the generator is
    left in. [None] is the error of a seed out of range. *)
Definition get_30day_forecast (fl : Arith) (np : NumpyRandom) (now_end now_start : Z)
    (latitude longitude : Q) (st : rng np) : option (ForecastData * rng np) :=
  let end_date := (now_end + days 30)%Z in
  let dates := date_range_daily now_start end_date in
  let n := length dates in
  st ← np_seed np (int_of (fadd fl (fmul fl latitude 100) longitude)) st;
  let base_temp := fadd fl 25 (fmul fl (fsub fl latitude 5) 0.5) in
  let '(noise, st) := normal np 3 2 n st in
  let temperature_max := map (fadd fl base_temp) noise in
  let '(noise, st) := normal np (-3) 2 n st in
  let temperature_min := map (fadd fl base_temp) noise in
  let rain_prob := linspace fl 0.3 0.1 n in
  let '(amounts, st) := exponential np 5 n st in
  let '(rains, st) := binomial np 1 rain_prob st in
  let precipitation := zip_with (fmul fl) amounts rains in
  let '(et0, st) := normal np 4 1 n st in
  Some ({| dates := dates;
           temperature_max := temperature_max;
           temperature_min := Some temperature_min;
           precipitation := precipitation;
           et0 := Some et0;
           type := "30days";
           timeframe := "30 jours";
           confidence := 0.7;
           warming_trend := None;
           precip_trend := None |}, st).

(** [get_longterm_forecast(latitude, longitude, years=1)]. The clock is
    read for the start, then for the end of the range; [st] is the state of
    the global generator when the call is made. *)
Definition get_longterm_forecast (fl : Arith) (np : NumpyRandom) (now_start now_end : Z)
    (latitude longitude : Q) (years : N) (st : rng np)
  : option (ForecastData * rng np) :=
  let dates :=
    date_range_monthly now_start (now_end + days (365 * Z.of_N years))%Z in
  let n := length dates in
  st ← np_seed np (int_of (fadd fl (fmul fl latitude 100) longitude)) st;
  let base_temp := fadd fl 25 (fmul fl (fsub fl latitude 5) 0.5) in
  let warming_trend := linspace fl 0 (fmul fl 0.8 (inject_Z (Z.of_N years))) n in
  let '(noise, st) := normal np 0 2 n st in
  let temperature_max :=
    zip_with (fadd fl) (map (fadd fl base_temp) warming_trend) noise in
  let precip_trend := linspace fl 0 (fmul fl (-0.1) (inject_Z (Z.of_N years))) n in
  let '(amounts, st) := exponential np 80 n st in
  let precipitation :=
    map (Qmax 0) (zip_with (fadd fl) amounts (map (λ x, fmul fl x 20) precip_trend)) in
  Some ({| dates := dates;
           temperature_max := temperature_max;
           temperature_min := None;
           precipitation := precipitation;
           et0 := None;
           type := str_of_N years +:+ "year";
           timeframe := str_of_N years +:+ " an(s)";
           confidence := 0.5;
           warming_trend := Some warming_trend;
           precip_trend := Some precip_trend |}, st).

End Forecast.

(** ** flood_monitoring: config.py and flood_calculator.py *)

Module Flood.
Open Scope Q_scope.

(** [str.lower()] on ASCII letters and on the accented capitals of Latin-1,
    whose UTF-8 form is the byte 195 followed by 128..158 (215, the
    multiplication sign, excepted); other bytes are kept. *)
Fixpoint lower_go (after_195 : bool) (s : string) : string :=
  match s with
  | EmptyString => EmptyString
  | String c s' =>
      let n := nat_of_ascii c in
      let c' :=
        if after_195 then
          if ((128 <=? n) && (n <=? 158) && negb (n =? 151))%nat
          then ascii_of_nat (n + 32) else c
        else if ((65 <=? n) && (n <=? 90))%nat then ascii_of_nat (n + 32) else c in
      String c' (lower_go (n =? 195)%nat s')
  end.

Definition lower (s : string) : string := lower_go false s.

(** [sub in s] *)
Fixpoint contains (s sub : string) : bool :=
  String.prefix sub s
  || match s with
     | String _ s' => contains s' sub
     | EmptyString => false
     end.

(** [s[:n]]: the first [n] characters; a byte 128..191 continues the
    character before it. *)
Fixpoint take_chars (n : nat) (s : string) : string :=
  match s with
  | EmptyString => EmptyString
  | String c s' =>
      let b := nat_of_ascii c in
      if ((128 <=? b) && (b <=? 191))%nat then String c (take_chars n s')
      else match n with
           | O => EmptyString
           | S k => String c (take_chars k s')
           end
  end.

(** [Config.PRECIPITATION_THRESHOLDS] *)
Definition intensity_hourly : Q := 50.
Definition cumul_3h : Q := 100.
Definition cumul_daily : Q := 200.
Definition soil_moisture_threshold : Q := 85.

(** An entry of [Config.ALERT_LEVELS]. *)
Record AlertDetails := mkAlertDetails {
  color : string;
  delay : string;
  actions : string
}.

Definition ALERT_LEVELS : gmap string AlertDetails :=
  <["Vigilance" := {| color := "green"; delay := "72-48h";
                      actions := "Surveillance renforcée" |}]>
  (<["Pré-alerte" := {| color := "yellow"; delay := "48-24h";
                        actions := "Préparation communautaire" |}]>
  (<["Alerte" := {| color := "orange"; delay := "24-6h";
                    actions := "Mise en sécurité biens/matériels" |}]>
  (<["Alerte Maximale" := {| color := "red"; delay := "<6h";
                             actions := "Évacuation populations" |}]> ∅))).

(** The Python values the calculator is given: what [response.json()]
    decodes and what a row of the localities table holds. A scalar is
    [None], a boolean, a number or a string; a list holds scalars; a dict
    has string keys, each once. Numbers are finite: an integer too large
    for a float, an infinity and a NaN are not modelled. *)
Inductive scalar :=
  | SNone
  | SBool (b : bool)
  | SNum (x : Q)
  | SStr (s : string).

Inductive value :=
  | VScalar (a : scalar)
  | VList (l : list scalar)
  | VDict (d : list (string * value)).

(** The value stored under a key. *)
Fixpoint item (d : list (string * value)) (key : string) : option value :=
  match d with
  | [] => None
  | (k, v) :: rest => if String.eqb k key then Some v else item rest key
  end.

(** [d.get(key, dflt)]; anything but a dict has no [get]. *)
Definition get (d : value) (key : string) (dflt : value) : option value :=
  match d with
  | VDict items => Some (default dflt (item items key))
  | _ => None
  end.

(** [x[:24]]: a list or a string is sliced, anything else raises. *)
Definition slice24 (x : value) : option value :=
  match x with
  | VList l => Some (VList (take 24 l))
  | VScalar (SStr s) => Some (VScalar (SStr (take_chars 24 s)))
  | _ => None
  end.

(** [x[0]]: the first item of a list or the first character of a string;
    an empty sequence, a dict (its keys are strings) and a scalar raise. *)
Definition first (x : value) : option value :=
  match x with
  | VList (a :: _) => Some (VScalar a)
  | VScalar (SStr (String c s)) => Some (VScalar (SStr (take_chars 1 (String c s))))
  | _ => None
  end.

(** A scalar in arithmetic: a number, or a boolean, which counts as 0 or
    1; [None] and strings raise. *)
Definition number (a : scalar) : option Q :=
  match a with
  | SNum x => Some x
  | SBool b => Some (if b then 1 else 0)
  | _ => None
  end.

(** A value in arithmetic. *)
Definition as_number (x : value) : option Q :=
  match x with
  | VScalar a => number a
  | _ => None
  end.

(** The items of a sliced sequence as numbers, for [sum], [max] and
    [np.mean]: the items of a list must all be numbers; of the strings only
    the empty one, which has no item, does not raise. *)
Definition numbers (x : value) : option (list Q) :=
  match x with
  | VList l => mapM number l
  | VScalar (SStr EmptyString) => Some []
  | _ => None
  end.

(** [x == s] for a string literal [s]. *)
Definition is_str (x : value) (s : string) : bool :=
  match x with
  | VScalar (SStr t) => String.eqb t s
  | _ => false
  end.

(** [str(x)], which never raises: a string is itself; the text of any other
    value is left to [str_of]. *)
Definition py_str (str_of : value → string) (x : value) : string :=
  match x with
  | VScalar (SStr s) => s
  | _ => str_of x
  end.

(** A value of the details dict. *)
Inductive detail :=
  | DNum (x : Q)
  | DVal (v : value)
  | DAlert (a : AlertDetails).

Definition sum (l : list Q) : Q := fold_right Qplus 0 l.

(** [max(l) if l else 0] *)
Definition max_or_zero (l : list Q) : Q :=
  match l with
  | [] => 0
  | x :: rest => fold_left Qmax rest x
  end.

(** [np.mean(l) if l else d] *)
Definition mean_or (d : Q) (l : list Q) : Q :=
  match l with
  | [] => d
  | _ => sum l / inject_Z (Z.of_nat (length l))
  end.

Section Calculator.
(** [str] on values that are not strings. *)
Context (str_of : value → string).

(** [_calculate_ffg(precipitation, flood_type)] *)
Definition _calculate_ffg (precipitation flood_type : value) : option Q :=
  precip ← numbers precipitation;
  let total_precip := sum precip in
  let max_hourly := max_or_zero precip in
  let threshold_factor :=
    if is_str flood_type "Côtière" then 0.8
    else if is_str flood_type "Pluviale" then 1.0
    else 1.2 in
  Some (Qmin ((max_hourly / (intensity_hourly * threshold_factor)) * 0.6
              + (total_precip / (cumul_daily * threshold_factor)) * 0.4)
             1.0).

(** [_calculate_ifs(precipitation, humidity, locality_data)] *)
Definition _calculate_ifs (precipitation humidity locality_data : value) : option Q :=
  zone ← get locality_data "zone" (VScalar (SStr ""));
  let zone := lower (py_str str_of zone) in
  factors ← get locality_data "facteurs_aggravation" (VScalar (SStr ""));
  let factors := lower (py_str str_of factors) in
  let impermeability_factor := 1.0 in
  let impermeability_factor :=
    if existsb (contains zone) ["urbain"; "côtière"] then 1.3
    else impermeability_factor in
  let impermeability_factor :=
    if contains factors "urbanisation" then 1.5 else impermeability_factor in
  hum ← numbers humidity;
  let avg_humidity := mean_or 60 hum in
  let humidity_factor := avg_humidity / 100 in
  precip ← numbers precipitation;
  let precip_intensity := mean_or 0 precip in
  let intensity_factor := Qmin (precip_intensity / 20) 1.0 in
  Some (Qmin (impermeability_factor * (intensity_factor * 0.7 + humidity_factor * 0.3))
             1.0).

(** [_calculate_soil_saturation(weather_data, locality_data)] *)
Definition _calculate_soil_saturation (weather_data locality_data : value) : option Q :=
  sequence ← get weather_data "soil_moisture" (VList [SNum 50]);
  soil_moisture ← first sequence;
  altitude ← get locality_data "altitude" (VScalar (SNum 100));
  altitude ← as_number altitude;
  let altitude_factor := Qmax 0.5 (1 - altitude / 1000) in
  soil_moisture ← as_number soil_moisture;
  let saturation := Qmin (soil_moisture / soil_moisture_threshold) 1.0 in
  Some (saturation * altitude_factor).

(** [_get_flood_type_factor(flood_type, locality_data)]; a list or a dict
    cannot be looked up in [base_factors], it is not hashable. *)
Definition _get_flood_type_factor (flood_type locality_data : value) : option Q :=
  let base_factors : gmap string Q :=
    <["Côtière" := 1.2]> (<["Pluviale" := 1.1]> (<["Fluviale" := 1.0]>
    (<["Mixte" := 1.15]> ∅))) in
  base_factor ←
    match flood_type with
    | VScalar (SStr s) => Some (default 1.0 (base_factors !! s))
    | VScalar _ => Some 1.0
    | _ => None
    end;
  factors ← get locality_data "facteurs_aggravation" (VScalar (SStr ""));
  let factors := lower (py_str str_of factors) in
  let base_factor :=
    if existsb (contains factors) ["drainage insuffisant"; "défrichement"]
    then base_factor * 1.2 else base_factor in
  Some (Qmin base_factor 1.5 / 1.5).

(** [_determine_alert_level(risk_score, precipitation)]; a level missing
    from the table would raise. *)
Definition _determine_alert_level (risk_score : Q) (precipitation : value)
  : option (string * AlertDetails) :=
  precip ← numbers precipitation;
  let max_precip := max_or_zero precip in
  let intensity_factor := Qmin (max_precip / intensity_hourly) 2.0 in
  let adjusted_score := Qmin (risk_score * intensity_factor) 1.0 in
  let level :=
    if Qle_bool 0.8 adjusted_score then "Alerte Maximale"
    else if Qle_bool 0.6 adjusted_score then "Alerte"
    else if Qle_bool 0.4 adjusted_score then "Pré-alerte"
    else "Vigilance" in
  alert_details ← ALERT_LEVELS !! level;
  Some (level, alert_details).

(** The body of the [try] of [calculate_risk]; [None] is an exception. *)
Definition calculate_risk_try (weather_data locality_data : value)
  : option (string * Q * gmap string detail) :=
  hourly_data ← get weather_data "hourly" (VDict []);
  daily_data ← get weather_data "daily" (VDict []);
  precipitation ← get hourly_data "precipitation" (VList [SNum 0]);
  precipitation ← slice24 precipitation;
  temperature ← get hourly_data "temperature_2m" (VList [SNum 25]);
  temperature ← slice24 temperature;
  humidity ← get hourly_data "relative_humidity_2m" (VList [SNum 60]);
  humidity ← slice24 humidity;
  flood_type ← get locality_data "type_inondation" (VScalar (SStr "Mixte"));
  ffg_score ← _calculate_ffg precipitation flood_type;
  ifs_score ← _calculate_ifs precipitation humidity locality_data;
  soil_saturation ← _calculate_soil_saturation weather_data locality_data;
  type_factor ← _get_flood_type_factor flood_type locality_data;
  let risk_score :=
    ffg_score * 0.4 + ifs_score * 0.3 + soil_saturation * 0.2 + type_factor * 0.1 in
  '(alert_level, alert_details) ← _determine_alert_level risk_score precipitation;
  precip ← numbers precipitation;
  let details : gmap string detail :=
    <["ffg_score" := DNum ffg_score]>
    (<["ifs_score" := DNum ifs_score]>
    (<["soil_saturation" := DNum soil_saturation]>
    (<["type_factor" := DNum type_factor]>
    (<["precipitation_24h" := DNum (sum precip)]>
    (<["max_hourly_precip" := DNum (max_or_zero precip)]>
    (<["flood_type" := DVal flood_type]>
    (<["alert_details" := DAlert alert_details]> ∅))))))) in
  Some (alert_level, risk_score, details).

(** [calculate_risk(weather_data, locality_data)]: [except Exception]
    returns the fixed triple. *)
Definition calculate_risk (weather_data locality_data : value)
  : string * Q * gmap string detail :=
  match calculate_risk_try weather_data locality_data with
  | Some result => result
  | None => ("Inconnu", 0, ∅)
  end.

End Calculator.

(** [WeatherProcessor._get_fallback_data()] *)
Definition fallback_data : value :=
  VDict
    [("hourly",
      VDict [("precipitation", VList (replicate 24 (SNum 0)));
             ("rain", VList (replicate 24 (SNum 0)));
             ("temperature_2m", VList (replicate 24 (SNum 25)));
             ("relative_humidity_2m", VList (replicate 24 (SNum 60)))]);
     ("daily", VDict [("precipitation_sum", VList (replicate 3 (SNum 0)))])].

End Flood.

(** ** Definitions used by the statements and the examples *)

Section AlertTextStatements.
Import PyStr AlertText.

(** No line feed occurs in the string. *)
Fixpoint nl_free (s : string) : bool :=
  match s with
  | EmptyString => true
  | String c s' => negb (Ascii.eqb c nl_char) && nl_free s'
  end.

(** The lines of the fallback text, as the f-string lays them out. *)
Definition fallback_lines {A : Type} (t : Template) (indicators : list A) : list string :=
  [ "";
    indent +:+ "TITRE_GROUPE: " +:+ titre t;
    indent +:+ "ÉVALUATION: " +:+ evaluation t
      +:+ " Basé sur l'analyse de " +:+ str_of_N (N.of_nat (length indicators))
      +:+ " localités échantillons.";
    indent +:+ "ZONES_PRIORITAIRES: " +:+ join "; " (zones_prioritaires t);
    indent +:+ "ACTIONS_COORDONNÉES: " +:+ join "; " (actions t);
    indent +:+ "PÉRIODE: " +:+ periode t;
    indent +:+ "URGENCE: " +:+ urgence t;
    indent ].

(** [risk_templates.get(risk_level, risk_templates['Modéré'])] *)
Definition chosen_template (group_name group_type risk_level : string) (avg_score : Q) :=
  default (template_modere group_name group_type avg_score)
          (risk_templates group_name group_type avg_score !! risk_level).

End AlertTextStatements.

Section DroughtStatements.
Import DroughtCalculator.
Open Scope R_scope.

(** The points of the five factors, added up. *)
Definition total_points (spi_mean deficit dry_days heat_stress soil_moisture : R) : Z :=
  ((spi_factor spi_mean).1 + (deficit_factor deficit).1 + (dry_days_factor dry_days).1
   + (heat_factor heat_stress).1 + (soil_factor soil_moisture).1)%Z.

(** The indicator set of the specification's worst case. *)
Definition worst_case_indicators : gmap string value :=
  <["spi_mean" := Num (-2.1)]>
  (<["precipitation_deficit" := Num 65]>
  (<["consecutive_dry_days" := Num 25]>
  (<["heat_stress" := Num 55]>
  (<["soil_moisture_mean" := Num 15]> ∅)))).

(** A SciPy none of whose calls returns: every window takes the z-score
    fallback. *)
Definition scipy_fit_fails : Scipy :=
  {| gamma_params := unit;
     gamma_fit := λ _, None;
     gamma_cdf := λ _ _, None;
     norm_ppf := λ _, None |}.

(** The doubles nearest to 0.1, 0.2 and 0.3. *)
Definition tenths : list R :=
  [3602879701896397 / 36028797018963968;
   3602879701896397 / 18014398509481984;
   5404319552844595 / 18014398509481984].

(** NumPy's arithmetic on [tenths]: the mean 0.20000000000000004 and the
    deviation 0.0816496580927726 it computes. The difference of a value of
    the series and that mean is a float, so the subtraction is exact; the
    division is left unrounded, which changes no sign. *)
Definition numpy_on_tenths : Np.Float64 :=
  {| Np.fl_sum := Np.sum;
     Np.fl_mean := λ _, 7205759403792795 / 36028797018963968;
     Np.fl_std := λ _, 5883477916184625 / 72057594037927936;
     Np.fl_sub := Rminus;
     Np.fl_div := Rdiv |}.

(** The sign claim at one point of a series. *)
Definition spi_sign_agrees (scipy : Scipy) (precipitation : list R) (i : nat) : Prop :=
  ∀ v x,
    calculate_spi scipy precipitation 30 !! i = Some v →
    precipitation !! i = Some x →
    (x > Np.mean precipitation → v > 0) ∧ (x < Np.mean precipitation → v < 0).

(** Daily data of which only dates and precipitation matter. *)
Definition rain_only (dates : list Z) (precipitation : list R) : ClimateData :=
  {| dates := dates; temperature_2m_max := []; temperature_2m_min := [];
     temperature_2m_mean := []; precipitation := precipitation;
     soil_moisture := []; et0 := []; relative_humidity := [] |}.

End DroughtStatements.

Section GroupAlertStatements.
Import AlertGenerator.

(** The number of high-risk entries of a sample. *)
Definition count_high (indicators : list SampleIndicator) : nat :=
  length (filter (λ ind, is_high_risk (ind_risk_level ind) = true) indicators).

(** Rows grouped by key, in the order of first appearance. *)
Definition group_rows (key : Locality → string) (rows : list Locality)
  : list (string * list Locality) :=
  map (λ k, (k, filter (λ row, key row = k) rows)) (remove_dups (map key rows)).

(** One hot day without rain on dry soil. *)
Definition parched_day : DroughtCalculator.ClimateData :=
  {| DroughtCalculator.dates := [1%Z];
     DroughtCalculator.temperature_2m_max := [40%R];
     DroughtCalculator.temperature_2m_min := [26%R];
     DroughtCalculator.temperature_2m_mean := [33%R];
     DroughtCalculator.precipitation := [0%R];
     DroughtCalculator.soil_moisture := [10%R];
     DroughtCalculator.et0 := [6%R];
     DroughtCalculator.relative_humidity := [30%R] |}.

(** Two services for examples: an offline one, whose data source always
    raises, and one that reports the same parched day everywhere. *)
Definition offline_services : Services :=
  {| scipy := scipy_fit_fails;
     sample := λ n rows, take n rows;
     groupby := group_rows;
     get_climate_data := λ _ _ _, None;
     api_key := None;
     now_isoformat := "2024-03-01T08:00:00" |}.

Definition parched_services : Services :=
  {| scipy := scipy_fit_fails;
     sample := λ n rows, take n rows;
     groupby := group_rows;
     get_climate_data := λ _ _ _, Some (Some parched_day);
     api_key := None;
     now_isoformat := "2024-03-01T08:00:00" |}.

Definition maroua : Locality :=
  {| localite := "Maroua"; region := "Extrême-Nord"; zone := "Soudano-sahélienne";
     latitude := 10.6%R; longitude := 14.3%R |}.

End GroupAlertStatements.

Section ForecastStatements.
Import Forecast.

(** What a forecast draws from the generator: every series but the dates,
    and the state the generator is left in. *)
Definition drawn {np : NumpyRandom} (result : option (ForecastData * rng np)) :=
  (λ r, (temperature_max r.1, temperature_min r.1, precipitation r.1, et0 r.1,
         warming_trend r.1, precip_trend r.1, r.2)) <$> result.

(** Noon on the 15th and on the 31st of January 2023. *)
Definition noon_2023_01_15 : Z := (days 19372 + 43200000000)%Z.
Definition noon_2023_01_31 : Z := (days 19388 + 43200000000)%Z.

(** A linear congruential stand-in for NumPy's generator, for examples. *)
Definition lcg_next (st : Z) : Z := ((1103515245 * st + 12345) mod 2 ^ 31)%Z.

Fixpoint lcg_draws (f : Z → Q) (n : nat) (st : Z) : list Q * Z :=
  match n with
  | O => ([], st)
  | S n' =>
      let st' := lcg_next st in
      let '(xs, st'') := lcg_draws f n' st' in
      (f st' :: xs, st'')
  end.

Fixpoint lcg_coins (p : list Q) (st : Z) : list Q * Z :=
  match p with
  | [] => ([], st)
  | p0 :: p' =>
      let st' := lcg_next st in
      let '(xs, st'') := lcg_coins p' st' in
      ((if Qle_bool (inject_Z (st' mod 1000) / 1000) p0 then 1 else 0)%Q :: xs, st'')
  end.

Definition lcg : NumpyRandom :=
  {| rng := Z;
     seed := λ s, s;
     normal := λ loc scale, lcg_draws (λ u, loc + scale * (inject_Z (u mod 2001 - 1000) / 500))%Q;
     exponential := λ scale, lcg_draws (λ u, scale * (inject_Z (u mod 1000) / 250))%Q;
     binomial := λ _, lcg_coins |}.

End ForecastStatements.

Section FloodStatements.
Import Flood.

(** The four ordinal alert levels, lowest first. *)
Definition alert_level_names : list string :=
  ["Vigilance"; "Pré-alerte"; "Alerte"; "Alerte Maximale"].

(** What a dict gives for a key, or the default of the call. *)
Definition item_or (d : list (string * value)) (key : string) (dflt : value) : value :=
  default dflt (item d key).

(** A list or a string. *)
Definition is_sequence (x : value) : Prop :=
  match x with
  | VList _ | VScalar (SStr _) => True
  | _ => False
  end.

(** A list whose first 24 items are numbers or booleans, or the empty
    string. *)
Definition numeric_24 (x : value) : Prop :=
  match x with
  | VList l => Forall (λ a, is_Some (number a)) (take 24 l)
  | VScalar (SStr s) => s = ""
  | _ => False
  end.

(** A list that starts with a number or a boolean. *)
Definition numeric_first (x : value) : Prop :=
  match x with
  | VList (a :: _) => is_Some (number a)
  | _ => False
  end.

(** A scalar: [None], a boolean, a number or a string. *)
Definition hashable (x : value) : Prop :=
  match x with
  | VScalar _ => True
  | _ => False
  end.

(** The inputs on which nothing raises: both are dicts; 'hourly', when
    present, is a dict whose precipitation and humidity, when present, hold
    numbers in their first 24 items and whose temperature is a sequence;
    'soil_moisture', when present, starts with a number; the altitude, when
    present, is a number and the flood type a scalar. *)
Definition computable (weather_data locality_data : value) : Prop :=
  match weather_data, locality_data with
  | VDict weather, VDict locality =>
      match item_or weather "hourly" (VDict []) with
      | VDict hourly =>
          numeric_24 (item_or hourly "precipitation" (VList [SNum 0]))
          ∧ is_sequence (item_or hourly "temperature_2m" (VList [SNum 25]))
          ∧ numeric_24 (item_or hourly "relative_humidity_2m" (VList [SNum 60]))
      | _ => False
      end
      ∧ numeric_first (item_or weather "soil_moisture" (VList [SNum 50]))
      ∧ is_Some (as_number (item_or locality "altitude" (VScalar (SNum 100))))
      ∧ hashable (item_or locality "type_inondation" (VScalar (SStr "Mixte")))
  | _, _ => False
  end.

(** A coastal, urbanised locality. *)
Definition douala : value :=
  VDict [("localite", VScalar (SStr "Douala"));
         ("type_inondation", VScalar (SStr "Côtière"));
         ("zone", VScalar (SStr "Zone Côtière Urbaine"));
         ("facteurs_aggravation",
          VScalar (SStr "Urbanisation non maîtrisée, Drainage insuffisant"));
         ("altitude", VScalar (SNum 13))].

(** [str] of a value that is not a string, for the examples: none of them
    holds one where it is read. *)
Definition no_text (x : value) : string := "".

End FloodStatements.

(** ** data_loader.py: simulated soil moisture *)

Module DataLoader.
Open Scope R_scope.

(** The body of the loop of [simulate_soil_moisture]: the moisture of a day
    from the previous one, the day's rain and its evapotranspiration. *)
Definition next_moisture (previous precip et : R) : R :=
  let precip_effect := precip * 2.0 in
  let et_effect := et * 0.8 in
  let drainage := Rmax 0 (previous - 60) * 0.1 in
  let new_moisture := previous + precip_effect - et_effect - drainage in
  Rmax 5 (Rmin 95 new_moisture).

(** [simulate_soil_moisture(precipitation, et0, initial_moisture=50.0)]: the
    loop runs over [range(1, len(precipitation))] and appends to the list;
    [None] is the index error of an [et0] that is too short. *)
Definition simulate_soil_moisture (precipitation et0 : list R) (initial_moisture : R)
  : option (list R) :=
  fold_left
    (λ acc i,
       soil_moisture ← acc;
       precip ← precipitation !! i;
       et ← et0 !! i;
       previous ← last soil_moisture;
       Some (soil_moisture ++ [next_moisture previous precip et])%list)
    (seq 1 (length precipitation - 1)) (Some [initial_moisture]).

End DataLoader.

(** ** app.py: drought statistics *)

Module DroughtStatistics.
Import DroughtCalculator DroughtPeriods.
Open Scope R_scope.

(** The four figures of [display_drought_statistics], with the number of
    days shown beside the first; [drought_indicators] is not read. *)
Record Statistics := mkStatistics {
  total_dry_days : nat;
  total_days : nat;
  total_drought_days : nat;
  longest_period : nat;
  severe_periods : nat
}.

Definition display_drought_statistics (climate_data : ClimateData)
    (drought_indicators : gmap string value) (drought_periods : list Period)
  : Statistics :=
  {| total_dry_days :=
       length (filter (λ precip, precip < 0.1) (precipitation climate_data));
     total_days := length (precipitation climate_data);
     total_drought_days := sum_list (map dry_days drought_periods);
     longest_period := max_list (map dry_days drought_periods);
     severe_periods :=
       length (filter (λ period, intensity period ∈ ["sévère"; "extrême"])
                      drought_periods) |}.

End DroughtStatistics.

(** ** forecast_analyzer.py: the risk of a forecast *)

Module ForecastRisk.
Import Forecast.
Open Scope Q_scope.

(** The dict returned by [calculate_drought_risk]; the average is [None]
    where NumPy returns NaN. *)
Record Risk := mkRisk {
  risk_score : Q;
  risk_level : string;
  risk_color : string;
  total_precipitation : Q;
  average_precipitation : option Q;
  dry_days : nat;
  water_balance : Q;
  risk_timeframe : string;
  risk_confidence : Q
}.

#[global] Instance Qlt_decision (x y : Q) : Decision (x < y) :=
  match Qlt_le_dec x y with
  | left H => left H
  | right H => right (Qle_not_lt y x H)
  end.

Definition sum (l : list Q) : Q := fold_right Qplus 0 l.

(** A count or a length as a number. *)
Definition count (n : nat) : Q := inject_Z (Z.of_nat n).

(** [x / n] for a length [n]: NaN, here [None], for 0 / 0, the only
    division by zero below. *)
Definition per (x : Q) (n : nat) : option Q :=
  match n with
  | O => None
  | S _ => Some (x / count n)
  end.

(** [calculate_drought_risk(forecast_data)]; [None] is its [return None]
    for a missing forecast. On an empty precipitation series the mean and
    the share of dry days are NaN: every comparison with the mean is false,
    the score becomes NaN, and [min(100, risk_score)] is then 100. *)
Definition calculate_drought_risk (forecast_data : option ForecastData) : option Risk :=
  match forecast_data with
  | None => None
  | Some data =>
      let precip := precipitation data in
      let total_precip := sum precip in
      let avg_precip := per total_precip (length precip) in
      let dry_days := length (filter (λ x, x < 1) precip) in
      let water_balance :=
        match et0 data with
        | Some et0 => total_precip - sum et0
        | None => total_precip - count (length precip) * 3
        end in
      let risk_score := 0 in
      let risk_score :=
        match avg_precip with
        | Some avg_precip =>
            if Qlt_le_dec avg_precip 1 then risk_score + 50
            else if Qlt_le_dec avg_precip 2 then risk_score + 30
            else if Qlt_le_dec avg_precip 3 then risk_score + 15
            else risk_score
        | None => risk_score
        end in
      let dry_ratio := per (count dry_days) (length precip) in
      let risk_score := (λ dry_ratio, risk_score + dry_ratio * 30) <$> dry_ratio in
      let risk_score :=
        (λ risk_score,
           if Qlt_le_dec water_balance (-50) then risk_score + 20
           else if Qlt_le_dec water_balance (-20) then risk_score + 10
           else risk_score) <$> risk_score in
      let risk_score :=
        match risk_score with
        | Some risk_score => Qmin 100 risk_score
        | None => 100
        end in
      let '(risk_level, color) :=
        if Qle_bool 80 risk_score then ("Très Élevé", "red")
        else if Qle_bool 60 risk_score then ("Élevé", "orange")
        else if Qle_bool 40 risk_score then ("Modéré", "yellow")
        else if Qle_bool 20 risk_score then ("Faible", "blue")
        else ("Très Faible", "green") in
      Some {| risk_score := risk_score;
              risk_level := risk_level;
              risk_color := color;
              total_precipitation := total_precip;
              average_precipitation := avg_precip;
              dry_days := dry_days;
              water_balance := water_balance;
              risk_timeframe := timeframe data;
              risk_confidence := confidence data |}
  end.

End ForecastRisk.

(** ** Definitions used by the further statements *)

Section DroughtMoreStatements.
Import DroughtCalculator DroughtPeriods.
Open Scope R_scope.

(** What a factor contributes: no point and no reason, or some points, a
    multiple of five up to [most], and one reason. *)
Definition factor_shape (f : Z * list string) (most : Z) : Prop :=
  (f.1 = 0%Z ∧ f.2 = []) ∨ ((0 < f.1 <= most)%Z ∧ (f.1 mod 5 = 0)%Z ∧ length f.2 = 1%nat).

(** The five keys the score reads. *)
Definition scored_keys : list string :=
  ["spi_mean"; "precipitation_deficit"; "consecutive_dry_days"; "heat_stress";
   "soil_moisture_mean"].

(** The five levels of a computed assessment. *)
Definition risk_levels : list string :=
  ["Très Élevé"; "Élevé"; "Modéré"; "Faible"; "Très Faible"].

(** The twelve keys of an indicator set. *)
Definition indicator_keys : list string :=
  ["spi"; "spi_mean"; "precipitation_deficit"; "consecutive_dry_days";
   "avg_temperature"; "max_temperature"; "heat_stress"; "soil_moisture_mean";
   "soil_moisture_min"; "et0_mean"; "water_balance"; "humidity_mean"].

(** A fully populated set: the SPI series under 'spi', a number under each
    other key. *)
Definition fully_populated (indicators : gmap string value) : Prop :=
  (∃ m, indicators !! "spi" = Some (Series m))
  ∧ Forall (λ key, ∃ x, indicators !! key = Some (Num x)) (tail indicator_keys).

(** The loop of [calculate_consecutive_dry_days] from any state. *)
Definition dry_run_loop (threshold : R) (precipitation : list R) (state : nat * nat)
  : nat * nat :=
  fold_left
    (λ '(max_dry_days, current_dry_days) precip,
       if Rlt_dec precip threshold
       then (Nat.max max_dry_days (current_dry_days + 1), current_dry_days + 1)%nat
       else (max_dry_days, 0%nat))
    precipitation state.

(** A streak counts as a period from three days on. *)
Definition as_period (streak : nat) : nat := if (3 <=? streak)%nat then streak else 0%nat.

(** The length of the open period. *)
Definition run_of (current : option Current) : nat :=
  match current with
  | Some cur => cur_dry_days cur
  | None => 0%nat
  end.

(** The open period after a dry day. *)
Definition extend (current : option Current) (i : nat) (date : Z) (precip : R) : Current :=
  match current with
  | None =>
      {| cur_start_date := date; cur_start_index := i;
         cur_dry_days := 1; cur_total_precip := precip |}
  | Some cur =>
      {| cur_start_date := cur_start_date cur;
         cur_start_index := cur_start_index cur;
         cur_dry_days := cur_dry_days cur + 1;
         cur_total_precip := cur_total_precip cur + precip |}
  end.

(** The periods stored after a day with rain. *)
Definition store (thr : R) (periods : list Period) (current : option Current)
    (i : nat) (date : Z) : list Period :=
  match current with
  | Some cur =>
      if (3 <=? cur_dry_days cur)%nat
      then (periods ++ [close thr cur (date - 1)%Z (i - 1)%nat])%list else periods
  | None => periods
  end.

(** A dry spell of four days, a day of rain, a dry day. *)
Definition dry_spell : ClimateData :=
  rain_only [1; 2; 3; 4; 5; 6]%Z [0; 0; 0; 0; 3; 0].

End DroughtMoreStatements.

Section GroupAlertMoreStatements.
Import AlertText AlertGenerator.

(** The sum of the scores of a sample. *)
Definition sum_scores (indicators : list SampleIndicator) : Z :=
  fold_right Z.add 0%Z (map ind_risk_score indicators).

(** The four group levels, from the lowest to the highest. *)
Definition level_rank (level : string) : nat :=
  if bool_decide (level = "Très Élevé") then 3
  else if bool_decide (level = "Élevé") then 2
  else if bool_decide (level = "Modéré") then 1
  else 0.

(** What the loop over the sampled localities keeps true of its state. *)
Definition sample_state_ok (state : list SampleIndicator * nat * Z) : Prop :=
  state.1.2 = count_high state.1.1
  ∧ state.2 = sum_scores state.1.1
  ∧ Forall (λ ind, (0 <= ind_risk_score ind <= 115)%Z
                   ∧ ind_risk_level ind ∈ risk_levels) state.1.1.

(** What every parsed dict satisfies: only the six keys, a string under the
    four text keys, a list with at least one item under the two list keys. *)
Definition well_shaped (parsed : gmap string field) : Prop :=
  ∀ key value, parsed !! key = Some value →
    (key ∈ text_fields ∧ ∃ s, value = Text s)
    ∨ (key ∈ list_fields ∧ ∃ l, value = Items l ∧ l ≠ []).

End GroupAlertMoreStatements.

Section ForecastMoreStatements.
Import Forecast.

(** The five levels of a forecast's risk. *)
Definition forecast_risk_levels : list string :=
  ["Très Élevé"; "Élevé"; "Modéré"; "Faible"; "Très Faible"].

(** A month without rain, with the evapotranspiration of the season. *)
Definition dry_month : ForecastData :=
  {| dates := seqZ 0 30;
     temperature_max := replicate 30 34%Q;
     temperature_min := Some (replicate 30 22%Q);
     precipitation := replicate 30 0%Q;
     et0 := Some (replicate 30 5%Q);
     type := "30days";
     timeframe := "30 jours";
     confidence := 0.7%Q;
     warming_trend := None;
     precip_trend := None |}.

End ForecastMoreStatements.

Section FloodMoreStatements.
Import Flood.

(** The first 24 hourly precipitations [calculate_risk] reads, as numbers. *)
Definition precipitation_24h (weather_data : value) : option (list Q) :=
  hourly_data ← get weather_data "hourly" (VDict []);
  precipitation ← get hourly_data "precipitation" (VList [SNum 0]);
  precipitation ← slice24 precipitation;
  numbers precipitation.

(** The altitude [calculate_risk] reads. *)
Definition altitude_of (locality_data : value) : option Q :=
  altitude ← get locality_data "altitude" (VScalar (SNum 100));
  as_number altitude.

(** The two levels below an alert. *)
Definition below_alert : list string := ["Vigilance"; "Pré-alerte"].

End FloodMoreStatements.

(* ================================================================== *)
(** * Theorems *)
(* ================================================================== *)

(** ** The alert text format *)

Section AlertTextFacts.
Import PyStr AlertText.

Lemma string_app_cons (x : ascii) (a b : string) :
  String x a +:+ b = String x (a +:+ b).
Proof. reflexivity. Qed.

Lemma string_app_assoc (a b c : string) : (a +:+ b) +:+ c = a +:+ (b +:+ c).
Proof.
  induction a as [|x a IH]; [reflexivity |].
  rewrite !string_app_cons. now rewrite IH.
Qed.

Lemma nl_free_app (a b : string) : nl_free (a +:+ b) = nl_free a && nl_free b.
Proof.
  induction a as [|x a IH]; [reflexivity |].
  rewrite string_app_cons. simpl. rewrite IH. now rewrite andb_assoc.
Qed.

Lemma nl_free_uint (d : Decimal.uint) : nl_free (NilEmpty.string_of_uint d) = true.
Proof. induction d; simpl; auto. Qed.

Lemma nl_free_str_of_N (n : N) : nl_free (str_of_N n) = true.
Proof.
  unfold str_of_N, NilZero.string_of_uint.
  destruct (N.to_uint n) eqn:E; try reflexivity;
    rewrite <- E; apply nl_free_uint.
Qed.

Lemma nl_free_format_1f (x : Q) : nl_free (format_1f x) = true.
Proof.
  unfold format_1f. rewrite !nl_free_app, !nl_free_str_of_N.
  now destruct (Qlt_le_dec x 0).
Qed.

Lemma nl_free_join (sep : string) (items : list string) :
  nl_free sep = true → forallb nl_free items = true → nl_free (join sep items) = true.
Proof.
  intros Hsep. induction items as [|x [|y rest] IH]; simpl; intros H; auto.
  - now rewrite andb_true_r in H.
  - apply andb_prop in H as [Hx H].
    rewrite !nl_free_app, Hx, Hsep. simpl. exact (IH H).
Qed.

(** Splitting at line feeds undoes joining lines that contain none. *)
Lemma split_nl_free (a : string) : nl_free a = true → split a nl_char = [a].
Proof.
  induction a as [|c a IH]; simpl; [reflexivity |].
  intros H. apply andb_prop in H as [Hc Ha].
  apply negb_true_iff in Hc. rewrite Hc, (IH Ha). reflexivity.
Qed.

Lemma split_line_cons (a rest : string) :
  nl_free a = true → split (a +:+ nl +:+ rest) nl_char = a :: split rest nl_char.
Proof.
  induction a as [|c a IH]; [reflexivity |].
  rewrite string_app_cons. simpl.
  intros H. apply andb_prop in H as [Hc Ha].
  apply negb_true_iff in Hc. rewrite Hc, (IH Ha). reflexivity.
Qed.

Lemma split_join_lines (lines : list string) :
  lines ≠ [] → forallb nl_free lines = true →
  split (join nl lines) nl_char = lines.
Proof.
  induction lines as [|x [|y rest] IH]; intros Hne H; [congruence | |].
  - simpl in *. rewrite andb_true_r in H. now apply split_nl_free.
  - apply andb_prop in H as [Hx H].
    change (join nl (x :: y :: rest)) with (x +:+ nl +:+ join nl (y :: rest)).
    rewrite split_line_cons by exact Hx. f_equal. now apply IH.
Qed.

Lemma fallback_is_join {A : Type} gn gt lvl avg (inds : list A) :
  generate_fallback_group_alert gn gt lvl avg inds
  = join nl (fallback_lines (chosen_template gn gt lvl avg) inds).
Proof.
  unfold generate_fallback_group_alert, fallback_lines, chosen_template.
  cbv [join]. rewrite !string_app_assoc. reflexivity.
Qed.

Lemma chosen_template_cases gn gt lvl avg :
  chosen_template gn gt lvl avg = template_tres_eleve gn gt avg
  ∨ chosen_template gn gt lvl avg = template_eleve gn gt avg
  ∨ chosen_template gn gt lvl avg = template_modere gn gt avg.
Proof.
  unfold chosen_template, risk_templates.
  rewrite !lookup_insert, lookup_empty.
  repeat case_decide; simpl; auto.
Qed.

Lemma fallback_lines_nl_free {A : Type} gn gt lvl avg (inds : list A) :
  nl_free gn = true → nl_free gt = true →
  forallb nl_free (fallback_lines (chosen_template gn gt lvl avg) inds) = true.
Proof.
  intros Hn Ht.
  destruct (chosen_template_cases gn gt lvl avg) as [-> | [-> | ->]];
    cbn [fallback_lines forallb titre evaluation zones_prioritaires actions
         periode urgence template_tres_eleve template_eleve template_modere];
    rewrite ?nl_free_app, ?nl_free_str_of_N, ?nl_free_format_1f, ?Hn, ?Ht;
    reflexivity.
Qed.

(** A line that is empty or starts with a blank carries no tag. *)
Lemma parse_line_blank (m : gmap string field) (rest : string) :
  parse_line m (String " " rest) = m.
Proof. reflexivity. Qed.

Lemma parse_lines_untagged {A : Type} (t : Template) (inds : list A) (m : gmap string field) :
  fold_left parse_line (fallback_lines t inds) m = m.
Proof. reflexivity. Qed.

(** C1 (code defect): whatever the risk level, the average score and the
    sample, as long as the group's name and type hold no line feed, parsing
    the fallback text yields the empty dict: every line of the text starts
    with the eight blanks of the f-string's indentation, and the parser
    tests each tag with [startswith] on the unstripped line. None of the six
    fields is recovered. *)
Theorem fallback_alert_parses_to_nothing {A : Type}
    (group_name group_type risk_level : string) (avg_score : Q) (indicators : list A) :
  nl_free group_name = true → nl_free group_type = true →
  let parsed :=
    parse_group_alert_message
      (generate_fallback_group_alert group_name group_type risk_level avg_score indicators) in
  parsed = ∅ ∧ ∀ key, ¬ field_filled parsed key.
Proof.
  intros Hn Ht parsed.
  assert (Hempty : parsed = ∅).
  { unfold parsed, parse_group_alert_message.
    rewrite fallback_is_join, split_join_lines.
    - apply parse_lines_untagged.
    - discriminate.
    - now apply fallback_lines_nl_free. }
  split; [exact Hempty |].
  intros key. unfold field_filled. rewrite Hempty, lookup_empty. tauto.
Qed.

Lemma fallback_alert_parses_to_nothing_witness :
  Forall (λ risk_level,
            let parsed :=
              parse_group_alert_message
                (generate_fallback_group_alert "Extrême-Nord" "region" risk_level 80
                   [1%nat; 2%nat; 3%nat]) in
            parsed = ∅ ∧ ∀ key, ¬ field_filled parsed key)
         group_risk_levels.
Proof.
  repeat constructor;
    apply (fallback_alert_parses_to_nothing (A := nat) "Extrême-Nord" "region");
    reflexivity.
Defined.

(** The parser itself recovers the six fields from unindented lines, in any
    order. *)
Example parse_unindented_alert :
  let parsed := parse_group_alert_message
    ("URGENCE: CRITIQUE" +:+ nl +:+
     "TITRE_GROUPE: CRISE - region Nord" +:+ nl +:+
     "ÉVALUATION: Situation de crise." +:+ nl +:+
     "ZONES_PRIORITAIRES: Toute la zone affectée; Secteurs agricoles prioritaires" +:+ nl +:+
     "ACTIONS_COORDONNÉES: Ressources mutualisées; Communication unifiée" +:+ nl +:+
     "PÉRIODE: Immédiate - 30 jours") in
  parsed !! "titre_groupe" = Some (Text "CRISE - region Nord")
  ∧ parsed !! "zones_prioritaires"
    = Some (Items ["Toute la zone affectée"; "Secteurs agricoles prioritaires"])
  ∧ Forall (field_filled parsed) (text_fields ++ list_fields).
Proof.
  vm_compute. repeat split; repeat constructor; discriminate.
Qed.

End AlertTextFacts.

(** ** The drought risk score *)

Section DroughtScoring.
Import DroughtCalculator.
Open Scope R_scope.

(** Settle every comparison of reals that linear arithmetic decides. *)
Ltac settle_cmp :=
  repeat match goal with
    | |- context [Rle_dec ?a ?b] => destruct (Rle_dec a b); try lra
    | |- context [Rlt_dec ?a ?b] => destruct (Rlt_dec a b); try lra
    | |- context [Rgt_dec ?a ?b] => destruct (Rgt_dec a b); try lra
    end.

Lemma get_num_lookup indicators key x dflt :
  indicators !! key = Some (Num x) → get_num indicators key dflt = Some x.
Proof. unfold get_num. now intros ->. Qed.

(** Whether a read raises does not depend on the default. *)
Lemma get_num_is_Some indicators key d d' :
  is_Some (get_num indicators key d) → is_Some (get_num indicators key d').
Proof.
  unfold get_num. destruct (indicators !! key) as [[x|m]|]; eauto.
Qed.

Lemma generate_recommendations_is_Some level indicators s d h :
  get_num indicators "soil_moisture_mean" 50 = Some s →
  get_num indicators "consecutive_dry_days" 0 = Some d →
  get_num indicators "heat_stress" 0 = Some h →
  is_Some (generate_recommendations level indicators).
Proof.
  intros Hs Hd Hh. unfold generate_recommendations.
  destruct (get_num_is_Some indicators "soil_moisture_mean" 50 100) as [s' ->]; [eauto |].
  rewrite Hd, Hh. simpl. eauto.
Qed.

Lemma assess_try_score indicators :
  risk_score <$> assess_drought_risk_try indicators
  = (spi_mean ← get_num indicators "spi_mean" 0;
     deficit ← get_num indicators "precipitation_deficit" 0;
     dry_days ← get_num indicators "consecutive_dry_days" 0;
     heat_stress ← get_num indicators "heat_stress" 0;
     soil_moisture ← get_num indicators "soil_moisture_mean" 50;
     Some (total_points spi_mean deficit dry_days heat_stress soil_moisture)).
Proof.
  unfold assess_drought_risk_try.
  destruct (get_num indicators "spi_mean" 0) as [s|]; [|reflexivity].
  destruct (get_num indicators "precipitation_deficit" 0) as [d|]; [|reflexivity].
  destruct (get_num indicators "consecutive_dry_days" 0) as [dd|] eqn:Hdd; [|reflexivity].
  destruct (get_num indicators "heat_stress" 0) as [h|] eqn:Hh; [|reflexivity].
  destruct (get_num indicators "soil_moisture_mean" 50) as [sm|] eqn:Hsm; [|reflexivity].
  cbn [mbind option_bind].
  destruct (add_factor _ (soil_factor sm)) as [score fs] eqn:Hacc.
  destruct (classify score) as [lvl col].
  destruct (generate_recommendations_is_Some lvl indicators sm dd h Hsm Hdd Hh) as [recs ->].
  cbn. f_equal. unfold total_points.
  apply (f_equal fst) in Hacc. unfold add_factor in Hacc. cbn in Hacc.
  rewrite <- Hacc. lia.
Qed.

Lemma assess_try_level indicators r :
  assess_drought_risk_try indicators = Some r →
  risk_level r = (classify (risk_score r)).1.
Proof.
  unfold assess_drought_risk_try. intros H.
  destruct (get_num indicators "spi_mean" 0) as [s|]; [|discriminate].
  destruct (get_num indicators "precipitation_deficit" 0) as [d|]; [|discriminate].
  destruct (get_num indicators "consecutive_dry_days" 0) as [dd|]; [|discriminate].
  destruct (get_num indicators "heat_stress" 0) as [h|]; [|discriminate].
  destruct (get_num indicators "soil_moisture_mean" 50) as [sm|]; [|discriminate].
  cbn [mbind option_bind] in H.
  destruct (add_factor _ (soil_factor sm)) as [score fs].
  destruct (classify score) as [lvl col] eqn:Hc.
  destruct (generate_recommendations lvl indicators); [|discriminate].
  cbn in H. injection H as <-. cbn. now rewrite Hc.
Qed.

(** The points of the deficit factor never decrease with the deficit. *)
Lemma deficit_factor_mono d1 d2 :
  d1 <= d2 → ((deficit_factor d1).1 <= (deficit_factor d2).1)%Z.
Proof.
  intros H. unfold deficit_factor. settle_cmp; cbn; lia.
Qed.

(** C3: the set with spi_mean -2.1, deficit 65, 25 dry days, heat stress 55
    and soil moisture 15 scores 40+30+20+10+15 = 115, above 100, and is
    classified 'Très Élevé'. *)
Theorem assess_all_factors_worst (indicators : gmap string value) :
  indicators !! "spi_mean" = Some (Num (-2.1)) →
  indicators !! "precipitation_deficit" = Some (Num 65) →
  indicators !! "consecutive_dry_days" = Some (Num 25) →
  indicators !! "heat_stress" = Some (Num 55) →
  indicators !! "soil_moisture_mean" = Some (Num 15) →
  risk_score (assess_drought_risk indicators) = 115%Z
  ∧ risk_level (assess_drought_risk indicators) = "Très Élevé".
Proof.
  intros H1 H2 H3 H4 H5.
  pose proof (assess_try_score indicators) as Hs.
  rewrite (get_num_lookup _ _ _ _ H1), (get_num_lookup _ _ _ _ H2),
    (get_num_lookup _ _ _ _ H3), (get_num_lookup _ _ _ _ H4),
    (get_num_lookup _ _ _ _ H5) in Hs.
  cbn [mbind option_bind] in Hs.
  assert (Ht : total_points (-2.1) 65 25 55 15 = 115%Z).
  { unfold total_points, spi_factor, deficit_factor, dry_days_factor,
      heat_factor, soil_factor. settle_cmp. reflexivity. }
  rewrite Ht in Hs. unfold assess_drought_risk.
  destruct (assess_drought_risk_try indicators) as [r|] eqn:Hr; [|discriminate].
  cbn in Hs. injection Hs as Hs. cbn. split; [exact Hs |].
  rewrite (assess_try_level _ _ Hr), Hs. reflexivity.
Qed.

Lemma assess_all_factors_worst_witness :
  risk_score (assess_drought_risk worst_case_indicators) = 115%Z
  ∧ risk_level (assess_drought_risk worst_case_indicators) = "Très Élevé".
Proof.
  apply assess_all_factors_worst; reflexivity.
Defined.

(** C5: two indicator sets that differ at most in the precipitation
    deficit, the second deficit being at least the first, are scored in the
    same order. *)
Theorem risk_score_monotone_in_deficit (ind1 ind2 : gmap string value) (d1 d2 : R) :
  (∀ key, key ≠ "precipitation_deficit" → ind1 !! key = ind2 !! key) →
  get_num ind1 "precipitation_deficit" 0 = Some d1 →
  get_num ind2 "precipitation_deficit" 0 = Some d2 →
  d1 <= d2 →
  (risk_score (assess_drought_risk ind1) <= risk_score (assess_drought_risk ind2))%Z.
Proof.
  intros Hagree H1 H2 Hle.
  assert (Hget : ∀ key dflt, key ≠ "precipitation_deficit" →
            get_num ind1 key dflt = get_num ind2 key dflt).
  { intros key dflt Hk. unfold get_num. now rewrite (Hagree key Hk). }
  pose proof (assess_try_score ind1) as S1.
  pose proof (assess_try_score ind2) as S2.
  rewrite H1 in S1. rewrite H2 in S2.
  rewrite <- !Hget in S2 by discriminate.
  unfold assess_drought_risk.
  destruct (get_num ind1 "spi_mean" 0) as [s|];
    [|destruct (assess_drought_risk_try ind1), (assess_drought_risk_try ind2);
      try discriminate; cbn; lia].
  destruct (get_num ind1 "consecutive_dry_days" 0) as [dd|];
    [|destruct (assess_drought_risk_try ind1), (assess_drought_risk_try ind2);
      try discriminate; cbn; lia].
  destruct (get_num ind1 "heat_stress" 0) as [h|];
    [|destruct (assess_drought_risk_try ind1), (assess_drought_risk_try ind2);
      try discriminate; cbn; lia].
  destruct (get_num ind1 "soil_moisture_mean" 50) as [sm|];
    [|destruct (assess_drought_risk_try ind1), (assess_drought_risk_try ind2);
      try discriminate; cbn; lia].
  cbn [mbind option_bind] in S1, S2.
  destruct (assess_drought_risk_try ind1) as [r1|]; [|discriminate].
  destruct (assess_drought_risk_try ind2) as [r2|]; [|discriminate].
  cbn in S1, S2. injection S1 as S1. injection S2 as S2. cbn.
  rewrite S1, S2. unfold total_points. pose proof (deficit_factor_mono d1 d2 Hle). lia.
Qed.

Lemma risk_score_monotone_in_deficit_witness :
  (risk_score (assess_drought_risk (<["precipitation_deficit" := Num 30]> worst_case_indicators))
   <= risk_score (assess_drought_risk (<["precipitation_deficit" := Num 45]> worst_case_indicators)))%Z.
Proof.
  apply (risk_score_monotone_in_deficit _ _ 30 45).
  - intros key Hk. now rewrite !lookup_insert_ne by congruence.
  - reflexivity.
  - reflexivity.
  - lra.
Defined.

End DroughtScoring.

(** ** The standardized precipitation index *)

Section SPIFacts.
Import DroughtCalculator.
Open Scope R_scope.

(** Reading back a dict filled by a loop over [enumerate]. *)
Lemma lookup_fold_enumerate (f : R → R) (l : list R) (n : nat) (m : gmap nat R) (j : nat) :
  fold_left (λ acc '(i, x), <[i := f x]> acc) (imap (λ i x, ((n + i)%nat, x)) l) m !! j
  = match (if decide (n ≤ j)%nat then l !! (j - n)%nat else None) with
    | Some x => Some (f x)
    | None => m !! j
    end.
Proof.
  revert n m. induction l as [|x l IH]; intros n m.
  - cbn. now destruct (decide (n ≤ j)%nat); rewrite ?lookup_nil.
  - rewrite imap_cons. cbn [fold_left].
    rewrite (imap_ext _ (λ i y, ((S n + i)%nat, y))) by (intros; cbn; f_equal; lia).
    rewrite IH. replace (n + 0)%nat with n by lia.
    destruct (decide (S n ≤ j)%nat) as [H1|H1], (decide (n ≤ j)%nat) as [H2|H2]; try lia.
    + replace (j - n)%nat with (S (j - S n)) by lia. cbn.
      destruct (l !! (j - S n)%nat); [reflexivity |].
      apply lookup_insert_ne. lia.
    + assert (j = n) as -> by lia. rewrite Nat.sub_diag. cbn.
      apply lookup_insert_eq.
    + apply lookup_insert_ne. lia.
Qed.

(** The z-score branch fills every index of the series. *)
Lemma spi_simple_lookup (precipitation : list R) (i : nat) :
  spi_simple precipitation !! i
  = (λ precip,
       let std_precip :=
         if (1 <? length precipitation)%nat then Np.std precipitation else 1 in
       if Rlt_dec 0 std_precip
       then (precip - Np.mean precipitation) / std_precip else 0)
    <$> precipitation !! i.
Proof.
  unfold spi_simple, Np.enumerate.
  pose proof (lookup_fold_enumerate
    (λ precip,
       if Rlt_dec 0 (if (1 <? length precipitation)%nat then Np.std precipitation else 1)
       then (precip - Np.mean precipitation)
            / (if (1 <? length precipitation)%nat then Np.std precipitation else 1)
       else 0) precipitation 0 ∅ i) as H.
  cbn in H. rewrite (imap_ext _ pair) in H by reflexivity.
  rewrite Nat.sub_0_r in H. cbn. rewrite H.
  destruct (precipitation !! i); [reflexivity | apply lookup_empty].
Qed.

(** Reading back a dict filled by a loop over [range]. *)
Lemma lookup_fold_range (keep : nat → bool) (f : nat → R) (a n : nat) (m : gmap nat R) (j : nat) :
  fold_left (λ acc i, if keep i then <[i := f i]> acc else acc) (seq a n) m !! j
  = if bool_decide (a ≤ j < a + n)%nat && keep j then Some (f j) else m !! j.
Proof.
  revert a m. induction n as [|n IH]; intros a m.
  - cbn. rewrite bool_decide_eq_false_2 by lia. reflexivity.
  - cbn [seq fold_left]. rewrite IH.
    destruct (decide (j = a)) as [->|Hne].
    + rewrite (bool_decide_eq_false_2 (S a ≤ a < S a + n)%nat) by lia.
      rewrite (bool_decide_eq_true_2 (a ≤ a < a + S n)%nat) by lia. cbn.
      destruct (keep a); [apply lookup_insert_eq | reflexivity].
    + destruct (decide (S a ≤ j < S a + n)%nat) as [Hin|Hout].
      * rewrite !bool_decide_eq_true_2 by lia. cbn.
        destruct (keep j); [reflexivity |].
        destruct (keep a); [apply lookup_insert_ne; lia | reflexivity].
      * rewrite !bool_decide_eq_false_2 by lia. cbn.
        destruct (keep a); [apply lookup_insert_ne; lia | reflexivity].
Qed.

Lemma spi_windowed_lookup scipy (precipitation : list R) (period i : nat) :
  spi_windowed scipy precipitation period !! i
  = if bool_decide (i < length precipitation)%nat
       && (7 <=? length (spi_window precipitation period i))%nat
    then Some (spi_of_window scipy (spi_window precipitation period i))
    else None.
Proof.
  unfold spi_windowed.
  rewrite (lookup_fold_range
             (λ i, (7 <=? length (spi_window precipitation period i))%nat)
             (λ i, spi_of_window scipy (spi_window precipitation period i))).
  rewrite lookup_empty.
  destruct (decide (i < length precipitation)%nat).
  - rewrite !bool_decide_eq_true_2 by lia. reflexivity.
  - rewrite !bool_decide_eq_false_2 by lia. reflexivity.
Qed.

(** The window of an index inside the series holds [min (i+1) period]
    days. *)
Lemma spi_window_length (precipitation : list R) (period i : nat) :
  (1 ≤ period)%nat → (i < length precipitation)%nat →
  length (spi_window precipitation period i) = Nat.min (i + 1) period.
Proof.
  intros Hp Hi. unfold spi_window.
  destruct (i <? period - 1)%nat eqn:E.
  - apply Nat.ltb_lt in E. rewrite length_take. lia.
  - apply Nat.ltb_ge in E. rewrite length_drop, length_take. lia.
Qed.

End SPIFacts.

Section SPIClaims.
Import DroughtCalculator.
Open Scope R_scope.

(** C2 as stated fails: a dry week has seven points, and whatever SciPy
    does the SPI dict has no entry at index 0, whose window
    [precipitation[:1]] holds one day. *)
Lemma spi_week_omits_first_index :
  ¬ ∃ scipy : Scipy,
      is_Some (calculate_spi scipy [0; 0; 0; 0; 0; 0; 0] 30 !! 0%nat).
Proof.
  intros [scipy [v Hv]]. unfold calculate_spi in Hv. cbn [length Nat.ltb Nat.leb] in Hv.
  rewrite spi_windowed_lookup in Hv. cbn in Hv.
  rewrite andb_false_r in Hv. discriminate.
Qed.

(** C2 (amended): for a series of at least seven points the SPI dict has an
    entry exactly at the indices 6 .. len-1; the first six indices, whose
    windows hold fewer than seven days, are left out. *)
Theorem spi_entries_from_seventh_point (scipy : Scipy) (precipitation : list R)
    (period i : nat) :
  (7 ≤ period)%nat → (7 ≤ length precipitation)%nat →
  is_Some (calculate_spi scipy precipitation period !! i)
  ↔ (6 ≤ i < length precipitation)%nat.
Proof.
  intros Hp Hlen. unfold calculate_spi.
  rewrite (proj2 (Nat.ltb_ge _ _)) by lia.
  rewrite spi_windowed_lookup.
  destruct (decide (i < length precipitation)%nat) as [Hi|Hi].
  - rewrite bool_decide_eq_true_2 by exact Hi.
    rewrite spi_window_length by lia. cbn [andb].
    destruct (7 <=? Nat.min (i + 1) period)%nat eqn:E.
    + apply Nat.leb_le in E. split; [lia | eauto].
    + apply Nat.leb_gt in E. split; [intros [? ?]; discriminate | lia].
  - rewrite bool_decide_eq_false_2 by exact Hi. cbn.
    split; [intros [? ?]; discriminate | lia].
Qed.

Lemma spi_entries_from_seventh_point_witness :
  is_Some (calculate_spi scipy_fit_fails [0; 0; 0; 0; 0; 5; 0; 0] 30 !! 6%nat)
  ↔ (6 ≤ 6 < length [0; 0; 0; 0; 0; 5; 0; 0])%nat.
Proof.
  apply spi_entries_from_seventh_point; cbn; lia.
Defined.

(** C8 as stated fails. The two series below share their first seven days,
    hence the window, the window total and the SPI of index 6; in the first
    that day (1 mm) lies above the series mean 7/8, in the second below the
    mean 107/8. No behaviour of SciPy gives that single value both signs. *)
Lemma spi_sign_ignores_series_mean :
  ¬ ∃ scipy : Scipy,
      spi_sign_agrees scipy [1; 1; 1; 1; 1; 1; 1; 0] 6
      ∧ spi_sign_agrees scipy [1; 1; 1; 1; 1; 1; 1; 100] 6.
Proof.
  intros [scipy [HA HB]].
  set (v := spi_of_window scipy [1; 1; 1; 1; 1; 1; 1]).
  destruct (HA v 1) as [Hpos _].
  { unfold calculate_spi. cbn [length Nat.ltb Nat.leb].
    rewrite spi_windowed_lookup. reflexivity. }
  { reflexivity. }
  destruct (HB v 1) as [_ Hneg].
  { unfold calculate_spi. cbn [length Nat.ltb Nat.leb].
    rewrite spi_windowed_lookup. reflexivity. }
  { reflexivity. }
  assert (v > 0) by (apply Hpos; unfold Np.mean; cbn; lra).
  assert (v < 0) by (apply Hneg; unfold Np.mean; cbn; lra).
  lra.
Qed.

(** An arithmetic that subtracts and divides without rounding meets the
    sign laws, whatever its mean and deviation. *)
Lemma unrounded_ieee_signs (fl : Np.Float64) :
  Np.fl_sub fl = Rminus → Np.fl_div fl = Rdiv → Np.ieee_signs fl.
Proof.
  intros Hsub Hdiv. split; rewrite ?Hsub, ?Hdiv.
  - intros x y. split; lra.
  - intros a s Hs. pose proof (Rinv_0_lt_compat s Hs). unfold Rdiv. split; nra.
  - intros a s Hs Ha Hq.
    assert (0 < Np.smallest_subnormal).
    { unfold Np.smallest_subnormal. apply Rinv_0_lt_compat, pow_lt. lra. }
    pose proof (Rinv_0_lt_compat s Hs).
    assert (a = 0) as ->.
    { unfold Rdiv in Hq. apply Rmult_integral in Hq as [Hq | Hq]; [exact Hq | lra]. }
    rewrite Rabs_R0 in Ha. unfold Rdiv in Ha. lra.
Qed.

(** 2^-1074 against 2^-55. *)
Lemma smallest_subnormal_small : Np.smallest_subnormal <= / 36028797018963968.
Proof.
  unfold Np.smallest_subnormal.
  apply Rinv_le_contravar; [lra |].
  replace 36028797018963968 with (2 ^ 55).
  - apply Rle_pow; [lra | lia].
  - change 2 with (IZR 2). rewrite pow_IZR. apply f_equal. vm_compute. reflexivity.
Qed.

(** At exact arithmetic the two embeddings of [calculate_spi] coincide. *)
Lemma calculate_spi_rounded_exact (scipy : Scipy) (precipitation : list R) (period : nat) :
  calculate_spi_rounded Np.exact scipy precipitation period
  = calculate_spi scipy precipitation period.
Proof. reflexivity. Qed.

(** The z-score branch fills every index of the series, in float64
    arithmetic too. *)
Lemma spi_simple_rounded_lookup (fl : Np.Float64) (precipitation : list R) (i : nat) :
  spi_simple_rounded fl precipitation !! i
  = (λ precip,
       let std_precip :=
         if (1 <? length precipitation)%nat then Np.fl_std fl precipitation else 1 in
       if Rlt_dec 0 std_precip
       then Np.fl_div fl (Np.fl_sub fl precip (Np.fl_mean fl precipitation)) std_precip
       else 0)
    <$> precipitation !! i.
Proof.
  unfold spi_simple_rounded, Np.enumerate.
  pose proof (lookup_fold_enumerate
    (λ precip,
       if Rlt_dec 0 (if (1 <? length precipitation)%nat
                     then Np.fl_std fl precipitation else 1)
       then Np.fl_div fl (Np.fl_sub fl precip (Np.fl_mean fl precipitation))
              (if (1 <? length precipitation)%nat then Np.fl_std fl precipitation else 1)
       else 0) precipitation 0 ∅ i) as H.
  cbn in H. rewrite (imap_ext _ pair) in H by reflexivity.
  rewrite Nat.sub_0_r in H. cbn. rewrite H.
  destruct (precipitation !! i); [reflexivity | apply lookup_empty].
Qed.

(** C8 (amended): on a series of fewer than seven points the SPI is the
    z-score against the series itself, computed in float64 arithmetic. Its
    sign follows the position of the point against the mean as NumPy computes
    it, which need not be the exact mean: a point above the computed mean has
    no negative SPI, a point below it no positive one; the SPI is 0 where the
    computed deviation is not positive, and it is strictly positive or
    negative where that deviation is positive and the quotient does not
    underflow. *)
Theorem spi_sign_short_series (fl : Np.Float64) (scipy : Scipy)
    (precipitation : list R) (i : nat) (v x : R) :
  Np.ieee_signs fl →
  (length precipitation < 7)%nat →
  calculate_spi_rounded fl scipy precipitation 30 !! i = Some v →
  precipitation !! i = Some x →
  let mean_precip := Np.fl_mean fl precipitation in
  let std_precip :=
    if (1 <? length precipitation)%nat then Np.fl_std fl precipitation else 1 in
  (x > mean_precip → v >= 0)
  ∧ (x < mean_precip → v <= 0)
  ∧ (¬ std_precip > 0 → v = 0)
  ∧ (std_precip > 0 →
     Np.smallest_subnormal <= Rabs (Np.fl_sub fl x mean_precip) / std_precip →
     (x > mean_precip → v > 0) ∧ (x < mean_precip → v < 0)).
Proof.
  intros Hfl Hlen Hv Hx m s. unfold calculate_spi_rounded in Hv.
  rewrite (proj2 (Nat.ltb_lt _ _)) in Hv by exact Hlen.
  rewrite spi_simple_rounded_lookup, Hx in Hv.
  cbn [fmap option_fmap option_map] in Hv. injection Hv as <-. cbv zeta.
  fold m. fold s.
  destruct (Np.sub_sign fl Hfl x m) as [Hsub_pos Hsub_neg].
  destruct (Rlt_dec 0 s) as [Hs | Hs].
  - destruct (Np.div_sign fl Hfl (Np.fl_sub fl x m) s Hs) as [Hdiv_pos Hdiv_neg].
    split; [| split; [| split]].
    + intros Hcmp. apply Rle_ge, Hdiv_pos, Hsub_pos. exact Hcmp.
    + intros Hcmp. apply Hdiv_neg, Hsub_neg. exact Hcmp.
    + intros Hn. contradiction.
    + intros _ Hq.
      pose proof (Np.div_nonzero fl Hfl (Np.fl_sub fl x m) s Hs Hq) as Hne.
      split; intros Hcmp.
      * specialize (Hdiv_pos (Hsub_pos Hcmp)). lra.
      * specialize (Hdiv_neg (Hsub_neg Hcmp)). lra.
  - split; [| split; [| split]]; intros; lra.
Qed.

(** On the doubles of 0.1, 0.2 and 0.3 the middle value lies above the
    exact mean of the three and below the mean NumPy computes: its SPI is
    negative. *)
Lemma spi_sign_short_series_witness :
  ∃ v, calculate_spi_rounded numpy_on_tenths scipy_fit_fails tenths 30 !! 1%nat = Some v
       ∧ v < 0
       ∧ 3602879701896397 / 18014398509481984 > Np.mean tenths.
Proof.
  eexists. split; [reflexivity |]. split.
  - refine (proj2 (proj2 (proj2 (proj2
      (spi_sign_short_series numpy_on_tenths scipy_fit_fails tenths 1 _
         (3602879701896397 / 18014398509481984)
         (unrounded_ieee_signs numpy_on_tenths eq_refl eq_refl) _ _ _))) _ _) _).
    + cbn. lia.
    + reflexivity.
    + reflexivity.
    + cbn. lra.
    + cbn.
      replace (3602879701896397 / 18014398509481984
               - 7205759403792795 / 36028797018963968)
        with (- / 36028797018963968) by lra.
      rewrite Rabs_Ropp, Rabs_pos_eq by lra.
      eapply Rle_trans; [apply smallest_subnormal_small |]. lra.
    + cbn. lra.
  - unfold Np.mean, tenths. cbn. lra.
Defined.

End SPIClaims.

(** ** Drought periods *)

Section DroughtPeriodFacts.
Import DroughtCalculator DroughtPeriods.
Open Scope R_scope.

(** The loop only ever stores periods of three dry days or more. *)
Lemma scan_day_keeps_long (thr : R) (state : list Period * option Current) item :
  Forall (λ p, 3 ≤ dry_days p)%nat state.1 →
  Forall (λ p, 3 ≤ dry_days p)%nat (scan_day thr state item).1.
Proof.
  destruct state as [periods [cur|]], item as [i [date precip]];
    unfold scan_day; destruct (Rlt_dec precip thr); cbn [fst]; auto.
  intros H. destruct (3 <=? cur_dry_days cur)%nat eqn:E; [|exact H].
  apply Forall_app. split; [exact H |].
  constructor; [|constructor]. cbn. now apply Nat.leb_le.
Qed.

Lemma scan_keeps_long (thr : R) items (state : list Period * option Current) :
  Forall (λ p, 3 ≤ dry_days p)%nat state.1 →
  Forall (λ p, 3 ≤ dry_days p)%nat (fold_left (scan_day thr) items state).1.
Proof.
  revert state. induction items as [|item items IH]; intros state H; [exact H |].
  cbn [fold_left]. apply IH. now apply scan_day_keeps_long.
Qed.

(** Over dry days an open period only grows. *)
Lemma scan_dry_run (thr : R) (items : list (nat * (Z * R))) periods (cur : Current) :
  Forall (λ item, item.2.2 < thr) items →
  ∃ cur', fold_left (scan_day thr) items (periods, Some cur) = (periods, Some cur')
          ∧ cur_dry_days cur' = (cur_dry_days cur + length items)%nat.
Proof.
  revert cur. induction items as [|[i [date precip]] items IH]; intros cur H.
  - exists cur. split; [reflexivity | cbn; lia].
  - apply Forall_cons in H as [Hdry H]. cbn in Hdry.
    cbn [fold_left scan_day]. destruct (Rlt_dec precip thr); [|lra].
    destruct (IH {| cur_start_date := cur_start_date cur;
                    cur_start_index := cur_start_index cur;
                    cur_dry_days := cur_dry_days cur + 1;
                    cur_total_precip := cur_total_precip cur + precip |} H)
      as [cur' [-> Hd]].
    exists cur'. split; [reflexivity |]. rewrite Hd. cbn. lia.
Qed.

Lemma enumerate_zip_dry (thr : R) (dates : list Z) (precipitation : list R) :
  Forall (λ precip, precip < thr) precipitation →
  Forall (λ item : nat * (Z * R), item.2.2 < thr) (Np.enumerate (zip dates precipitation)).
Proof.
  intros H. apply Forall_forall. intros item Hin.
  apply elem_of_lookup_imap in Hin as [i [[date precip] [-> Hl]]]. cbn.
  rewrite Forall_forall in H. apply H.
  apply (elem_of_zip_r date precip dates). apply list_elem_of_lookup. eauto.
Qed.

(** C4: no emitted period counts fewer than three dry days; and a series of
    N >= 3 days, all of them below the threshold, gives exactly one period,
    of N dry days. *)
Theorem detect_drought_periods_min_three
    (climate_data : ClimateData) (drought_indicators : gmap string value)
    (dry_threshold : R) :
  Forall (λ p, 3 ≤ dry_days p)%nat
         (detect_drought_periods climate_data drought_indicators dry_threshold)
  ∧ (length (dates climate_data) = length (precipitation climate_data) →
     (3 ≤ length (precipitation climate_data))%nat →
     Forall (λ precip, precip < dry_threshold) (precipitation climate_data) →
     ∃ p, detect_drought_periods climate_data drought_indicators dry_threshold = [p]
          ∧ dry_days p = length (precipitation climate_data)).
Proof.
  split.
  - unfold detect_drought_periods.
    pose proof (scan_keeps_long dry_threshold
                  (Np.enumerate (zip (dates climate_data) (precipitation climate_data)))
                  ([], None) (Forall_nil_2 _)) as H.
    destruct (fold_left _ _ _) as [periods [cur|]]; cbn in H; [|exact H].
    destruct (3 <=? cur_dry_days cur)%nat eqn:E; [|exact H].
    apply Forall_app. split; [exact H |].
    constructor; [|constructor]. cbn. now apply Nat.leb_le.
  - intros Hlen Hn Hdry. unfold detect_drought_periods.
    pose proof (enumerate_zip_dry dry_threshold (dates climate_data) _ Hdry) as Hitems.
    assert (Hcount : length (Np.enumerate (zip (dates climate_data) (precipitation climate_data)))
                     = length (precipitation climate_data)).
    { unfold Np.enumerate. rewrite length_imap, length_zip. lia. }
    destruct (Np.enumerate (zip (dates climate_data) (precipitation climate_data)))
      as [|[i [date precip]] items]; [cbn in Hcount; lia |].
    apply Forall_cons in Hitems as [Hfirst Hitems]. cbn in Hfirst.
    cbn [fold_left scan_day]. destruct (Rlt_dec precip dry_threshold); [|lra].
    destruct (scan_dry_run dry_threshold items []
                {| cur_start_date := date; cur_start_index := i;
                   cur_dry_days := 1; cur_total_precip := precip |} Hitems)
      as [cur' [-> Hd]].
    cbn in Hd, Hcount.
    rewrite (proj2 (Nat.leb_le 3 (cur_dry_days cur'))) by lia.
    eexists. split; [reflexivity |]. cbn. lia.
Qed.

Lemma detect_drought_periods_min_three_witness :
  ∃ p, detect_drought_periods (rain_only [1; 2; 3; 4]%Z [0; 0.05; 0; 0]) ∅ 0.1 = [p]
       ∧ dry_days p = 4%nat.
Proof.
  apply (proj2 (detect_drought_periods_min_three
                  (rain_only [1; 2; 3; 4]%Z [0; 0.05; 0; 0]) ∅ 0.1)).
  - reflexivity.
  - cbn. lia.
  - repeat constructor; lra.
Defined.

(** The ten-day series of the specification: days 1-5 and 7-10. *)
Example detect_two_periods :
  map (λ p, (start_index p, end_index p, dry_days p))
      (detect_drought_periods
         (rain_only [1; 2; 3; 4; 5; 6; 7; 8; 9; 10]%Z [0; 0; 0; 0; 0; 5; 0; 0; 0; 0]) ∅ 0.1)
  = [(0, 4, 5); (6, 9, 4)]%nat.
Proof.
  unfold detect_drought_periods, Np.enumerate. cbn.
  repeat (destruct (Rlt_dec _ _); [try lra | try lra]; cbn).
  reflexivity.
Qed.

End DroughtPeriodFacts.

(** ** Group alerts *)

Section GroupAlertFacts.
Import AlertGenerator.

Lemma analyse_sample_counts env period (state : list SampleIndicator * nat * Z) locality :
  state.1.2 = count_high state.1.1 →
  (analyse_sample env period state locality).1.2
  = count_high (analyse_sample env period state locality).1.1.
Proof.
  destruct state as [[gi hc] tot]. cbn [fst snd]. intros ->.
  unfold analyse_sample.
  destruct (get_climate_data env _ _ _) as [[cd|]|]; cbn [fst snd]; [|reflexivity..].
  unfold count_high. rewrite filter_app, length_app, filter_cons, filter_nil.
  cbn [ind_risk_level].
  destruct (is_high_risk _) eqn:E.
  - rewrite decide_True by reflexivity. reflexivity.
  - rewrite decide_False by discriminate. cbn. lia.
Qed.

Lemma sample_loop_counts env period localities (state : list SampleIndicator * nat * Z) :
  state.1.2 = count_high state.1.1 →
  (fold_left (analyse_sample env period) localities state).1.2
  = count_high (fold_left (analyse_sample env period) localities state).1.1.
Proof.
  revert state. induction localities as [|l ls IH]; intros state H; [exact H |].
  cbn [fold_left]. apply IH. now apply analyse_sample_counts.
Qed.

Lemma count_high_all (indicators : list SampleIndicator) :
  Forall (λ ind, ind_risk_level ind ∈ ["Élevé"; "Très Élevé"]) indicators →
  count_high indicators = length indicators.
Proof.
  unfold count_high. induction 1 as [|ind rest Hind _ IH]; [reflexivity |].
  rewrite filter_cons_True.
  - cbn [length]. now rewrite IH.
  - unfold is_high_risk. now apply bool_decide_eq_true_2.
Qed.

(** The share [n/n] of a non-empty sample reaches the first threshold. *)
Lemma full_ratio_reaches (n : nat) :
  (0 < n)%nat →
  Qle_bool 0.7 (inject_Z (Z.of_nat n) / inject_Z (Z.of_nat n)) = true.
Proof.
  intros Hn. apply Qle_bool_iff.
  assert (Hne : ¬ (inject_Z (Z.of_nat n) == 0)%Q).
  { unfold Qeq, inject_Z. cbn. lia. }
  rewrite (Qmult_inv_r _ Hne : (_ / _ == 1)%Q). discriminate.
Qed.

(** C6: when every analysed sample of a group is at level 'Élevé' or
    'Très Élevé', the group's level is 'Très Élevé' whatever the average
    score. *)
Theorem group_all_high_is_tres_eleve (env : Services) (group_name : string)
    (group_localities : list Locality) (analysis_period group_type : string)
    (alert : GroupAlert) :
  generate_group_alert env group_name group_localities analysis_period group_type
    = Some alert →
  Forall (λ ind, ind_risk_level ind ∈ ["Élevé"; "Très Élevé"])
         (indicateurs_echantillon alert) →
  (ratio_risque_eleve alert == 1)%Q
  ∧ niveau_risque_groupe alert = "Très Élevé".
Proof.
  unfold generate_group_alert. intros Halert Hall.
  pose proof (sample_loop_counts env analysis_period
                (sample env (Nat.min 3 (length group_localities)) group_localities)
                ([], 0%nat, 0%Z) eq_refl) as Hcount.
  destruct (fold_left _ _ _) as [[gi hc] tot]. cbn [fst snd] in Hcount.
  destruct gi as [|ind gi]; [discriminate |].
  injection Halert as <-.
  cbn [indicateurs_echantillon niveau_risque_groupe ratio_risque_eleve] in *.
  rewrite (count_high_all _ Hall) in Hcount. subst hc. split.
  - apply Qmult_inv_r. unfold Qeq, inject_Z. cbn. lia.
  - unfold group_level. rewrite full_ratio_reaches by (cbn; lia). reflexivity.
Qed.

(** A group none of whose sampled localities is analysed yields no alert. *)
Lemma sample_loop_no_data env period localities (state : list SampleIndicator * nat * Z) :
  Forall (λ locality,
            ∀ cd, get_climate_data env (latitude locality) (longitude locality) period
                  ≠ Some (Some cd)) localities →
  fold_left (analyse_sample env period) localities state = state.
Proof.
  induction 1 as [|l ls Hl _ IH]; [reflexivity |].
  cbn [fold_left]. rewrite <- IH at 2. f_equal.
  destruct state as [[gi hc] tot]. unfold analyse_sample.
  destruct (get_climate_data env _ _ _) as [[cd|]|]; [|reflexivity..].
  now destruct (Hl cd).
Qed.

Lemma alerts_of_groups_app env period group_by groups1 groups2 :
  alerts_of_groups env period group_by (groups1 ++ groups2)
  = (alerts_of_groups env period group_by groups1
     ++ alerts_of_groups env period group_by groups2)%list.
Proof.
  unfold alerts_of_groups. rewrite fold_left_app.
  generalize (fold_left
    (λ alerts '(name, locs),
       match generate_group_alert env name locs period group_by with
       | Some a => (alerts ++ [a])%list
       | None => alerts
       end) groups1 []) as acc.
  induction groups2 as [|[name locs] groups2 IH] using rev_ind; intros acc.
  - cbn. now rewrite app_nil_r.
  - rewrite !fold_left_app. cbn [fold_left].
    destruct (generate_group_alert env name locs period group_by);
      rewrite IH; [now rewrite app_assoc | reflexivity].
Qed.

(** C7: a group none of whose sampled localities is analysed gets no alert
    ([generate_group_alert] returns [None]), and the collection returned by
    [generate_alerts_by_group] is the one of the other groups: the call
    returns, and nothing stands in for the group. *)
Theorem zero_sample_group_omitted (env : Services) (localities_df : list Locality)
    (analysis_period group_by : string) (key : Locality → string)
    (before after : list (string * list Locality))
    (group_name : string) (group_localities : list Locality) :
  (group_by = "region" ∧ key = region) ∨ (group_by = "zone" ∧ key = zone) →
  groupby env key localities_df = (before ++ (group_name, group_localities) :: after)%list →
  Forall (λ locality,
            ∀ cd, get_climate_data env (latitude locality) (longitude locality)
                    analysis_period ≠ Some (Some cd))
         (sample env (Nat.min 3 (length group_localities)) group_localities) →
  generate_group_alert env group_name group_localities analysis_period group_by = None
  ∧ generate_alerts_by_group env localities_df analysis_period group_by
    = Some (alerts_of_groups env analysis_period group_by (before ++ after)).
Proof.
  intros Hby Hgroups Hnone.
  assert (Hg : generate_group_alert env group_name group_localities
                 analysis_period group_by = None).
  { unfold generate_group_alert. now rewrite sample_loop_no_data. }
  split; [exact Hg |].
  assert (Hall : alerts_of_groups env analysis_period group_by
                   (before ++ (group_name, group_localities) :: after)
                 = alerts_of_groups env analysis_period group_by (before ++ after)).
  { rewrite !alerts_of_groups_app. f_equal.
    change ((group_name, group_localities) :: after)
      with ([(group_name, group_localities)] ++ after)%list.
    rewrite alerts_of_groups_app. unfold alerts_of_groups at 1.
    cbn [fold_left]. now rewrite Hg. }
  unfold generate_alerts_by_group.
  destruct Hby as [[-> ->] | [-> ->]]; cbn; now rewrite Hgroups, Hall.
Qed.

Lemma zero_sample_group_omitted_witness :
  generate_group_alert offline_services "Extrême-Nord" [maroua] "30 jours" "region" = None
  ∧ generate_alerts_by_group offline_services [maroua] "30 jours" "region" = Some [].
Proof.
  apply (zero_sample_group_omitted offline_services [maroua] "30 jours" "region"
           region [] [] "Extrême-Nord" [maroua]).
  - left. split; reflexivity.
  - reflexivity.
  - repeat constructor. intros cd. discriminate.
Defined.

(** Three factors at their worst already put an assessment at a high
    level. *)
Lemma assess_high_from_three_factors (indicators : gmap string DroughtCalculator.value)
    (d h s : R) :
  is_Some (DroughtCalculator.get_num indicators "spi_mean" 0) →
  is_Some (DroughtCalculator.get_num indicators "consecutive_dry_days" 0) →
  indicators !! "precipitation_deficit" = Some (DroughtCalculator.Num d) → (d > 60)%R →
  indicators !! "heat_stress" = Some (DroughtCalculator.Num h) → (h > 50)%R →
  indicators !! "soil_moisture_mean" = Some (DroughtCalculator.Num s) → (s < 20)%R →
  DroughtCalculator.risk_level (DroughtCalculator.assess_drought_risk indicators)
    ∈ ["Élevé"; "Très Élevé"].
Proof.
  intros [sp Hsp] [dd Hdd] Hd Hdgt Hh Hhgt Hs Hslt.
  pose proof (assess_try_score indicators) as Hscore.
  rewrite Hsp, Hdd, (get_num_lookup _ _ _ _ Hd), (get_num_lookup _ _ _ _ Hh),
    (get_num_lookup _ _ _ _ Hs) in Hscore.
  cbn [mbind option_bind] in Hscore.
  unfold DroughtCalculator.assess_drought_risk.
  destruct (DroughtCalculator.assess_drought_risk_try indicators) as [r|] eqn:Hr;
    [|discriminate].
  cbn in Hscore. injection Hscore as Hscore.
  change (DroughtCalculator.risk_level r ∈ ["Élevé"; "Très Élevé"]).
  rewrite (assess_try_level _ _ Hr), Hscore.
  assert (Hge : (55 <= total_points sp d dd h s)%Z).
  { unfold total_points, DroughtCalculator.spi_factor, DroughtCalculator.deficit_factor,
      DroughtCalculator.dry_days_factor, DroughtCalculator.heat_factor,
      DroughtCalculator.soil_factor.
    repeat match goal with
      | |- context [Rle_dec ?a ?b] => destruct (Rle_dec a b)
      | |- context [Rlt_dec ?a ?b] => destruct (Rlt_dec a b)
      | |- context [Rgt_dec ?a ?b] => destruct (Rgt_dec a b)
      end; cbn; try lia; lra. }
  unfold DroughtCalculator.classify.
  destruct (70 <=? _)%Z eqn:E70; [cbn; set_solver |].
  rewrite (proj2 (Z.leb_le 50 _)) by lia. cbn. set_solver.
Qed.

Lemma parched_day_is_high :
  DroughtCalculator.risk_level
    (DroughtCalculator.assess_drought_risk
       (DroughtCalculator.calculate_drought_indicators scipy_fit_fails (Some parched_day)))
    ∈ ["Élevé"; "Très Élevé"].
Proof.
  eapply assess_high_from_three_factors.
  - eexists. reflexivity.
  - eexists. reflexivity.
  - reflexivity.
  - unfold DroughtCalculator.calculate_normal_precipitation,
      DroughtCalculator.if_nonempty, Np.mean, Np.sum. cbn.
    destruct (Rlt_dec _ _) as [_|n]; [|exfalso; apply n; lra].
    unfold Rmax. destruct (Rle_dec _ _); lra.
  - reflexivity.
  - unfold DroughtCalculator.calculate_heat_stress.
    change (DroughtCalculator.temperature_2m_max parched_day) with [40%R].
    rewrite filter_cons_True by lra. cbn. lra.
  - reflexivity.
  - unfold DroughtCalculator.if_nonempty, Np.mean, Np.sum. cbn. lra.
Qed.

Lemma group_all_high_is_tres_eleve_witness :
  ∃ alert,
    generate_group_alert parched_services "Extrême-Nord" [maroua] "30 jours" "region"
      = Some alert
    ∧ (ratio_risque_eleve alert == 1)%Q
    ∧ niveau_risque_groupe alert = "Très Élevé".
Proof.
  eexists. split; [reflexivity |].
  eapply (group_all_high_is_tres_eleve parched_services "Extrême-Nord" [maroua]
            "30 jours" "region").
  - reflexivity.
  - cbn [indicateurs_echantillon]. constructor; [|constructor].
    cbn [ind_risk_level]. exact parched_day_is_high.
Defined.

End GroupAlertFacts.

(** ** Simulated forecasts *)

Section ForecastFacts.
Import Forecast.

Lemma linspace_length (fl : Arith) (a b : Q) (n : nat) : length (linspace fl a b n) = n.
Proof.
  destruct n as [|[|n]]; [reflexivity.. |].
  unfold linspace. rewrite length_app, length_map, length_seq. cbn. lia.
Qed.

Lemma longterm_precipitation_length (fl : Arith) (np : NumpyRandom) (now_start now_end : Z)
    (latitude longitude : Q) (years : N) (st : rng np) (r : ForecastData * rng np) :
  draws_as_requested np →
  get_longterm_forecast fl np now_start now_end latitude longitude years st = Some r →
  length (precipitation r.1)
  = length (date_range_monthly now_start (now_end + days (365 * Z.of_N years))).
Proof.
  intros (normal_length & exponential_length & _). unfold get_longterm_forecast.
  set (n := length (date_range_monthly _ _)).
  destruct (np_seed np _ st) as [st0|]; [|discriminate]. cbn [mbind option_bind].
  pose proof (normal_length 0 2 n st0) as Hn.
  destruct (normal np 0 2 n st0) as [noise st1].
  pose proof (exponential_length 80 n st1) as He.
  destruct (exponential np 80 n st1) as [amounts st2]. cbn [fst] in Hn, He.
  intros [= <-]. cbn [fst precipitation].
  rewrite length_map, length_zip_with, length_map, linspace_length, He. lia.
Qed.

(** Seeding does not read the state it replaces. *)
Lemma np_seed_any_state (np : NumpyRandom) (s : Z) (st1 st2 : rng np) :
  np_seed np s st1 = np_seed np s st2.
Proof. reflexivity. Qed.

Lemma np_seed_Some (np : NumpyRandom) (s : Z) (st st' : rng np) :
  np_seed np s st = Some st' → st' = seed np s.
Proof. unfold np_seed. destruct (_ && _); [now intros [= <-] | discriminate]. Qed.

(** Once the seed is accepted the forecast returns. *)
Lemma longterm_returns (fl : Arith) (np : NumpyRandom) (now_start now_end : Z)
    (latitude longitude : Q) (years : N) (st : rng np) :
  is_Some (np_seed np (int_of (fadd fl (fmul fl latitude 100) longitude)) st) →
  is_Some (get_longterm_forecast fl np now_start now_end latitude longitude years st).
Proof.
  intros [st0 Hst]. unfold get_longterm_forecast. rewrite Hst.
  cbn [mbind option_bind].
  repeat match goal with
    | |- context [let '(_, _) := ?d in _] => destruct d
    end.
  eauto.
Qed.

Example noon_2023_01_31_is_a_month_end :
  civil_of_days (day_of noon_2023_01_15) = (2023, 1, 15)%Z
  ∧ civil_of_days (day_of noon_2023_01_31) = (2023, 1, 31)%Z
  ∧ is_month_end (day_of noon_2023_01_15) = false
  ∧ is_month_end (day_of noon_2023_01_31) = true.
Proof. vm_compute. repeat split. Qed.

Lemma one_year_from_2023_01_15 :
  length (date_range_monthly noon_2023_01_15 (noon_2023_01_15 + days (365 * Z.of_N 1)))
  = 12%nat.
Proof. vm_compute. reflexivity. Qed.

Lemma one_year_from_2023_01_31 :
  length (date_range_monthly noon_2023_01_31 (noon_2023_01_31 + days (365 * Z.of_N 1)))
  = 13%nat.
Proof. vm_compute. reflexivity. Qed.

(** C9 as stated fails. For latitude 4 and longitude 9.7 a one-year forecast
    asked on 15 January 2023 spans twelve month ends, and one asked on the
    31st, itself a month end, thirteen: whatever the rounding of the
    arithmetic, the generator and the state it is in, once the seed is one
    NumPy accepts the two precipitation series differ in length. *)
Lemma longterm_forecast_depends_on_the_day :
  ¬ ∃ (fl : Arith) (np : NumpyRandom) (st1 st2 : rng np),
      draws_as_requested np
      ∧ (0 <= int_of (fadd fl (fmul fl 4 100) 9.7) < 2 ^ 32)%Z
      ∧ (λ r, precipitation r.1)
          <$> get_longterm_forecast fl np noon_2023_01_15 noon_2023_01_15 4 9.7 1 st1
        = (λ r, precipitation r.1)
          <$> get_longterm_forecast fl np noon_2023_01_31 noon_2023_01_31 4 9.7 1 st2.
Proof.
  intros (fl & np & st1 & st2 & Hnp & Hrange & Heq).
  assert (Hseed : ∀ st, is_Some (np_seed np (int_of (fadd fl (fmul fl 4 100) 9.7)) st)).
  { intros st. unfold np_seed.
    rewrite (proj2 (Z.leb_le _ _)), (proj2 (Z.ltb_lt _ _)) by lia. eauto. }
  destruct (longterm_returns fl np noon_2023_01_15 noon_2023_01_15 4 9.7 1 st1 (Hseed st1))
    as [r1 E1].
  destruct (longterm_returns fl np noon_2023_01_31 noon_2023_01_31 4 9.7 1 st2 (Hseed st2))
    as [r2 E2].
  rewrite E1, E2 in Heq.
  apply longterm_precipitation_length in E1, E2; [|exact Hnp..].
  cbn in Heq. injection Heq as Heq.
  rewrite Heq, E2, one_year_from_2023_01_15, one_year_from_2023_01_31 in E1.
  discriminate E1.
Qed.

Lemma date_range_daily_length (start end_ : Z) :
  (start <= end_)%Z →
  length (date_range_daily start end_)
  = Z.to_nat ((end_ - start) / microseconds_per_day + 1).
Proof.
  intros H. unfold date_range_daily.
  rewrite (proj2 (Z.ltb_ge _ _)) by lia.
  now rewrite length_map, length_seqZ.
Qed.

(** The thirty-day range holds 31 dates when both readings of the clock
    coincide and 30 when the second is later by less than a day. *)
Lemma thirty_day_range_length (now_end now_start : Z) :
  (now_end <= now_start < now_end + microseconds_per_day)%Z →
  length (date_range_daily now_start (now_end + days 30))
  = if (now_start =? now_end)%Z then 31%nat else 30%nat.
Proof.
  intros Hclock.
  rewrite date_range_daily_length by (unfold days, microseconds_per_day in *; lia).
  unfold days, microseconds_per_day in *.
  destruct (Z.eqb_spec now_start now_end) as [->|Hne].
  - replace (now_end + 30 * 86400000000 - now_end)%Z with (30 * 86400000000)%Z by lia.
    rewrite Z.div_mul by lia. reflexivity.
  - assert ((now_end + 30 * 86400000000 - now_start) / 86400000000 = 29)%Z as ->;
      [|reflexivity].
    symmetry.
    apply (Z.div_unique_pos _ _ 29 (now_end + 86400000000 - now_start))%Z; lia.
Qed.

(** What the thirty-day forecast draws first, and from which state. *)
Lemma thirty_day_first_draw (fl : Arith) (np : NumpyRandom) (now_end now_start : Z)
    (latitude longitude : Q) (st : rng np) (r : ForecastData * rng np) :
  get_30day_forecast fl np now_end now_start latitude longitude st = Some r →
  temperature_max r.1
  = map (fadd fl (fadd fl 25 (fmul fl (fsub fl latitude 5) 0.5)))
        (normal np 3 2 (length (dates r.1))
           (seed np (int_of (fadd fl (fmul fl latitude 100) longitude)))).1.
Proof.
  unfold get_30day_forecast. cbv zeta.
  destruct (np_seed np _ st) as [st0|] eqn:Hseed; [|discriminate].
  apply np_seed_Some in Hseed. subst st0. cbn [mbind option_bind].
  repeat match goal with
    | |- context [let '(_, _) := ?d in _] => destruct d eqn:?
    end.
  intros [= <-]. cbn [fst temperature_max dates].
  match goal with H : normal np 3 2 _ _ = _ |- _ => now rewrite H end.
Qed.

Lemma longterm_first_draw (fl : Arith) (np : NumpyRandom) (now_start now_end : Z)
    (latitude longitude : Q) (years : N) (st : rng np) (r : ForecastData * rng np) :
  get_longterm_forecast fl np now_start now_end latitude longitude years st = Some r →
  temperature_max r.1
  = zip_with (fadd fl)
      (map (fadd fl (fadd fl 25 (fmul fl (fsub fl latitude 5) 0.5)))
           (linspace fl 0 (fmul fl 0.8 (inject_Z (Z.of_N years))) (length (dates r.1))))
      (normal np 0 2 (length (dates r.1))
         (seed np (int_of (fadd fl (fmul fl latitude 100) longitude)))).1.
Proof.
  unfold get_longterm_forecast. cbv zeta.
  destruct (np_seed np _ st) as [st0|] eqn:Hseed; [|discriminate].
  apply np_seed_Some in Hseed. subst st0. cbn [mbind option_bind].
  repeat match goal with
    | |- context [let '(_, _) := ?d in _] => destruct d eqn:?
    end.
  intros [= <-]. cbn [fst temperature_max dates].
  match goal with H : normal np 0 2 _ _ = _ |- _ => now rewrite H end.
Qed.

(** C9 (amended): for a fixed latitude and longitude, two calls of the
    thirty-day forecast whose date ranges hold the same number of dates draw
    the same series and leave the generator in the same state, whatever
    states the generator was in before the two calls; so do two calls of
    the long-term forecast for the same number of years. The generator is
    seeded with the integer part of latitude * 100 + longitude as float64
    arithmetic computes it: the first series of a forecast is drawn from
    that seed. The number of dates comes from the clock: the thirty-day
    range holds 31 dates when both readings of the clock coincide and 30
    when the second is later by less than a day. *)
Theorem forecast_reproducible_for_equal_date_counts (fl : Arith) (np : NumpyRandom)
    (latitude longitude : Q) (years : N)
    (now_end1 now_start1 now_end2 now_start2 : Z) (st1 st2 : rng np) :
  (length (date_range_daily now_start1 (now_end1 + days 30))
   = length (date_range_daily now_start2 (now_end2 + days 30)) →
   drawn (get_30day_forecast fl np now_end1 now_start1 latitude longitude st1)
   = drawn (get_30day_forecast fl np now_end2 now_start2 latitude longitude st2))
  ∧ (length (date_range_monthly now_start1 (now_end1 + days (365 * Z.of_N years)))
     = length (date_range_monthly now_start2 (now_end2 + days (365 * Z.of_N years))) →
     drawn (get_longterm_forecast fl np now_start1 now_end1 latitude longitude years st1)
     = drawn (get_longterm_forecast fl np now_start2 now_end2 latitude longitude years st2))
  ∧ (∀ r, get_30day_forecast fl np now_end1 now_start1 latitude longitude st1 = Some r →
       temperature_max r.1
       = map (fadd fl (fadd fl 25 (fmul fl (fsub fl latitude 5) 0.5)))
             (normal np 3 2 (length (dates r.1))
                (seed np (int_of (fadd fl (fmul fl latitude 100) longitude)))).1)
  ∧ (∀ r, get_longterm_forecast fl np now_start1 now_end1 latitude longitude years st1
          = Some r →
       temperature_max r.1
       = zip_with (fadd fl)
           (map (fadd fl (fadd fl 25 (fmul fl (fsub fl latitude 5) 0.5)))
                (linspace fl 0 (fmul fl 0.8 (inject_Z (Z.of_N years)))
                   (length (dates r.1))))
           (normal np 0 2 (length (dates r.1))
              (seed np (int_of (fadd fl (fmul fl latitude 100) longitude)))).1)
  ∧ ((now_end1 <= now_start1 < now_end1 + microseconds_per_day)%Z →
     length (date_range_daily now_start1 (now_end1 + days 30))
     = if (now_start1 =? now_end1)%Z then 31%nat else 30%nat).
Proof.
  split; [|split; [|split; [|split]]].
  - intros Hlen. unfold get_30day_forecast. cbv zeta. rewrite Hlen.
    rewrite (np_seed_any_state np _ st1 st2).
    destruct (np_seed np _ st2) as [st|]; [|reflexivity]. cbn [mbind option_bind].
    repeat match goal with
      | |- context [let '(_, _) := ?d in _] => destruct d
      end.
    reflexivity.
  - intros Hlen. unfold get_longterm_forecast. cbv zeta. rewrite Hlen.
    rewrite (np_seed_any_state np _ st1 st2).
    destruct (np_seed np _ st2) as [st|]; [|reflexivity]. cbn [mbind option_bind].
    repeat match goal with
      | |- context [let '(_, _) := ?d in _] => destruct d
      end.
    reflexivity.
  - intros r. apply thirty_day_first_draw.
  - intros r. apply longterm_first_draw.
  - apply thirty_day_range_length.
Qed.

Lemma lcg_draws_length f n st : length (lcg_draws f n st).1 = n.
Proof.
  revert st. induction n as [|n IH]; intros st; [reflexivity |].
  cbn [lcg_draws]. specialize (IH (lcg_next st)).
  destruct (lcg_draws f n (lcg_next st)). cbn in *. now rewrite IH.
Qed.

Lemma lcg_coins_length p st : length (lcg_coins p st).1 = length p.
Proof.
  revert st. induction p as [|p0 p IH]; intros st; [reflexivity |].
  cbn [lcg_coins]. specialize (IH (lcg_next st)).
  destruct (lcg_coins p (lcg_next st)). cbn in *. now rewrite IH.
Qed.

(** The stand-in is a generator in the sense above. *)
Lemma lcg_draws_as_requested : draws_as_requested lcg.
Proof.
  repeat split; intros; cbn; auto using lcg_draws_length, lcg_coins_length.
Qed.

Lemma forecast_reproducible_for_equal_date_counts_witness :
  drawn (get_30day_forecast exact lcg 10 11 4 9.7 1%Z)
  = drawn (get_30day_forecast exact lcg (days 3) (days 3 + 5) 4 9.7 77%Z)
  ∧ drawn (get_longterm_forecast exact lcg noon_2023_01_15 noon_2023_01_15 4 9.7 1 1%Z)
    = drawn (get_longterm_forecast exact lcg (noon_2023_01_15 + days 20)
                                   (noon_2023_01_15 + days 20 + 3) 4 9.7 1 77%Z)
  ∧ length (date_range_daily 11 (10 + days 30)) = 30%nat.
Proof.
  split; [|split].
  - apply (proj1 (forecast_reproducible_for_equal_date_counts exact lcg 4 9.7 1
                    10 11 (days 3) (days 3 + 5) 1%Z 77%Z)).
    vm_compute. reflexivity.
  - apply (proj1 (proj2 (forecast_reproducible_for_equal_date_counts exact lcg 4 9.7 1
                    noon_2023_01_15 noon_2023_01_15
                    (noon_2023_01_15 + days 20 + 3) (noon_2023_01_15 + days 20)
                    1%Z 77%Z))).
    vm_compute. reflexivity.
  - apply (proj2 (proj2 (proj2 (proj2
             (forecast_reproducible_for_equal_date_counts exact lcg 4 9.7 1
                10 11 10 11 1%Z 1%Z))))).
    unfold microseconds_per_day. lia.
Defined.

(** With the stand-in generator, the series of two places whose seeds
    differ are not the same, and the state the generator was in before the
    call, here 1 and 77, is not seen in what is drawn. *)
Example lcg_forecast_follows_the_seed :
  (λ r, precipitation r.1) <$> get_30day_forecast exact lcg 10 11 4 9.7 1%Z
  ≠ (λ r, precipitation r.1) <$> get_30day_forecast exact lcg 10 11 5 9.7 1%Z
  ∧ get_30day_forecast exact lcg 10 11 4 9.7 1%Z = get_30day_forecast exact lcg 10 11 4 9.7 77%Z.
Proof.
  split; [|reflexivity].
  vm_compute. intros H. discriminate H.
Qed.

End ForecastFacts.

(** ** The flood risk calculator *)

Section FloodFacts.
Import Flood.
Context (str_of : value → string).

Lemma take_chars_empty (n : nat) (s : string) : take_chars (S n) s = "" ↔ s = "".
Proof.
  destruct s as [|c s]; [tauto |]. cbn [take_chars].
  destruct (_ && _); split; discriminate.
Qed.

Lemma slice24_is_Some (x : value) : is_Some (slice24 x) ↔ is_sequence x.
Proof.
  destruct x as [[| | |s]|l|d]; cbn; split; try tauto; eauto;
    intros [? ?]; discriminate.
Qed.

(** The items of a slice are numbers exactly when the first 24 items of
    the sequence are. *)
Lemma numbers_slice24 (x y : value) :
  slice24 x = Some y → (is_Some (numbers y) ↔ numeric_24 x).
Proof.
  destruct x as [[| | |s]|l|d]; cbn; try discriminate; intros [= <-]; cbn.
  - destruct (take_chars 24 s) eqn:E.
    + apply take_chars_empty in E. split; [tauto | eauto].
    + split; [intros [? ?]; discriminate |].
      intros ->. discriminate.
  - rewrite mapM_is_Some. reflexivity.
Qed.

Lemma numeric_24_sequence (x : value) : numeric_24 x → is_sequence x.
Proof. destruct x as [[| | |s]|l|d]; cbn; tauto. Qed.

Lemma first_number (x : value) :
  is_Some (soil ← first x; as_number soil) ↔ numeric_first x.
Proof.
  destruct x as [[| | |[|c s]]|[|a l]|d]; cbn; split; try tauto;
    intros [? ?]; discriminate.
Qed.

Lemma determine_alert_level_names (risk_score : Q) (precipitation : value)
    (level : string) (alert_details : AlertDetails) :
  _determine_alert_level risk_score precipitation = Some (level, alert_details) →
  level ∈ alert_level_names ∧ ALERT_LEVELS !! level = Some alert_details.
Proof.
  unfold _determine_alert_level.
  destruct (numbers precipitation) as [precip|]; [|discriminate].
  cbn [mbind option_bind].
  repeat match goal with
    | |- context [Qle_bool ?a ?b] => destruct (Qle_bool a b)
    end;
    match goal with
    | |- context [ALERT_LEVELS !! ?l] =>
        destruct (ALERT_LEVELS !! l) as [a|] eqn:E; [|discriminate]
    end;
    cbn; intros [= <- <-]; (split; [unfold alert_level_names; set_solver | exact E]).
Qed.

Lemma determine_alert_level_returns (risk_score : Q) (precipitation : value) :
  is_Some (numbers precipitation) →
  is_Some (_determine_alert_level risk_score precipitation).
Proof.
  intros [precip Hp]. unfold _determine_alert_level. rewrite Hp.
  cbn [mbind option_bind].
  repeat match goal with
    | |- context [Qle_bool ?a ?b] => destruct (Qle_bool a b)
    end; eexists; reflexivity.
Qed.

Lemma flood_type_factor_returns (flood_type : value) (locality : list (string * value)) :
  is_Some (_get_flood_type_factor str_of flood_type (VDict locality)) ↔ hashable flood_type.
Proof.
  unfold _get_flood_type_factor. cbv zeta.
  destruct flood_type as [[| | |s]|l|d]; cbn; split; try tauto; eauto;
    intros [? ?]; discriminate.
Qed.

(** The body of [calculate_risk] returns exactly on the inputs on which
    nothing raises. *)
Lemma calculate_risk_try_returns (weather_data locality_data : value) :
  is_Some (calculate_risk_try str_of weather_data locality_data)
  ↔ computable weather_data locality_data.
Proof.
  unfold calculate_risk_try, computable.
  destruct weather_data as [a|l|weather]; cbn [get mbind option_bind];
    try (split; [intros [? ?]; discriminate | now destruct locality_data]).
  fold (item_or weather "hourly" (VDict [])).
  destruct (item_or weather "hourly" (VDict [])) as [a|l|hourly] eqn:Eh;
    cbn [get mbind option_bind];
    try (split; [intros [? ?]; discriminate | destruct locality_data; tauto]).
  fold (item_or hourly "precipitation" (VList [SNum 0])).
  fold (item_or hourly "temperature_2m" (VList [SNum 25])).
  fold (item_or hourly "relative_humidity_2m" (VList [SNum 60])).
  set (p0 := item_or hourly "precipitation" (VList [SNum 0])).
  set (t0 := item_or hourly "temperature_2m" (VList [SNum 25])).
  set (h0 := item_or hourly "relative_humidity_2m" (VList [SNum 60])).
  pose proof (slice24_is_Some p0) as Hps.
  destruct (slice24 p0) as [precipitation|] eqn:Ep; cbn [mbind option_bind].
  2: { split; [intros [? ?]; discriminate |].
       destruct locality_data; try tauto. intros [[Hp _] _].
       apply numeric_24_sequence, Hps in Hp. now destruct Hp. }
  pose proof (numbers_slice24 p0 precipitation Ep) as Hpn.
  pose proof (slice24_is_Some t0) as Hts.
  destruct (slice24 t0) as [temperature|] eqn:Et; cbn [mbind option_bind].
  2: { split; [intros [? ?]; discriminate |].
       destruct locality_data; try tauto. intros [(_ & Ht & _) _].
       apply Hts in Ht. now destruct Ht. }
  pose proof (slice24_is_Some h0) as Hhs.
  destruct (slice24 h0) as [humidity|] eqn:Ehu; cbn [mbind option_bind].
  2: { split; [intros [? ?]; discriminate |].
       destruct locality_data; try tauto. intros [(_ & _ & Hh) _].
       apply numeric_24_sequence, Hhs in Hh. now destruct Hh. }
  pose proof (numbers_slice24 h0 humidity Ehu) as Hhn.
  destruct locality_data as [a|l|locality]; cbn [get mbind option_bind];
    try (split; [intros [? ?]; discriminate | tauto]).
  fold (item_or locality "type_inondation" (VScalar (SStr "Mixte"))).
  set (flood_type := item_or locality "type_inondation" (VScalar (SStr "Mixte"))).
  unfold _calculate_ffg, _calculate_ifs, _calculate_soil_saturation.
  cbn [get mbind option_bind].
  fold (item_or weather "soil_moisture" (VList [SNum 50])).
  fold (item_or locality "altitude" (VScalar (SNum 100))).
  destruct (numbers precipitation) as [precip|] eqn:Enp; cbn [mbind option_bind].
  2: { split; [intros [? ?]; discriminate |]. intros [[Hp _] _].
       apply Hpn in Hp. now destruct Hp. }
  destruct (numbers humidity) as [hum|] eqn:Enh; cbn [mbind option_bind].
  2: { split; [intros [? ?]; discriminate |]. intros [(_ & _ & Hh) _].
       apply Hhn in Hh. now destruct Hh. }
  pose proof (first_number (item_or weather "soil_moisture" (VList [SNum 50]))) as Hsoil.
  destruct (first (item_or weather "soil_moisture" (VList [SNum 50]))) as [soil0|];
    cbn [mbind option_bind] in *.
  2: { split; [intros [? ?]; discriminate |]. intros (_ & Hs & _).
       apply Hsoil in Hs. now destruct Hs. }
  destruct (as_number (item_or locality "altitude" (VScalar (SNum 100)))) as [altitude|];
    cbn [mbind option_bind].
  2: { split; [intros [? ?]; discriminate |]. intros (_ & _ & [? Ha] & _).
       discriminate Ha. }
  destruct (as_number soil0) as [soil|]; cbn [mbind option_bind].
  2: { split; [intros [? ?]; discriminate |]. intros (_ & Hs & _).
       apply Hsoil in Hs. now destruct Hs. }
  pose proof (flood_type_factor_returns flood_type locality) as Htype.
  destruct (_get_flood_type_factor str_of flood_type (VDict locality)) as [type_factor|];
    cbn [mbind option_bind].
  2: { split; [intros [? ?]; discriminate |]. intros (_ & _ & _ & Hf).
       apply Htype in Hf. now destruct Hf. }
  match goal with
  | |- context [_determine_alert_level ?score precipitation] =>
      destruct (determine_alert_level_returns score precipitation) as [[lvl det] ->];
        [rewrite Enp; eauto |]
  end.
  cbn [mbind option_bind]. split; [intros _ | eauto].
  repeat split.
  - apply Hpn. eauto.
  - apply Hts. eauto.
  - apply Hhn. eauto.
  - apply Hsoil. eauto.
  - eauto.
  - apply Htype. eauto.
Qed.

(** The level of a computed result and the entry of its details. *)
Lemma calculate_risk_try_level (weather_data locality_data : value)
    (result : string * Q * gmap string detail) :
  calculate_risk_try str_of weather_data locality_data = Some result →
  result.1.1 ∈ alert_level_names
  ∧ (DAlert <$> (ALERT_LEVELS !! result.1.1)) = result.2 !! "alert_details".
Proof.
  unfold calculate_risk_try. intros Htry.
  repeat match type of Htry with
    | context [?x ≫= _] =>
        match x with
        | _determine_alert_level _ _ => fail 1
        | _ => destruct x; [|discriminate Htry]; cbn [mbind option_bind] in Htry
        end
    end.
  destruct (_determine_alert_level _ _) as [[level alert_details]|] eqn:Hlevel;
    [|discriminate Htry].
  cbn [mbind option_bind] in Htry.
  destruct (numbers _) as [precip|]; [|discriminate Htry].
  cbn [mbind option_bind] in Htry. injection Htry as <-. cbn [fst snd].
  apply determine_alert_level_names in Hlevel as [Hin ->].
  split; [exact Hin | reflexivity].
Qed.

(** C10: [calculate_risk] returns a triple on every input, a Python value
    of any shape for the weather and for the locality. On the inputs on
    which nothing raises the triple is the computed one: its level is one
    of the four alert levels and its details hold the entry of that level.
    On every other input (a weather or a locality that is no dict, an
    'hourly' that is no dict, precipitation, temperature or humidity that
    cannot be sliced, an item that is no number among the first 24
    precipitations or humidities, a soil moisture that is no list or is
    empty or starts with something else than a number, an altitude that is
    no number, a flood type that is a list or a dict) the triple is
    ('Inconnu', 0, {}). 'Inconnu' is none of the four levels. *)
Theorem calculate_risk_never_fails (weather_data locality_data : value) :
  (computable weather_data locality_data →
   calculate_risk_try str_of weather_data locality_data
     = Some (calculate_risk str_of weather_data locality_data)
   ∧ (calculate_risk str_of weather_data locality_data).1.1 ∈ alert_level_names
   ∧ (DAlert <$> (ALERT_LEVELS !! (calculate_risk str_of weather_data locality_data).1.1))
     = (calculate_risk str_of weather_data locality_data).2 !! "alert_details")
  ∧ (¬ computable weather_data locality_data →
     calculate_risk_try str_of weather_data locality_data = None
     ∧ calculate_risk str_of weather_data locality_data = ("Inconnu", 0%Q, ∅))
  ∧ ((calculate_risk str_of weather_data locality_data).1.1 = "Inconnu"
     ↔ ¬ computable weather_data locality_data)
  ∧ ("Inconnu" ∉ alert_level_names)
  ∧ ALERT_LEVELS !! "Inconnu" = None.
Proof.
  assert (Hnot : "Inconnu" ∉ alert_level_names).
  { intros H%list_elem_of_In. cbn in H. intuition discriminate. }
  pose proof (calculate_risk_try_returns weather_data locality_data) as Hret.
  unfold calculate_risk.
  destruct (calculate_risk_try str_of weather_data locality_data) as [result|] eqn:Htry.
  - pose proof (calculate_risk_try_level _ _ _ Htry) as [Hin Hdet].
    assert (Hc : computable weather_data locality_data) by (apply Hret; eauto).
    split; [auto |]. split; [tauto |]. split; [|split; [exact Hnot | reflexivity]].
    split; [|tauto]. intros Hl. rewrite Hl in Hin. contradiction.
  - assert (Hc : ¬ computable weather_data locality_data).
    { intros Hc. apply Hret in Hc. now destruct Hc. }
    split; [tauto |]. split; [auto |]. split; [|split; [exact Hnot | reflexivity]].
    cbn [fst]. tauto.
Qed.

End FloodFacts.

Section FloodExamples.
Import Flood.

Lemma calculate_risk_never_fails_witness :
  (calculate_risk no_text fallback_data douala).1.1 ∈ alert_level_names.
Proof.
  refine (proj1 (proj2 (proj1 (calculate_risk_never_fails no_text fallback_data douala) _))).
  cbn. repeat split; try (repeat constructor; eexists; reflexivity); eauto.
Defined.

(** A weather dict whose 'hourly' is null, a scalar soil moisture, an
    altitude that is a string and a missing locality are such failures; an
    empty soil moisture list is another. *)
Example calculate_risk_failures :
  calculate_risk no_text (VDict [("hourly", VScalar SNone)]) douala = ("Inconnu", 0%Q, ∅)
  ∧ calculate_risk no_text (VDict [("soil_moisture", VScalar (SNum 40))]) douala
    = ("Inconnu", 0%Q, ∅)
  ∧ calculate_risk no_text (VDict [("soil_moisture", VList [])]) douala
    = ("Inconnu", 0%Q, ∅)
  ∧ calculate_risk no_text fallback_data (VDict [("altitude", VScalar (SStr "13 m"))])
    = ("Inconnu", 0%Q, ∅)
  ∧ calculate_risk no_text fallback_data (VScalar SNone) = ("Inconnu", 0%Q, ∅)
  ∧ calculate_risk no_text (VScalar SNone) douala = ("Inconnu", 0%Q, ∅).
Proof. repeat split; reflexivity. Qed.

(** On the fallback weather the coastal town is under 'Vigilance'. *)
Example calculate_risk_fallback_data :
  (calculate_risk no_text fallback_data douala).1.1 = "Vigilance"
  ∧ (0.2931 < (calculate_risk no_text fallback_data douala).1.2 < 0.2932)%Q.
Proof. repeat split; vm_compute; reflexivity. Qed.

End FloodExamples.


(** ** The drought risk score: range, monotonicity and failure *)

Section DroughtScoringMore.
Import DroughtCalculator.
Open Scope R_scope.

Ltac decide_cmp :=
  repeat match goal with
    | |- context [Rle_dec ?a ?b] => destruct (Rle_dec a b)
    | |- context [Rlt_dec ?a ?b] => destruct (Rlt_dec a b)
    | |- context [Rgt_dec ?a ?b] => destruct (Rgt_dec a b)
    end.

(** The reasons and the score of an assessment, factor by factor. *)
Lemma assess_try_factors indicators r :
  assess_drought_risk_try indicators = Some r →
  ∃ s d dd h sm,
    factors r = ((spi_factor s).2 ++ (deficit_factor d).2 ++ (dry_days_factor dd).2
                 ++ (heat_factor h).2 ++ (soil_factor sm).2)%list
    ∧ risk_score r = total_points s d dd h sm.
Proof.
  unfold assess_drought_risk_try. intros H.
  destruct (get_num indicators "spi_mean" 0) as [s|]; [|discriminate].
  destruct (get_num indicators "precipitation_deficit" 0) as [d|]; [|discriminate].
  destruct (get_num indicators "consecutive_dry_days" 0) as [dd|]; [|discriminate].
  destruct (get_num indicators "heat_stress" 0) as [h|]; [|discriminate].
  destruct (get_num indicators "soil_moisture_mean" 50) as [sm|]; [|discriminate].
  cbn [mbind option_bind] in H.
  destruct (add_factor _ (soil_factor sm)) as [score fs] eqn:Hacc.
  destruct (classify score) as [lvl col].
  destruct (generate_recommendations lvl indicators); [|discriminate].
  cbn in H. injection H as <-. cbn [factors risk_score].
  exists s, d, dd, h, sm. unfold add_factor in Hacc. cbn [fst snd] in Hacc.
  injection Hacc as <- <-. split.
  - cbn [app]. now rewrite <- !app_assoc.
  - unfold total_points. lia.
Qed.

Lemma spi_factor_shape s : factor_shape (spi_factor s) 40.
Proof.
  unfold factor_shape, spi_factor. decide_cmp; cbn;
    solve [left; auto | right; repeat split; lia].
Qed.

Lemma deficit_factor_shape d : factor_shape (deficit_factor d) 30.
Proof.
  unfold factor_shape, deficit_factor. decide_cmp; cbn;
    solve [left; auto | right; repeat split; lia].
Qed.

Lemma dry_days_factor_shape d : factor_shape (dry_days_factor d) 20.
Proof.
  unfold factor_shape, dry_days_factor. decide_cmp; cbn;
    solve [left; auto | right; repeat split; lia].
Qed.

Lemma heat_factor_shape h : factor_shape (heat_factor h) 10.
Proof.
  unfold factor_shape, heat_factor. decide_cmp; cbn;
    solve [left; auto | right; repeat split; lia].
Qed.

Lemma soil_factor_shape m : factor_shape (soil_factor m) 15.
Proof.
  unfold factor_shape, soil_factor. decide_cmp; cbn;
    solve [left; auto | right; repeat split; lia].
Qed.

(** A computed assessment: its score and its reasons. *)
Lemma assess_try_shape (indicators : gmap string value) (r : RiskAssessment) :
  assess_drought_risk_try indicators = Some r →
  (0 <= risk_score r <= 115)%Z
  ∧ (risk_score r mod 5 = 0)%Z
  ∧ (length (factors r) ≤ 5)%nat
  ∧ (factors r = [] ↔ risk_score r = 0%Z).
Proof.
  intros Hr.
  destruct (assess_try_factors _ _ Hr) as (s & d & dd & h & sm & Hf & Hs).
  rewrite Hs, Hf, !length_app. unfold total_points.
  pose proof (spi_factor_shape s) as H1.
  pose proof (deficit_factor_shape d) as H2.
  pose proof (dry_days_factor_shape dd) as H3.
  pose proof (heat_factor_shape h) as H4.
  pose proof (soil_factor_shape sm) as H5.
  unfold factor_shape in *.
  assert (Hmod : ∀ a b : Z, (a mod 5 = 0 → b mod 5 = 0 → (a + b) mod 5 = 0)%Z).
  { intros a b Ha Hb. rewrite Z.add_mod, Ha, Hb by lia. reflexivity. }
  assert (M1 : ((spi_factor s).1 mod 5 = 0)%Z) by (destruct H1 as [[-> _]|(_ & ? & _)]; auto).
  assert (M2 : ((deficit_factor d).1 mod 5 = 0)%Z) by (destruct H2 as [[-> _]|(_ & ? & _)]; auto).
  assert (M3 : ((dry_days_factor dd).1 mod 5 = 0)%Z) by (destruct H3 as [[-> _]|(_ & ? & _)]; auto).
  assert (M4 : ((heat_factor h).1 mod 5 = 0)%Z) by (destruct H4 as [[-> _]|(_ & ? & _)]; auto).
  assert (M5 : ((soil_factor sm).1 mod 5 = 0)%Z) by (destruct H5 as [[-> _]|(_ & ? & _)]; auto).
  split; [|split; [repeat apply Hmod; assumption |]].
  - destruct H1 as [[? _]|[? _]], H2 as [[? _]|[? _]], H3 as [[? _]|[? _]],
      H4 as [[? _]|[? _]], H5 as [[? _]|[? _]]; lia.
  - split.
    + destruct H1 as [[_ ->]|(_ & _ & ->)], H2 as [[_ ->]|(_ & _ & ->)],
        H3 as [[_ ->]|(_ & _ & ->)], H4 as [[_ ->]|(_ & _ & ->)],
        H5 as [[_ ->]|(_ & _ & ->)]; cbn; lia.
    + split.
      * intros Hnil. repeat apply app_eq_nil in Hnil as [? Hnil].
        destruct H1 as [[? _]|(_ & _ & E)]; [|rewrite H in E; discriminate].
        destruct H2 as [[? _]|(_ & _ & E)]; [|rewrite H0 in E; discriminate].
        destruct H3 as [[? _]|(_ & _ & E)]; [|rewrite H6 in E; discriminate].
        destruct H4 as [[? _]|(_ & _ & E)]; [|rewrite H7 in E; discriminate].
        destruct H5 as [[? _]|(_ & _ & E)]; [|rewrite Hnil in E; discriminate].
        lia.
      * intros Hz.
        destruct H1 as [[? ->]|[? _]], H2 as [[? ->]|[? _]], H3 as [[? ->]|[? _]],
          H4 as [[? ->]|[? _]], H5 as [[? ->]|[? _]]; try lia. reflexivity.
Qed.

Lemma assess_score_bounds (indicators : gmap string value) :
  (0 <= risk_score (assess_drought_risk indicators) <= 115)%Z.
Proof.
  unfold assess_drought_risk.
  destruct (assess_drought_risk_try indicators) as [r|] eqn:Hr; [|cbn; lia].
  replace (default get_default_risk_assessment (Some r)) with r by reflexivity.
  now apply (assess_try_shape indicators).
Qed.

(** X1: the score of every assessment lies between 0 and 115 and is a
    multiple of 5; when the assessment is computed, it lists at most five
    reasons, and none exactly when the score is 0. *)
Theorem assess_score_range (indicators : gmap string value) :
  (0 <= risk_score (assess_drought_risk indicators) <= 115)%Z
  ∧ (risk_score (assess_drought_risk indicators) mod 5 = 0)%Z
  ∧ (∀ r, assess_drought_risk_try indicators = Some r →
       (length (factors r) ≤ 5)%nat
       ∧ (factors r = [] ↔ risk_score r = 0%Z)).
Proof.
  split; [apply assess_score_bounds |]. split.
  - unfold assess_drought_risk.
    destruct (assess_drought_risk_try indicators) as [r|] eqn:Hr; [|reflexivity].
    replace (default get_default_risk_assessment (Some r)) with r by reflexivity.
    now apply (assess_try_shape indicators).
  - intros r Hr. now apply (assess_try_shape indicators).
Qed.

Lemma spi_factor_anti s1 s2 : s2 <= s1 → ((spi_factor s1).1 <= (spi_factor s2).1)%Z.
Proof. intros H. unfold spi_factor. decide_cmp; cbn; try lia; lra. Qed.

Lemma dry_days_factor_mono d1 d2 :
  d1 <= d2 → ((dry_days_factor d1).1 <= (dry_days_factor d2).1)%Z.
Proof. intros H. unfold dry_days_factor. decide_cmp; cbn; try lia; lra. Qed.

Lemma heat_factor_mono h1 h2 : h1 <= h2 → ((heat_factor h1).1 <= (heat_factor h2).1)%Z.
Proof. intros H. unfold heat_factor. decide_cmp; cbn; try lia; lra. Qed.

Lemma soil_factor_anti m1 m2 : m2 <= m1 → ((soil_factor m1).1 <= (soil_factor m2).1)%Z.
Proof. intros H. unfold soil_factor. decide_cmp; cbn; try lia; lra. Qed.

(** The score of a set whose five scored indicators are numbers. *)
Lemma assess_score_of_numbers indicators s d dd h sm :
  get_num indicators "spi_mean" 0 = Some s →
  get_num indicators "precipitation_deficit" 0 = Some d →
  get_num indicators "consecutive_dry_days" 0 = Some dd →
  get_num indicators "heat_stress" 0 = Some h →
  get_num indicators "soil_moisture_mean" 50 = Some sm →
  ∃ r, assess_drought_risk_try indicators = Some r
       ∧ risk_score r = total_points s d dd h sm.
Proof.
  intros H1 H2 H3 H4 H5. pose proof (assess_try_score indicators) as Hs.
  rewrite H1, H2, H3, H4, H5 in Hs. cbn [mbind option_bind] in Hs.
  destruct (assess_drought_risk_try indicators) as [r|]; [|discriminate].
  exists r. split; [reflexivity |]. cbn in Hs. now injection Hs.
Qed.

(** X2: a drier set is never scored lower: with a lower or equal SPI and
    soil moisture, and a higher or equal deficit, dry-day count and heat
    stress, the score is at least as high. *)
Theorem risk_score_monotone_in_every_indicator (ind1 ind2 : gmap string value)
    (s1 s2 d1 d2 dd1 dd2 h1 h2 sm1 sm2 : R) :
  get_num ind1 "spi_mean" 0 = Some s1 → get_num ind2 "spi_mean" 0 = Some s2 →
  get_num ind1 "precipitation_deficit" 0 = Some d1 →
  get_num ind2 "precipitation_deficit" 0 = Some d2 →
  get_num ind1 "consecutive_dry_days" 0 = Some dd1 →
  get_num ind2 "consecutive_dry_days" 0 = Some dd2 →
  get_num ind1 "heat_stress" 0 = Some h1 → get_num ind2 "heat_stress" 0 = Some h2 →
  get_num ind1 "soil_moisture_mean" 50 = Some sm1 →
  get_num ind2 "soil_moisture_mean" 50 = Some sm2 →
  s2 <= s1 → d1 <= d2 → dd1 <= dd2 → h1 <= h2 → sm2 <= sm1 →
  (risk_score (assess_drought_risk ind1) <= risk_score (assess_drought_risk ind2))%Z.
Proof.
  intros A1 A2 B1 B2 C1 C2 D1 D2 E1 E2 Hs Hd Hdd Hh Hsm.
  destruct (assess_score_of_numbers ind1 _ _ _ _ _ A1 B1 C1 D1 E1) as (r1 & R1 & S1).
  destruct (assess_score_of_numbers ind2 _ _ _ _ _ A2 B2 C2 D2 E2) as (r2 & R2 & S2).
  unfold assess_drought_risk. rewrite R1, R2. cbn. rewrite S1, S2.
  unfold total_points.
  pose proof (spi_factor_anti _ _ Hs). pose proof (deficit_factor_mono _ _ Hd).
  pose proof (dry_days_factor_mono _ _ Hdd). pose proof (heat_factor_mono _ _ Hh).
  pose proof (soil_factor_anti _ _ Hsm). lia.
Qed.

Lemma risk_score_monotone_in_every_indicator_witness :
  (risk_score (assess_drought_risk (<["spi_mean" := Num (-0.7)]> ∅))
   <= risk_score (assess_drought_risk
                    (<["spi_mean" := Num (-1.2)]> (<["heat_stress" := Num 60]> ∅))))%Z.
Proof.
  apply (risk_score_monotone_in_every_indicator _ _ (-0.7) (-1.2) 0 0 0 0 0 60 50 50);
    try reflexivity; lra.
Defined.

Lemma classify_levels score : (classify score).1 ∈ risk_levels.
Proof.
  unfold classify, risk_levels.
  repeat match goal with |- context [(?a <=? ?b)%Z] => destruct (a <=? b)%Z end;
    cbn; set_solver.
Qed.

Lemma get_num_None indicators key dflt :
  get_num indicators key dflt = None ↔ ∃ m, indicators !! key = Some (Series m).
Proof.
  unfold get_num. destruct (indicators !! key) as [[x|m]|]; split;
    try discriminate; try (intros [? ?]; discriminate); eauto.
Qed.

(** X3: the assessment is the default one, at level 'Indéterminé', exactly
    when one of the five scored keys holds a series instead of a number;
    otherwise its level is one of the five risk levels. *)
Theorem assess_indetermine_iff (indicators : gmap string value) :
  (risk_level (assess_drought_risk indicators) = "Indéterminé"
   ↔ ∃ key m, key ∈ scored_keys ∧ indicators !! key = Some (Series m))
  ∧ (risk_level (assess_drought_risk indicators) = "Indéterminé" →
     assess_drought_risk indicators = get_default_risk_assessment)
  ∧ (risk_level (assess_drought_risk indicators) ≠ "Indéterminé" →
     risk_level (assess_drought_risk indicators) ∈ risk_levels).
Proof.
  assert (Hcases :
    (∃ r, assess_drought_risk_try indicators = Some r
          ∧ ¬ ∃ key m, key ∈ scored_keys ∧ indicators !! key = Some (Series m))
    ∨ (assess_drought_risk_try indicators = None
       ∧ ∃ key m, key ∈ scored_keys ∧ indicators !! key = Some (Series m))).
  { pose proof (assess_try_score indicators) as Hs.
    destruct (get_num indicators "spi_mean" 0) as [s|] eqn:E1.
    2: { right. split; [now destruct (assess_drought_risk_try indicators) |].
         apply get_num_None in E1 as [m Hm]. exists "spi_mean", m.
         split; [unfold scored_keys; set_solver | exact Hm]. }
    destruct (get_num indicators "precipitation_deficit" 0) as [d|] eqn:E2.
    2: { right. split; [now destruct (assess_drought_risk_try indicators) |].
         apply get_num_None in E2 as [m Hm]. exists "precipitation_deficit", m.
         split; [unfold scored_keys; set_solver | exact Hm]. }
    destruct (get_num indicators "consecutive_dry_days" 0) as [dd|] eqn:E3.
    2: { right. split; [now destruct (assess_drought_risk_try indicators) |].
         apply get_num_None in E3 as [m Hm]. exists "consecutive_dry_days", m.
         split; [unfold scored_keys; set_solver | exact Hm]. }
    destruct (get_num indicators "heat_stress" 0) as [h|] eqn:E4.
    2: { right. split; [now destruct (assess_drought_risk_try indicators) |].
         apply get_num_None in E4 as [m Hm]. exists "heat_stress", m.
         split; [unfold scored_keys; set_solver | exact Hm]. }
    destruct (get_num indicators "soil_moisture_mean" 50) as [sm|] eqn:E5.
    2: { right. split; [now destruct (assess_drought_risk_try indicators) |].
         apply get_num_None in E5 as [m Hm]. exists "soil_moisture_mean", m.
         split; [unfold scored_keys; set_solver | exact Hm]. }
    left. destruct (assess_drought_risk_try indicators) as [r|]; [|discriminate].
    exists r. split; [reflexivity |].
    intros (key & m & Hkey & Hm). unfold scored_keys in Hkey.
    assert (Hn : ∀ dflt, get_num indicators key dflt = None)
      by (intros dflt; apply get_num_None; eauto).
    repeat (apply elem_of_cons in Hkey as [-> | Hkey];
            [rewrite Hn in *; discriminate |]).
    now apply elem_of_nil in Hkey. }
  unfold assess_drought_risk.
  destruct Hcases as [(r & Hr & Hno) | (Hr & Hyes)]; rewrite Hr.
  - replace (default get_default_risk_assessment (Some r)) with r by reflexivity.
    pose proof (classify_levels (risk_score r)) as Hl.
    rewrite <- (assess_try_level _ _ Hr) in Hl.
    assert (Hne : risk_level r ≠ "Indéterminé").
    { intros E. rewrite E in Hl. unfold risk_levels in Hl.
      repeat (apply elem_of_cons in Hl as [Hl | Hl]; [discriminate |]).
      now apply elem_of_nil in Hl. }
    repeat split; try tauto; intros; tauto.
  - replace (default get_default_risk_assessment None)
      with get_default_risk_assessment by reflexivity.
    repeat split; auto. intros H. now destruct H.
Qed.

End DroughtScoringMore.

(** ** The indicators *)

Section IndicatorFacts.
Import DroughtCalculator.
Open Scope R_scope.

Lemma default_indicators_populated : fully_populated get_default_indicators.
Proof.
  split; [eexists; reflexivity |].
  repeat constructor; eexists; reflexivity.
Qed.

Lemma indicators_populated (scipy : Scipy) (climate_data : option ClimateData) :
  fully_populated (calculate_drought_indicators scipy climate_data).
Proof.
  unfold calculate_drought_indicators.
  destruct climate_data as [cd|]; [|apply default_indicators_populated].
  destruct (length (dates cd) =? 0)%nat; [apply default_indicators_populated |].
  split; [eexists; reflexivity |].
  repeat constructor; eexists; reflexivity.
Qed.

(** The assessment of computed indicators is never the default one. *)
Lemma indicators_level (scipy : Scipy) (climate_data : option ClimateData) :
  risk_level (assess_drought_risk (calculate_drought_indicators scipy climate_data))
    ∈ risk_levels.
Proof.
  destruct (indicators_populated scipy climate_data) as [_ Hnum].
  unfold indicator_keys in Hnum. cbn [tail] in Hnum.
  set (ind := calculate_drought_indicators scipy climate_data) in *.
  apply Forall_cons in Hnum as [[s Hs] Hnum].
  apply Forall_cons in Hnum as [[d Hd] Hnum].
  apply Forall_cons in Hnum as [[dd Hdd] Hnum].
  apply Forall_cons in Hnum as [_ Hnum].
  apply Forall_cons in Hnum as [_ Hnum].
  apply Forall_cons in Hnum as [[h Hh] Hnum].
  apply Forall_cons in Hnum as [[sm Hsm] _].
  destruct (assess_score_of_numbers ind s d dd h sm) as (r & Hr & _);
    try (apply get_num_lookup; assumption).
  unfold assess_drought_risk. rewrite Hr.
  replace (default get_default_risk_assessment (Some r)) with r by reflexivity.
  rewrite (assess_try_level _ _ Hr). apply classify_levels.
Qed.

(** X4: whatever the climate data (missing, empty or not), the indicator
    set holds the SPI series and a number under each of the eleven other
    keys, and the assessment made from it is never the 'Indéterminé'
    default: its level is one of the five risk levels. *)
Theorem indicators_fully_populated (scipy : Scipy) (climate_data : option ClimateData) :
  fully_populated (calculate_drought_indicators scipy climate_data)
  ∧ risk_level (assess_drought_risk (calculate_drought_indicators scipy climate_data))
    ∈ risk_levels.
Proof.
  split; [apply indicators_populated | apply indicators_level].
Qed.

(** X5: climate data that is missing or has no date is assessed at the
    lowest level: score 0, 'Très Faible', no reason. *)
Theorem no_data_is_tres_faible (scipy : Scipy) (climate_data : option ClimateData) :
  match climate_data with
  | Some cd => dates cd = []
  | None => True
  end →
  let assessment :=
    assess_drought_risk (calculate_drought_indicators scipy climate_data) in
  risk_score assessment = 0%Z
  ∧ risk_level assessment = "Très Faible"
  ∧ factors assessment = [].
Proof.
  intros Hempty.
  assert (calculate_drought_indicators scipy climate_data = get_default_indicators) as ->.
  { unfold calculate_drought_indicators. destruct climate_data as [cd|]; [|reflexivity].
    now rewrite Hempty. }
  destruct (assess_score_of_numbers get_default_indicators 0 0 0 0 50)
    as (r & Hr & Hscore); try reflexivity.
  assert (Hzero : total_points 0 0 0 0 50 = 0%Z).
  { unfold total_points, spi_factor, deficit_factor, dry_days_factor, heat_factor,
      soil_factor.
    repeat match goal with
      | |- context [Rle_dec ?a ?b] => destruct (Rle_dec a b); try lra
      | |- context [Rlt_dec ?a ?b] => destruct (Rlt_dec a b); try lra
      | |- context [Rgt_dec ?a ?b] => destruct (Rgt_dec a b); try lra
      end. reflexivity. }
  cbv zeta. unfold assess_drought_risk. rewrite Hr.
  replace (default get_default_risk_assessment (Some r)) with r by reflexivity.
  rewrite Hzero in Hscore.
  split; [exact Hscore |]. split.
  - rewrite (assess_try_level _ _ Hr), Hscore. reflexivity.
  - now apply (assess_try_shape get_default_indicators).
Qed.

Lemma no_data_is_tres_faible_witness :
  risk_level (assess_drought_risk (calculate_drought_indicators scipy_fit_fails None))
  = "Très Faible".
Proof.
  exact (proj1 (proj2 (no_data_is_tres_faible scipy_fit_fails None I))).
Defined.

Lemma sum_cons (x : R) (l : list R) : Np.sum (x :: l) = x + Np.sum l.
Proof. reflexivity. Qed.

Lemma sum_nonneg (l : list R) : Forall (λ x, 0 <= x) l → 0 <= Np.sum l.
Proof.
  induction 1 as [|x l Hx _ IH]; [cbn; lra |]. rewrite sum_cons. lra.
Qed.

Lemma mean_nonneg (l : list R) : l ≠ [] → Forall (λ x, 0 <= x) l → 0 <= Np.mean l.
Proof.
  intros Hne H. unfold Np.mean. apply Rmult_le_pos; [now apply sum_nonneg |].
  apply Rlt_le, Rinv_0_lt_compat, lt_0_INR. destruct l; [congruence | cbn; lia].
Qed.

(** X6: the precipitation deficit of a non-empty series is never negative
    and is at most 100 when no precipitation is negative. The mean of a day
    is compared with the normal of the whole period (3 mm times the number
    of days): a series whose mean daily precipitation, in mm, does not exceed
    its number of days has a deficit above 60, and the deficit is 0 once the
    daily mean reaches 3.1 times the number of days. *)
Theorem precipitation_deficit_range (scipy : Scipy) (cd : ClimateData) (deficit : R) :
  dates cd ≠ [] → precipitation cd ≠ [] →
  calculate_drought_indicators scipy (Some cd) !! "precipitation_deficit"
    = Some (Num deficit) →
  0 <= deficit
  ∧ (Forall (λ x, 0 <= x) (precipitation cd) → deficit <= 100)
  ∧ (Np.mean (precipitation cd) <= INR (length (precipitation cd)) → deficit > 60)
  ∧ (3.1 * INR (length (precipitation cd)) <= Np.mean (precipitation cd) → deficit = 0).
Proof.
  intros Hd Hp. unfold calculate_drought_indicators.
  destruct (dates cd) as [|d0 ds] eqn:E; [congruence |]. cbn [length Nat.eqb].
  rewrite 2!lookup_insert_ne by discriminate. rewrite lookup_insert_eq.
  intros [= <-].
  unfold calculate_normal_precipitation, if_nonempty.
  destruct (precipitation cd) as [|p0 ps] eqn:Ep; [congruence |]. cbv beta iota.
  set (n := INR (length (p0 :: ps))).
  assert (Hn : 0 < n) by (apply lt_0_INR; cbn; lia).
  set (avg := Np.mean (p0 :: ps)).
  destruct (Rlt_dec 0 (3.0 * n)) as [_|Hno]; [|exfalso; apply Hno; lra].
  assert (Hquot : avg / (3.0 * n) * (3.0 * n) = avg) by (field; lra).
  assert (Hlow : avg <= n → avg / (3.0 * n) < 0.4).
  { intros H. apply (Rmult_lt_reg_r (3.0 * n)); [lra |]. rewrite Hquot. lra. }
  assert (Hhigh : 3.1 * n <= avg → 1 <= avg / (3.0 * n)).
  { intros H. apply (Rmult_le_reg_r (3.0 * n)); [lra |]. rewrite Hquot. lra. }
  unfold Rmax. destruct (Rle_dec _ _) as [Hle|Hgt].
  - split; [lra |]. split; [|split].
    + intros Hpos. pose proof (mean_nonneg (p0 :: ps) ltac:(discriminate) Hpos) as Ha.
      fold avg in Ha.
      assert (0 <= avg / (3.0 * n)).
      { apply Rmult_le_pos; [exact Ha |]. apply Rlt_le, Rinv_0_lt_compat. lra. }
      lra.
    + intros H. specialize (Hlow H). lra.
    + intros H. specialize (Hhigh H). lra.
  - split; [lra |]. split; [lra |]. split.
    + intros H. specialize (Hlow H). lra.
    + reflexivity.
Qed.

Lemma precipitation_deficit_range_witness :
  ∃ deficit,
    calculate_drought_indicators scipy_fit_fails (Some dry_spell)
      !! "precipitation_deficit" = Some (Num deficit)
    ∧ deficit > 60.
Proof.
  eexists. split; [reflexivity |].
  refine (proj1 (proj2 (proj2 (precipitation_deficit_range scipy_fit_fails dry_spell
                                 _ _ _ _))) _).
  - discriminate.
  - discriminate.
  - reflexivity.
  - unfold Np.mean, Np.sum. cbn. lra.
Defined.

(** X7: the heat stress is a percentage, whatever the temperatures and the
    threshold. *)
Theorem heat_stress_is_a_percentage (temperatures : list R) (threshold : R) :
  0 <= calculate_heat_stress temperatures threshold <= 100.
Proof.
  unfold calculate_heat_stress. destruct temperatures as [|t ts]; [lra |].
  set (l := t :: ts).
  assert (Hlen : (0 < length l)%nat) by (cbn; lia).
  pose proof (length_filter (λ temp, temp > threshold) l) as Hle.
  apply le_INR in Hle. apply lt_0_INR in Hlen.
  pose proof (pos_INR (length (filter (λ temp, temp > threshold) l))) as Hpos.
  assert (Hinv : 0 < / INR (length l)) by now apply Rinv_0_lt_compat.
  split.
  - apply Rmult_le_pos; [|lra]. apply Rmult_le_pos; lra.
  - assert (INR (length (filter (λ temp, temp > threshold) l)) / INR (length l) <= 1);
      [|lra].
    apply (Rmult_le_reg_r (INR (length l))); [lra |].
    unfold Rdiv. rewrite Rmult_assoc, Rinv_l by lra. lra.
Qed.

End IndicatorFacts.


(** ** Dry streaks, drought periods and their statistics *)

Section DryStreaks.
Import DroughtCalculator DroughtPeriods DroughtStatistics.
Open Scope R_scope.

Lemma consecutive_dry_days_loop (precipitation : list R) (threshold : R) :
  calculate_consecutive_dry_days precipitation threshold
  = (dry_run_loop threshold precipitation (0, 0)%nat).1.
Proof. destruct precipitation; reflexivity. Qed.

Lemma dry_run_loop_cons threshold x l m c :
  dry_run_loop threshold (x :: l) (m, c)
  = dry_run_loop threshold l
      (if Rlt_dec x threshold then (Nat.max m (c + 1), c + 1)%nat else (m, 0%nat)).
Proof. reflexivity. Qed.

Lemma dry_run_loop_bounds threshold l m c :
  let count := length (filter (λ x, x < threshold) l) in
  (m ≤ (dry_run_loop threshold l (m, c)).1
   ∧ (dry_run_loop threshold l (m, c)).1 ≤ Nat.max m (c + count)
   ∧ (dry_run_loop threshold l (m, c)).2 ≤ c + count)%nat.
Proof.
  revert m c. induction l as [|x l IH]; intros m c; cbn zeta.
  - cbn. lia.
  - rewrite dry_run_loop_cons. destruct (Rlt_dec x threshold) as [Hx|Hx].
    + rewrite filter_cons_True by exact Hx. cbn [length].
      specialize (IH (Nat.max m (c + 1)) (c + 1)%nat). cbn zeta in IH. lia.
    + rewrite filter_cons_False by exact Hx.
      specialize (IH m 0%nat). cbn zeta in IH. lia.
Qed.

(** X8: the longest dry streak is at most the number of dry days, reaches
    the length of the series when every day is dry, and is 0 exactly when no
    day is dry. *)
Theorem consecutive_dry_days_bounds (precipitation : list R) (threshold : R) :
  (calculate_consecutive_dry_days precipitation threshold
   ≤ length (filter (λ x, (x < threshold)%R) precipitation))%nat
  ∧ (Forall (λ x, x < threshold) precipitation →
     calculate_consecutive_dry_days precipitation threshold = length precipitation)
  ∧ (calculate_consecutive_dry_days precipitation threshold = 0%nat
     ↔ Forall (λ x, ¬ x < threshold) precipitation).
Proof.
  rewrite consecutive_dry_days_loop.
  pose proof (dry_run_loop_bounds threshold precipitation 0 0) as (_ & Hup & _).
  cbn zeta in Hup. split; [lia |]. split.
  - intros Hall.
    assert (Hgen : ∀ l c, Forall (λ x, x < threshold) l →
              dry_run_loop threshold l (c, c) = (c + length l, c + length l)%nat).
    { clear. induction l as [|x l IH]; intros c Hl.
      - cbn. f_equal; lia.
      - apply Forall_cons in Hl as [Hx Hl]. rewrite dry_run_loop_cons.
        destruct (Rlt_dec x threshold); [|contradiction].
        replace (Nat.max c (c + 1)) with (c + 1)%nat by lia.
        rewrite IH by auto. cbn [length]. f_equal; lia. }
    rewrite Hgen by auto. reflexivity.
  - split.
    + intros Hz. apply Forall_forall. intros x Hin Hx.
      assert (Hgen : ∀ l m c, x ∈ l → (1 ≤ (dry_run_loop threshold l (m, c)).1)%nat).
      { clear - Hx. induction l as [|y l IH]; intros m c Hl;
          [now apply elem_of_nil in Hl |].
        rewrite dry_run_loop_cons. apply elem_of_cons in Hl as [<- | Hl].
        - destruct (Rlt_dec x threshold); [|contradiction].
          pose proof (dry_run_loop_bounds threshold l (Nat.max m (c + 1)) (c + 1))
            as (Hlow & _). lia.
        - destruct (Rlt_dec y threshold); now apply IH. }
      specialize (Hgen precipitation 0%nat 0%nat Hin). lia.
    + intros Hnone.
      assert (length (filter (λ x, x < threshold) precipitation) = 0%nat); [|lia].
      clear Hup. induction Hnone as [|x l Hx _ IH]; [reflexivity |].
      rewrite filter_cons_False by exact Hx. exact IH.
Qed.

Lemma max_list_snoc (l : list nat) (x : nat) :
  max_list (l ++ [x]) = Nat.max (max_list l) x.
Proof. induction l as [|y l IH]; cbn; [lia | rewrite IH; lia]. Qed.

Lemma sum_list_snoc (l : list nat) (x : nat) :
  sum_list (l ++ [x]) = (sum_list l + x)%nat.
Proof. induction l as [|y l IH]; cbn; [lia | rewrite IH; lia]. Qed.

Lemma as_period_max (a b : nat) :
  as_period (Nat.max a b) = Nat.max (as_period a) (as_period b).
Proof.
  unfold as_period.
  destruct (Nat.leb_spec 3 (Nat.max a b)), (Nat.leb_spec 3 a), (Nat.leb_spec 3 b); lia.
Qed.

Lemma scan_day_dry thr periods current i date precip :
  precip < thr →
  scan_day thr (periods, current) (i, (date, precip))
  = (periods, Some (extend current i date precip)).
Proof.
  intros H. unfold scan_day. destruct (Rlt_dec precip thr); [|contradiction].
  now destruct current.
Qed.

Lemma scan_day_wet thr periods current i date precip :
  ¬ precip < thr →
  scan_day thr (periods, current) (i, (date, precip))
  = (store thr periods current i date, None).
Proof.
  intros H. unfold scan_day. destruct (Rlt_dec precip thr); [contradiction |].
  now destruct current.
Qed.

(** The scan of the days and the streak counter advance together: the
    counter's state is the open period's length and the longest streak so
    far, and the periods stored are the closed streaks of three days or
    more. *)
Lemma scan_follows_streaks (thr : R) (items : list (nat * (Z * R)))
    (periods : list Period) (current : option Current) (closed dry : nat) :
  max_list (map dry_days periods) = as_period closed →
  (sum_list (map dry_days periods) + run_of current ≤ dry)%nat →
  ∃ closed',
    (dry_run_loop thr (map (λ item, item.2.2) items)
                  (Nat.max closed (run_of current), run_of current)).2
    = run_of (fold_left (scan_day thr) items (periods, current)).2
    ∧ (dry_run_loop thr (map (λ item, item.2.2) items)
                    (Nat.max closed (run_of current), run_of current)).1
      = Nat.max closed' (run_of (fold_left (scan_day thr) items (periods, current)).2)
    ∧ max_list (map dry_days (fold_left (scan_day thr) items (periods, current)).1)
      = as_period closed'
    ∧ (sum_list (map dry_days (fold_left (scan_day thr) items (periods, current)).1)
       + run_of (fold_left (scan_day thr) items (periods, current)).2
       ≤ dry + length (filter (λ item : nat * (Z * R), (item.2.2 < thr)%R) items))%nat.
Proof.
  revert periods current closed dry.
  induction items as [|[i [date precip]] items IH]; intros periods current closed dry Hmax Hsum.
  - cbn. exists closed. repeat split; auto; lia.
  - cbn [fold_left map]. rewrite dry_run_loop_cons. cbn [snd].
    destruct (Rlt_dec precip thr) as [Hdry|Hwet].
    + rewrite scan_day_dry by exact Hdry.
      rewrite filter_cons_True by exact Hdry. cbn [length].
      assert (Hrun : run_of (Some (extend current i date precip)) = (run_of current + 1)%nat)
        by (destruct current; reflexivity).
      destruct (IH periods (Some (extend current i date precip)) closed (S dry) Hmax)
        as (closed' & H1 & H2 & H3 & H4); [rewrite Hrun; lia |].
      rewrite Hrun in H1, H2.
      replace (Nat.max (Nat.max closed (run_of current)) (run_of current + 1))
        with (Nat.max closed (run_of current + 1)) by lia.
      exists closed'. split; [exact H1 |]. split; [exact H2 |]. split; [exact H3 |]. lia.
    + rewrite scan_day_wet by exact Hwet.
      rewrite filter_cons_False by exact Hwet.
      destruct (IH (store thr periods current i date) None
                   (Nat.max closed (run_of current)) dry)
        as (closed' & H1 & H2 & H3 & H4).
      * rewrite as_period_max, <- Hmax. destruct current as [cur|]; cbn [store run_of].
        -- unfold as_period. destruct (3 <=? cur_dry_days cur)%nat.
           ++ rewrite map_app. cbn [map]. now rewrite max_list_snoc.
           ++ lia.
        -- unfold as_period. cbn. lia.
      * destruct current as [cur|]; cbn [store run_of] in *; [|lia].
        destruct (3 <=? cur_dry_days cur)%nat; [|lia].
        rewrite map_app. cbn [map]. rewrite sum_list_snoc. cbn. lia.
      * cbn [run_of] in H1, H2.
        replace (Nat.max (Nat.max closed (run_of current)) 0)
          with (Nat.max closed (run_of current)) in H1, H2 by lia.
        exists closed'. split; [exact H1 |]. split; [exact H2 |]. split; [exact H3 |]. lia.
Qed.

Lemma enumerate_values (l : list (Z * R)) (g : nat → nat) :
  map (λ item : nat * (Z * R), item.2.2) (imap (λ i x, (g i, x)) l) = l.*2.
Proof.
  revert g. induction l as [|x l IH]; intros g; [reflexivity |].
  rewrite imap_cons. cbn. f_equal. apply (IH (g ∘ S)).
Qed.

Lemma count_dry_items (thr : R) (items : list (nat * (Z * R))) :
  length (filter (λ item : nat * (Z * R), item.2.2 < thr) items)
  = length (filter (λ x, x < thr) (map (λ item : nat * (Z * R), item.2.2) items)).
Proof.
  induction items as [|item items IH]; [reflexivity |]. cbn [map].
  destruct (Rlt_dec item.2.2 thr) as [H|H].
  - rewrite !filter_cons_True by exact H. cbn [length]. now rewrite IH.
  - rewrite !filter_cons_False by exact H. exact IH.
Qed.

(** The periods detected in a series, against the streaks of the days that
    have a date. *)
Lemma detect_follows_streaks (climate_data : ClimateData)
    (drought_indicators : gmap string value) (thr : R) :
  let dated := (zip (dates climate_data) (precipitation climate_data)).*2 in
  let periods := detect_drought_periods climate_data drought_indicators thr in
  max_list (map dry_days periods) = as_period (dry_run_loop thr dated (0, 0)%nat).1
  ∧ (sum_list (map dry_days periods) ≤ length (filter (λ x, (x < thr)%R) dated))%nat.
Proof.
  cbv zeta. unfold detect_drought_periods.
  set (items := Np.enumerate (zip (dates climate_data) (precipitation climate_data))).
  assert (Hitems : map (λ item : nat * (Z * R), item.2.2) items
                   = (zip (dates climate_data) (precipitation climate_data)).*2).
  { unfold items, Np.enumerate. apply (enumerate_values _ (λ i, i)). }
  destruct (scan_follows_streaks thr items [] None 0 0 eq_refl (Nat.le_refl _))
    as (closed' & H1 & H2 & H3 & H4).
  rewrite count_dry_items, Hitems in H4. rewrite Hitems in H1, H2. cbn [run_of] in H1, H2.
  change (Nat.max 0 0) with 0%nat in H1, H2.
  destruct (fold_left (scan_day thr) items ([], None)) as [periods current].
  cbn [fst snd] in *. rewrite H2, as_period_max, <- H3.
  destruct current as [cur|]; cbn [run_of] in *.
  - unfold as_period at 1. destruct (3 <=? cur_dry_days cur)%nat.
    + rewrite map_app. cbn [map]. rewrite max_list_snoc, sum_list_snoc.
      cbn [dry_days close]. split; lia.
    + split; lia.
  - unfold as_period at 1. cbn. split; lia.
Qed.

(** X9: with a date for every precipitation value, the statistics shown
    for the detected periods agree with the indicators: the longest period
    is the longest dry streak when that streak has three days or more and 0
    otherwise, and the days in periods are at most the dry days, themselves
    at most the days. *)
Theorem statistics_agree_with_indicators (climate_data : ClimateData)
    (drought_indicators : gmap string value) :
  (length (precipitation climate_data) ≤ length (dates climate_data))%nat →
  let statistics :=
    display_drought_statistics climate_data drought_indicators
      (detect_drought_periods climate_data drought_indicators 0.1) in
  longest_period statistics
    = as_period (calculate_consecutive_dry_days (precipitation climate_data) 0.1)
  ∧ (total_drought_days statistics ≤ total_dry_days statistics)%nat
  ∧ (total_dry_days statistics ≤ total_days statistics)%nat.
Proof.
  intros Hlen statistics. unfold statistics, display_drought_statistics.
  cbn [longest_period total_drought_days total_dry_days total_days].
  rewrite consecutive_dry_days_loop.
  pose proof (detect_follows_streaks climate_data drought_indicators 0.1) as [Hmax Hsum].
  rewrite snd_zip in Hmax, Hsum by exact Hlen.
  split; [exact Hmax |]. split; [exact Hsum | apply length_filter].
Qed.

Lemma statistics_agree_with_indicators_witness :
  let statistics :=
    display_drought_statistics dry_spell ∅ (detect_drought_periods dry_spell ∅ 0.1) in
  longest_period statistics
    = as_period (calculate_consecutive_dry_days [0; 0; 0; 0; 3; 0] 0.1)
  ∧ (total_drought_days statistics ≤ total_dry_days statistics)%nat
  ∧ (total_dry_days statistics ≤ total_days statistics)%nat.
Proof.
  apply (statistics_agree_with_indicators dry_spell ∅).
  cbn. lia.
Defined.

(** What the scan keeps true of the open period and of the periods it
    stores, given what holds of each day's precipitation. *)
Lemma scan_keeps (thr : R) (good : R → Prop) (Q : Current → Prop) (P : Period → Prop) :
  (∀ current i date precip,
     from_option Q True current → precip < thr → good precip →
     Q (extend current i date precip)) →
  (∀ cur end_date end_index, Q cur → P (close thr cur end_date end_index)) →
  ∀ (items : list (nat * (Z * R))) periods current,
    Forall (λ item, good item.2.2) items →
    Forall P periods → from_option Q True current →
    Forall P (fold_left (scan_day thr) items (periods, current)).1
    ∧ from_option Q True (fold_left (scan_day thr) items (periods, current)).2.
Proof.
  intros Hext Hclose. induction items as [|[i [date precip]] items IH];
    intros periods current Hgood HP HQ; [now split |].
  apply Forall_cons in Hgood as [Hg Hgood]. cbn [fold_left]. cbn in Hg.
  destruct (Rlt_dec precip thr) as [Hdry|Hwet].
  - rewrite scan_day_dry by exact Hdry. apply IH; auto. cbn. now apply Hext.
  - rewrite scan_day_wet by exact Hwet. apply IH; auto; [|exact I].
    destruct current as [cur|]; cbn [store]; [|exact HP].
    destruct (3 <=? cur_dry_days cur)%nat; [|exact HP].
    apply Forall_app. split; [exact HP |]. constructor; [|constructor].
    apply Hclose. exact HQ.
Qed.

Lemma detect_keeps (thr : R) (good : R → Prop) (Q : Current → Prop) (P : Period → Prop)
    (climate_data : ClimateData) (drought_indicators : gmap string value) :
  (∀ current i date precip,
     from_option Q True current → precip < thr → good precip →
     Q (extend current i date precip)) →
  (∀ cur end_date end_index, Q cur → P (close thr cur end_date end_index)) →
  Forall good (precipitation climate_data) →
  Forall P (detect_drought_periods climate_data drought_indicators thr).
Proof.
  intros Hext Hclose Hgood. unfold detect_drought_periods.
  destruct (scan_keeps thr good Q P Hext Hclose
              (Np.enumerate (zip (dates climate_data) (precipitation climate_data)))
              [] None) as [HP HQ]; [|constructor|exact I|].
  - apply Forall_forall. intros item Hin.
    apply elem_of_lookup_imap in Hin as [i [[date precip] [-> Hl]]]. cbn.
    rewrite Forall_forall in Hgood. apply Hgood.
    apply (elem_of_zip_r date precip (dates climate_data)).
    apply list_elem_of_lookup. eauto.
  - destruct (fold_left _ _ _) as [periods [cur|]]; cbn [fst snd] in *; [|exact HP].
    destruct (3 <=? cur_dry_days cur)%nat; [|exact HP].
    apply Forall_app. split; [exact HP |]. constructor; [|constructor].
    apply Hclose. exact HQ.
Qed.

Lemma sum_list_bounds_each (l : list nat) (x : nat) : x ∈ l → (x ≤ sum_list l)%nat.
Proof.
  induction l as [|y l IH]; intros H; [now apply elem_of_nil in H |].
  apply elem_of_cons in H as [-> | H]; cbn; [lia |]. specialize (IH H). lia.
Qed.

(** The intensity a period of a given length can reach, at the threshold of
    0.1 mm and without negative precipitation. *)
Lemma detect_intensity_by_length (climate_data : ClimateData)
    (drought_indicators : gmap string value) :
  Forall (λ x, 0 <= x) (precipitation climate_data) →
  Forall (λ p, ((dry_days p ≤ 20)%nat → intensity p = "faible")
               ∧ ((dry_days p ≤ 50)%nat → intensity p ∈ ["faible"; "modérée"])
               ∧ ((dry_days p ≤ 100)%nat → intensity p ≠ "extrême"))
         (detect_drought_periods climate_data drought_indicators 0.1).
Proof.
  apply (detect_keeps 0.1 (λ x, 0 <= x)
           (λ cur, (1 ≤ cur_dry_days cur)%nat ∧ 0 <= cur_total_precip cur)).
  - intros [cur|] i date precip HQ Hdry Hpos; cbn [extend cur_dry_days cur_total_precip].
    + destruct HQ as [Hd Ht]. cbn in Hd, Ht. split; [lia | lra].
    + split; [lia | lra].
  - intros cur end_date end_index [Hd Ht]. cbn [intensity dry_days close].
    set (n := INR (cur_dry_days cur)).
    assert (Hn : 1 <= n) by (unfold n; rewrite INR_IZR_INZ; apply IZR_le; lia).
    assert (Havg : 0 <= cur_total_precip cur / n).
    { apply Rmult_le_pos; [exact Ht |]. apply Rlt_le, Rinv_0_lt_compat. lra. }
    assert (Hscore : n * (0.1 - cur_total_precip cur / n) <= n * 0.1) by nra.
    unfold assess_drought_intensity. fold n.
    repeat split; intros Hlen.
    + assert (n <= 20) by (unfold n; rewrite INR_IZR_INZ; apply IZR_le; lia).
      repeat (destruct (Rgt_dec _ _); [lra |]). reflexivity.
    + assert (n <= 50) by (unfold n; rewrite INR_IZR_INZ; apply IZR_le; lia).
      repeat (destruct (Rgt_dec _ _); [try lra |]); set_solver.
    + assert (n <= 100) by (unfold n; rewrite INR_IZR_INZ; apply IZR_le; lia).
      destruct (Rgt_dec _ _); [lra |].
      repeat (destruct (Rgt_dec _ _)); discriminate.
Qed.

(** X10: with the threshold of 0.1 mm and no negative precipitation, the
    intensity of a period is bounded by its length: 'faible' up to 20 days,
    at most 'modérée' up to 50 days, and never 'extrême' up to 100 days. So
    a series of at most 50 days shows no severe period in its statistics. *)
Theorem period_intensity_bounded_by_length (climate_data : ClimateData)
    (drought_indicators : gmap string value) :
  Forall (λ x, 0 <= x) (precipitation climate_data) →
  let periods := detect_drought_periods climate_data drought_indicators 0.1 in
  Forall (λ p, ((dry_days p ≤ 20)%nat → intensity p = "faible")
               ∧ ((dry_days p ≤ 50)%nat → intensity p ∈ ["faible"; "modérée"])
               ∧ ((dry_days p ≤ 100)%nat → intensity p ≠ "extrême")) periods
  ∧ ((length (precipitation climate_data) ≤ 50)%nat →
     severe_periods (display_drought_statistics climate_data drought_indicators periods)
     = 0%nat).
Proof.
  intros Hpos periods.
  pose proof (detect_intensity_by_length climate_data drought_indicators Hpos) as Hall.
  fold periods in Hall. split; [exact Hall |].
  intros Hlen. unfold display_drought_statistics. cbn [severe_periods].
  pose proof (detect_follows_streaks climate_data drought_indicators 0.1) as [_ Hsum].
  cbv zeta in Hsum. fold periods in Hsum.
  assert (Hdays : (sum_list (map dry_days periods) ≤ 50)%nat).
  { etransitivity; [exact Hsum |]. etransitivity; [apply length_filter |].
    rewrite length_fmap, length_zip. lia. }
  assert (Hnone : Forall (λ p, ¬ intensity p ∈ ["sévère"; "extrême"]) periods).
  { rewrite Forall_forall in Hall. apply Forall_forall. intros p Hp.
    destruct (Hall p Hp) as (_ & Hmid & _).
    assert (Hd : (dry_days p ≤ 50)%nat).
    { etransitivity; [|exact Hdays]. apply sum_list_bounds_each.
      apply list_elem_of_fmap. eauto. }
    specialize (Hmid Hd). intros Hsev.
    apply elem_of_cons in Hmid as [Hm | Hm];
      [rewrite Hm in Hsev |
       apply elem_of_cons in Hm as [Hm | Hm];
         [rewrite Hm in Hsev | now apply elem_of_nil in Hm]];
      repeat (apply elem_of_cons in Hsev as [Hsev | Hsev]; [discriminate |]);
      now apply elem_of_nil in Hsev. }
  clear - Hnone. induction Hnone as [|p l Hp _ IH]; [reflexivity |].
  rewrite filter_cons_False by exact Hp. exact IH.
Qed.

Lemma period_intensity_bounded_by_length_witness :
  severe_periods
    (display_drought_statistics dry_spell ∅ (detect_drought_periods dry_spell ∅ 0.1))
  = 0%nat.
Proof.
  refine (proj2 (period_intensity_bounded_by_length dry_spell ∅ _) _).
  - repeat constructor; lra.
  - cbn. lia.
Defined.

End DryStreaks.

(** ** The standardized precipitation index: later days and the fallback *)

Section SPIMore.
Import DroughtCalculator.
Open Scope R_scope.

Lemma spi_window_app (l extra : list R) (period i : nat) :
  (i < length l)%nat → spi_window (l ++ extra) period i = spi_window l period i.
Proof.
  intros Hi. unfold spi_window. now rewrite take_app_le by lia.
Qed.

Lemma spi_windowed_rounded_lookup fl scipy (precipitation : list R) (period i : nat) :
  spi_windowed_rounded fl scipy precipitation period !! i
  = if bool_decide (i < length precipitation)%nat
       && (7 <=? length (spi_window precipitation period i))%nat
    then Some (spi_of_window_rounded fl scipy (spi_window precipitation period i))
    else None.
Proof.
  unfold spi_windowed_rounded.
  rewrite (lookup_fold_range
             (λ i, (7 <=? length (spi_window precipitation period i))%nat)
             (λ i, spi_of_window_rounded fl scipy (spi_window precipitation period i))).
  rewrite lookup_empty.
  destruct (decide (i < length precipitation)%nat).
  - rewrite !bool_decide_eq_true_2 by lia. reflexivity.
  - rewrite !bool_decide_eq_false_2 by lia. reflexivity.
Qed.

(** X11: days added at the end of a series of at least seven days leave the
    SPI of the earlier days as it was, whatever SciPy returns and however
    the arithmetic rounds. *)
Theorem spi_unchanged_by_later_days (fl : Np.Float64) (scipy : Scipy)
    (precipitation later : list R) (period i : nat) :
  (7 ≤ length precipitation)%nat → (i < length precipitation)%nat →
  calculate_spi_rounded fl scipy (precipitation ++ later) period !! i
  = calculate_spi_rounded fl scipy precipitation period !! i.
Proof.
  intros Hlen Hi. unfold calculate_spi_rounded. rewrite length_app.
  rewrite !(proj2 (Nat.ltb_ge _ _)) by lia.
  rewrite !spi_windowed_rounded_lookup, spi_window_app by exact Hi.
  rewrite length_app, !bool_decide_eq_true_2 by lia. reflexivity.
Qed.

Lemma spi_unchanged_by_later_days_witness :
  calculate_spi_rounded Np.exact scipy_fit_fails ([0; 0; 0; 0; 0; 5; 0] ++ [12; 0]) 30
    !! 6%nat
  = calculate_spi_rounded Np.exact scipy_fit_fails [0; 0; 0; 0; 0; 5; 0] 30 !! 6%nat.
Proof.
  apply spi_unchanged_by_later_days; cbn; lia.
Defined.

Lemma sum_ge_mean (l : list R) : Forall (λ x, 0 <= x) l → Np.mean l <= Np.sum l.
Proof.
  intros Hl. pose proof (sum_nonneg l Hl) as Hs. unfold Np.mean.
  destruct l as [|x l].
  - cbn. lra.
  - assert (Hn : 1 <= INR (length (x :: l))).
    { rewrite INR_IZR_INZ. apply IZR_le. cbn [length]. lia. }
    apply (Rmult_le_reg_r (INR (length (x :: l)))); [lra |].
    unfold Rdiv. rewrite Rmult_assoc, Rinv_l by lra. nra.
Qed.

(** The fallback of a window: where SciPy raises, no negative value comes
    out of non-negative precipitation. *)
Lemma spi_of_window_fallback (scipy : Scipy) (window : list R) :
  (fitted ← gamma_fit scipy (map (Rmax 0.1) window);
   cdf ← gamma_cdf scipy (Np.sum window) fitted;
   norm_ppf scipy cdf) = None →
  Forall (λ x, 0 <= x) window → 0 <= spi_of_window scipy window.
Proof.
  intros Hfit Hw. unfold spi_of_window. cbv zeta. rewrite Hfit.
  set (s := if (1 <? length window)%nat then Np.std window else 1).
  destruct (Rlt_dec 0 s) as [Hs|Hs]; [|lra].
  pose proof (sum_ge_mean window Hw).
  apply Rmult_le_pos; [lra |]. apply Rlt_le, Rinv_0_lt_compat, Hs.
Qed.

Lemma spi_window_sublist (l : list R) (period i : nat) (P : R → Prop) :
  Forall P l → Forall P (spi_window l period i).
Proof.
  intros H. unfold spi_window. destruct (i <? period - 1)%nat.
  - now apply Forall_take.
  - now apply Forall_drop, Forall_take.
Qed.

(** X12: where the SciPy computation raises on every window, a series of at
    least seven non-negative amounts has no negative SPI: the fallback
    compares the window total with the window mean, so it never reports a
    deficit, and the mean SPI of the indicators adds nothing to the risk
    score. *)
Theorem spi_fallback_never_negative (scipy : Scipy) (climate_data : ClimateData) :
  (∀ data x, (fitted ← gamma_fit scipy data;
              cdf ← gamma_cdf scipy x fitted;
              norm_ppf scipy cdf) = None) →
  dates climate_data ≠ [] →
  (7 ≤ length (precipitation climate_data))%nat →
  Forall (λ x, 0 <= x) (precipitation climate_data) →
  (∀ i v, calculate_spi scipy (precipitation climate_data) 30 !! i = Some v → 0 <= v)
  ∧ ∃ spi_mean,
      calculate_drought_indicators scipy (Some climate_data) !! "spi_mean"
        = Some (Num spi_mean)
      ∧ 0 <= spi_mean ∧ spi_factor spi_mean = (0%Z, []).
Proof.
  intros Hfit Hdates Hlen Hpos.
  assert (Hall : ∀ i v,
            calculate_spi scipy (precipitation climate_data) 30 !! i = Some v → 0 <= v).
  { intros i v. unfold calculate_spi. rewrite (proj2 (Nat.ltb_ge _ _)) by lia.
    rewrite spi_windowed_lookup.
    destruct (_ && _); [|discriminate]. intros [= <-].
    apply spi_of_window_fallback; [apply Hfit |]. now apply spi_window_sublist. }
  split; [exact Hall |].
  unfold calculate_drought_indicators.
  destruct (dates climate_data) as [|d ds] eqn:Ed; [contradiction |].
  cbn [length Nat.eqb].
  rewrite lookup_insert_ne by discriminate. rewrite lookup_insert_eq.
  eexists. split; [reflexivity |].
  set (spi := calculate_spi scipy (precipitation climate_data) 30) in *.
  assert (Hmean : 0 <= (if (size spi =? 0)%nat then 0
                        else Np.mean ((map_to_list spi).*2))).
  { destruct (size spi =? 0)%nat; [lra |].
    assert (Hvals : Forall (λ x, 0 <= x) ((map_to_list spi).*2)).
    { apply Forall_fmap, Forall_forall. intros [i v] Hin. cbn.
      apply elem_of_map_to_list in Hin. eauto. }
    pose proof (sum_nonneg _ Hvals). unfold Np.mean.
    apply Rmult_le_pos; [assumption |].
    destruct ((map_to_list spi).*2) as [|x l]; [cbn; rewrite Rinv_0; lra |].
    apply Rlt_le, Rinv_0_lt_compat, lt_0_INR. cbn. lia. }
  split; [exact Hmean |].
  unfold spi_factor. repeat (destruct (Rle_dec _ _); [lra |]). reflexivity.
Qed.

Lemma spi_fallback_never_negative_witness :
  ∃ spi_mean,
    calculate_drought_indicators scipy_fit_fails
      (Some (rain_only [1; 2; 3; 4; 5; 6; 7]%Z [0; 0; 0; 0; 0; 5; 0])) !! "spi_mean"
      = Some (Num spi_mean)
    ∧ 0 <= spi_mean ∧ spi_factor spi_mean = (0%Z, []).
Proof.
  refine (proj2 (spi_fallback_never_negative scipy_fit_fails
                   (rain_only [1; 2; 3; 4; 5; 6; 7]%Z [0; 0; 0; 0; 0; 5; 0]) _ _ _ _)).
  - reflexivity.
  - discriminate.
  - cbn. lia.
  - repeat constructor; lra.
Defined.

End SPIMore.


(** ** Group alerts: aggregates, text and grouping *)

Section GroupAlertMore.
Import PyStr AlertText AlertGenerator.

Lemma sum_scores_snoc (indicators : list SampleIndicator) (entry : SampleIndicator) :
  sum_scores (indicators ++ [entry]) = (sum_scores indicators + ind_risk_score entry)%Z.
Proof.
  unfold sum_scores. induction indicators as [|x l IH]; cbn; [lia |].
  cbn in IH. rewrite IH. lia.
Qed.

Lemma sample_loop_ok env period localities (state : list SampleIndicator * nat * Z) :
  sample_state_ok state →
  sample_state_ok (fold_left (analyse_sample env period) localities state)
  ∧ (length (fold_left (analyse_sample env period) localities state).1.1
     ≤ length state.1.1 + length localities)%nat.
Proof.
  revert state. induction localities as [|l ls IH]; intros state H;
    [split; [exact H | cbn; lia] |].
  cbn [fold_left].
  assert (Hstep : sample_state_ok (analyse_sample env period state l)
                  ∧ (length (analyse_sample env period state l).1.1
                     ≤ length state.1.1 + 1)%nat).
  { destruct H as (Hc & Hs & Hall). split; [split; [|split] |].
    - now apply analyse_sample_counts.
    - destruct state as [[gi hc] tot]. cbn [fst snd] in *. unfold analyse_sample.
      destruct (get_climate_data env _ _ _) as [[cd|]|]; cbn [fst snd]; [|exact Hs..].
      rewrite sum_scores_snoc. cbn [ind_risk_score]. now rewrite Hs.
    - destruct state as [[gi hc] tot]. cbn [fst snd] in *. unfold analyse_sample.
      destruct (get_climate_data env _ _ _) as [[cd|]|]; cbn [fst snd]; [|exact Hall..].
      apply Forall_app. split; [exact Hall |]. constructor; [|constructor].
      cbn [ind_risk_score ind_risk_level]. split.
      + apply assess_score_bounds.
      + apply indicators_level.
    - destruct state as [[gi hc] tot]. cbn [fst snd]. unfold analyse_sample.
      destruct (get_climate_data env _ _ _) as [[cd|]|]; cbn [fst snd];
        rewrite ?length_app; cbn; lia. }
  destruct Hstep as [Hok Hlen]. destruct (IH _ Hok) as [Hok' Hlen'].
  split; [exact Hok' |]. cbn [length]. lia.
Qed.

Lemma sum_scores_bounds (indicators : list SampleIndicator) :
  Forall (λ ind, (0 <= ind_risk_score ind <= 115)%Z ∧ ind_risk_level ind ∈ risk_levels)
         indicators →
  (0 <= sum_scores indicators <= 115 * Z.of_nat (length indicators))%Z.
Proof.
  unfold sum_scores. induction 1 as [|x l [Hx _] _ IH]; cbn [map fold_right length]; lia.
Qed.

Lemma count_high_le (indicators : list SampleIndicator) :
  (count_high indicators ≤ length indicators)%nat.
Proof. apply length_filter. Qed.

Lemma group_level_levels (ratio avg : Q) : group_level ratio avg ∈ group_risk_levels.
Proof.
  unfold group_level, group_risk_levels.
  repeat match goal with |- context [if ?b then _ else _] => destruct b end; set_solver.
Qed.

Lemma Qdiv_nat_bounds (a : Z) (n : nat) (lo hi : Z) :
  (0 < n)%nat → (lo * Z.of_nat n <= a <= hi * Z.of_nat n)%Z →
  (inject_Z lo <= inject_Z a / inject_Z (Z.of_nat n)
   ∧ inject_Z a / inject_Z (Z.of_nat n) <= inject_Z hi)%Q.
Proof.
  intros Hn [Hlo Hhi].
  assert (Hpos : (0 < inject_Z (Z.of_nat n))%Q) by (unfold Qlt, inject_Z; cbn; lia).
  split.
  - apply Qle_shift_div_l; [exact Hpos |]. rewrite <- inject_Z_mult.
    rewrite <- Zle_Qle. exact Hlo.
  - apply Qle_shift_div_r; [exact Hpos |]. rewrite <- inject_Z_mult.
    rewrite <- Zle_Qle. exact Hhi.
Qed.

(** X13: a group alert rests on at least one analysed sample and on no
    more than were drawn, none of them at the level 'Indéterminé'; its
    average score lies between 0 and 115, its share of high-risk samples
    between 0 and 1, and its level is one of the four group levels. *)
Theorem group_alert_aggregates (env : Services) (group_name : string)
    (group_localities : list Locality) (analysis_period group_type : string)
    (alert : GroupAlert) :
  generate_group_alert env group_name group_localities analysis_period group_type
    = Some alert →
  let indicators := indicateurs_echantillon alert in
  (1 ≤ length indicators
   ≤ length (sample env (Nat.min 3 (length group_localities)) group_localities))%nat
  ∧ Forall (λ ind, ind_risk_level ind ∈ risk_levels) indicators
  ∧ (0 <= score_risque_moyen alert ∧ score_risque_moyen alert <= 115)%Q
  ∧ (0 <= ratio_risque_eleve alert ∧ ratio_risque_eleve alert <= 1)%Q
  ∧ niveau_risque_groupe alert ∈ group_risk_levels.
Proof.
  unfold generate_group_alert. intros Halert.
  destruct (sample_loop_ok env analysis_period
              (sample env (Nat.min 3 (length group_localities)) group_localities)
              ([], 0%nat, 0%Z)) as [(Hc & Hs & Hall) Hlen].
  { repeat split. constructor. }
  destruct (fold_left _ _ _) as [[gi hc] tot]. cbn [fst snd length] in *.
  destruct gi as [|ind gi]; [discriminate |].
  injection Halert as <-.
  cbn [indicateurs_echantillon niveau_risque_groupe ratio_risque_eleve score_risque_moyen].
  cbv zeta. set (inds := ind :: gi) in *.
  assert (Hn : (0 < length inds)%nat) by (cbn; lia).
  split; [lia |]. split; [eapply Forall_impl; [exact Hall | now intros ? [_ ?]] |].
  split; [|split].
  - apply (Qdiv_nat_bounds tot (length inds) 0 115 Hn).
    pose proof (sum_scores_bounds inds Hall). lia.
  - apply (Qdiv_nat_bounds (Z.of_nat hc) (length inds) 0 1 Hn).
    pose proof (count_high_le inds). lia.
  - apply group_level_levels.
Qed.

Lemma group_alert_aggregates_witness :
  ∃ alert,
    generate_group_alert parched_services "Extrême-Nord" [maroua] "30 jours" "region"
      = Some alert
    ∧ (0 <= score_risque_moyen alert ∧ score_risque_moyen alert <= 115)%Q
    ∧ (0 <= ratio_risque_eleve alert ∧ ratio_risque_eleve alert <= 1)%Q
    ∧ niveau_risque_groupe alert ∈ group_risk_levels.
Proof.
  eexists. split; [reflexivity |].
  refine (proj2 (proj2
    (group_alert_aggregates parched_services "Extrême-Nord" [maroua] "30 jours" "region"
       _ _))).
  reflexivity.
Defined.

Lemma group_ai_alert_is_fallback (env : Services) (group_name group_type : string)
    (indicators : list SampleIndicator) (risk_level : string) (avg_score : Q)
    (total_localities : nat) :
  generate_group_ai_alert env group_name group_type indicators risk_level avg_score
    total_localities
  = generate_fallback_group_alert group_name group_type risk_level avg_score indicators.
Proof.
  unfold generate_group_ai_alert, call_deepseek_api.
  destruct (api_key env) as [[|c s]|]; reflexivity.
Qed.

Lemma fallback_parses_empty {A : Type} (group_name group_type risk_level : string)
    (avg_score : Q) (indicators : list A) :
  nl_free group_name = true → nl_free group_type = true →
  parse_group_alert_message
    (generate_fallback_group_alert group_name group_type risk_level avg_score indicators)
  = ∅.
Proof.
  intros Hn Ht. unfold parse_group_alert_message.
  rewrite fallback_is_join, split_join_lines.
  - apply parse_lines_untagged.
  - discriminate.
  - now apply fallback_lines_nl_free.
Qed.

(** X14: with or without an API key, the text of a group alert is the
    fallback text of the group's level and average score; parsed for
    display, it gives no field when the group's name and type hold no line
    break. *)
Theorem group_alert_text_is_fallback (env : Services) (group_name : string)
    (group_localities : list Locality) (analysis_period group_type : string)
    (alert : GroupAlert) :
  generate_group_alert env group_name group_localities analysis_period group_type
    = Some alert →
  alerte alert
  = generate_fallback_group_alert group_name group_type (niveau_risque_groupe alert)
      (score_risque_moyen alert) (indicateurs_echantillon alert)
  ∧ (nl_free group_name = true → nl_free group_type = true →
     parse_group_alert_message (alerte alert) = ∅).
Proof.
  unfold generate_group_alert. intros Halert.
  destruct (fold_left _ _ _) as [[gi hc] tot].
  destruct gi as [|ind gi]; [discriminate |].
  injection Halert as <-.
  cbn [alerte niveau_risque_groupe score_risque_moyen indicateurs_echantillon].
  rewrite group_ai_alert_is_fallback. split; [reflexivity |].
  apply fallback_parses_empty.
Qed.

Lemma group_alert_text_is_fallback_witness :
  ∃ alert,
    generate_group_alert parched_services "Extrême-Nord" [maroua] "30 jours" "region"
      = Some alert
    ∧ parse_group_alert_message (alerte alert) = ∅.
Proof.
  eexists. split; [reflexivity |].
  refine (proj2 (group_alert_text_is_fallback parched_services "Extrême-Nord" [maroua]
                   "30 jours" "region" _ _) _ _); reflexivity.
Defined.

Lemma alerts_of_groups_cons env period group_by name locs groups :
  alerts_of_groups env period group_by ((name, locs) :: groups)
  = (match generate_group_alert env name locs period group_by with
     | Some a => [a]
     | None => []
     end ++ alerts_of_groups env period group_by groups)%list.
Proof.
  change ((name, locs) :: groups) with ([(name, locs)] ++ groups)%list.
  rewrite alerts_of_groups_app. reflexivity.
Qed.

Lemma group_alert_names env name locs period group_by a :
  generate_group_alert env name locs period group_by = Some a →
  groupe_nom a = name ∧ groupe_type a = group_by ∧ total_localites a = length locs.
Proof.
  unfold generate_group_alert. destruct (fold_left _ _ _) as [[gi hc] tot].
  destruct gi; [discriminate |]. now intros [= <-].
Qed.

Lemma alerts_of_groups_names env period group_by groups :
  map groupe_nom (alerts_of_groups env period group_by groups) `sublist_of` map fst groups
  ∧ Forall (λ a, groupe_type a = group_by) (alerts_of_groups env period group_by groups).
Proof.
  induction groups as [|[name locs] groups [IH1 IH2]]; [split; constructor |].
  rewrite alerts_of_groups_cons.
  destruct (generate_group_alert env name locs period group_by) as [a|] eqn:Ha.
  - apply group_alert_names in Ha as (Hn & Ht & _). cbn [app map fst]. split.
    + rewrite Hn. now constructor.
    + now constructor.
  - cbn [app map fst]. split; [now constructor | exact IH2].
Qed.

(** X15: alerts are produced by region or by zone only; any other grouping
    fails. The alerts come in the order of the groups, at most one for each
    group, under the group's name and with the grouping as their type. *)
Theorem alerts_by_group_follow_the_groups (env : Services) (localities_df : list Locality)
    (analysis_period group_by : string) :
  (is_Some (generate_alerts_by_group env localities_df analysis_period group_by)
   ↔ group_by = "region" ∨ group_by = "zone")
  ∧ ∀ alerts,
      generate_alerts_by_group env localities_df analysis_period group_by = Some alerts →
      ∃ key, ((group_by = "region" ∧ key = region) ∨ (group_by = "zone" ∧ key = zone))
             ∧ map groupe_nom alerts `sublist_of` map fst (groupby env key localities_df)
             ∧ Forall (λ a, groupe_type a = group_by) alerts.
Proof.
  unfold generate_alerts_by_group.
  destruct (bool_decide (group_by = "region")) eqn:E1.
  - apply bool_decide_eq_true in E1. split; [split; eauto |].
    intros alerts [= <-]. exists region. split; [now left |].
    apply alerts_of_groups_names.
  - apply bool_decide_eq_false in E1.
    destruct (bool_decide (group_by = "zone")) eqn:E2.
    + apply bool_decide_eq_true in E2. split; [split; eauto |].
      intros alerts [= <-]. exists zone. split; [now right |].
      apply alerts_of_groups_names.
    + apply bool_decide_eq_false in E2. split.
      * split; [intros [? ?]; discriminate | tauto].
      * intros alerts. discriminate.
Qed.

Lemma level_rank_group_level (ratio avg : Q) :
  level_rank (group_level ratio avg)
  = if Qle_bool 0.7 ratio || Qle_bool 70 avg then 3%nat
    else if Qle_bool 0.4 ratio || Qle_bool 50 avg then 2%nat
    else if Qle_bool 0.2 ratio || Qle_bool 30 avg then 1%nat
    else 0%nat.
Proof.
  unfold group_level.
  repeat match goal with |- context [if ?b then _ else _] => destruct b end; reflexivity.
Qed.

Lemma Qle_bool_mono (c x y : Q) : (x <= y)%Q → Qle_bool c x = true → Qle_bool c y = true.
Proof.
  intros Hxy H. apply Qle_bool_iff. apply Qle_bool_iff in H. now apply Qle_trans with x.
Qed.

(** X16: the group level never falls when the share of high-risk samples and
    the average score both rise. *)
Theorem group_level_monotone (ratio1 ratio2 avg1 avg2 : Q) :
  (ratio1 <= ratio2)%Q → (avg1 <= avg2)%Q →
  (level_rank (group_level ratio1 avg1) ≤ level_rank (group_level ratio2 avg2))%nat.
Proof.
  intros Hr Ha. rewrite !level_rank_group_level.
  pose proof (Qle_bool_mono 0.7 _ _ Hr). pose proof (Qle_bool_mono 0.4 _ _ Hr).
  pose proof (Qle_bool_mono 0.2 _ _ Hr). pose proof (Qle_bool_mono 70 _ _ Ha).
  pose proof (Qle_bool_mono 50 _ _ Ha). pose proof (Qle_bool_mono 30 _ _ Ha).
  destruct (Qle_bool 0.7 ratio1), (Qle_bool 0.4 ratio1), (Qle_bool 0.2 ratio1),
    (Qle_bool 70 avg1), (Qle_bool 50 avg1), (Qle_bool 30 avg1);
    repeat match goal with H : true = true → _ |- _ => rewrite (H eq_refl) end;
    rewrite ?orb_true_r; cbn [orb];
    repeat match goal with |- context [Qle_bool ?a ?b] => destruct (Qle_bool a b) end;
    cbn [orb]; lia.
Qed.

Lemma group_level_monotone_witness :
  (level_rank (group_level 0.25 35) ≤ level_rank (group_level 0.5 35))%nat.
Proof.
  apply group_level_monotone; unfold Qle; cbn; lia.
Defined.

End GroupAlertMore.

(** ** The parser of alert texts *)

Section ParserShape.
Import PyStr AlertText.

Lemma split_not_nil (s : string) (sep : ascii) : split s sep ≠ [].
Proof.
  induction s as [|c s IH]; [discriminate |]. cbn [split].
  destruct (Ascii.eqb c sep); [discriminate |].
  destruct (split s sep); discriminate.
Qed.

Lemma well_shaped_insert_text (parsed : gmap string field) (key s : string) :
  key ∈ text_fields → well_shaped parsed → well_shaped (<[key := Text s]> parsed).
Proof.
  intros Hkey H k v. destruct (decide (k = key)) as [->|Hne].
  - rewrite lookup_insert_eq. intros [= <-]. left. eauto.
  - rewrite lookup_insert_ne by congruence. apply H.
Qed.

Lemma well_shaped_insert_items (parsed : gmap string field) (key text : string) :
  key ∈ list_fields → well_shaped parsed →
  well_shaped (<[key := Items (map strip (split text semicolon))]> parsed).
Proof.
  intros Hkey H k v. destruct (decide (k = key)) as [->|Hne].
  - rewrite lookup_insert_eq. intros [= <-]. right. split; [exact Hkey |].
    eexists. split; [reflexivity |].
    pose proof (split_not_nil text semicolon). destruct (split text semicolon);
      [congruence | discriminate].
  - rewrite lookup_insert_ne by congruence. apply H.
Qed.

Lemma parse_line_well_shaped (parsed : gmap string field) (line : string) :
  well_shaped parsed → well_shaped (parse_line parsed line).
Proof.
  intros H. unfold parse_line.
  repeat match goal with
    | |- context [if startswith ?l ?t then _ else _] => destruct (startswith l t)
    end;
    first [ exact H
          | apply well_shaped_insert_text; [unfold text_fields; set_solver | exact H]
          | apply well_shaped_insert_items; [unfold list_fields; set_solver | exact H] ].
Qed.

(** X17: whatever the text, the parsed alert holds only the six keys of the
    format, a string under 'titre_groupe', 'evaluation', 'periode' and
    'urgence', and a list of at least one item under 'zones_prioritaires'
    and 'actions_coordonnees'. *)
Theorem parsed_alert_is_well_shaped (alert_text : string) :
  well_shaped (parse_group_alert_message alert_text).
Proof.
  unfold parse_group_alert_message.
  assert (H : ∀ lines parsed, well_shaped parsed → well_shaped (fold_left parse_line lines parsed)).
  { induction lines as [|l ls IH]; intros parsed Hp; [exact Hp |].
    cbn [fold_left]. apply IH. now apply parse_line_well_shaped. }
  apply H. intros key value. rewrite lookup_empty. discriminate.
Qed.

End ParserShape.


(** ** The risk of a forecast *)

Section ForecastRiskFacts.
Import Forecast ForecastRisk.
Open Scope Q_scope.

Lemma count_pos (n : nat) : (0 < n)%nat → 0 < count n.
Proof. intros H. unfold count, Qlt, inject_Z. cbn. lia. Qed.

Lemma count_le (m n : nat) : (m ≤ n)%nat → count m <= count n.
Proof. intros H. unfold count. rewrite <- Zle_Qle. lia. Qed.

Lemma dry_ratio_range (m n : nat) :
  (0 < n)%nat → (m ≤ n)%nat → 0 <= count m / count n ∧ count m / count n <= 1.
Proof.
  intros Hn Hm. pose proof (count_pos n Hn) as Hp. split.
  - apply Qle_shift_div_l; [exact Hp |]. rewrite Qmult_0_l.
    unfold count. change 0 with (inject_Z 0). rewrite <- Zle_Qle. lia.
  - apply Qle_shift_div_r; [exact Hp |]. rewrite Qmult_1_l. now apply count_le.
Qed.

Lemma sum_lt_count (l : list Q) :
  l ≠ [] → Forall (λ x, x < 1) l → sum l < count (length l).
Proof.
  intros Hne H. induction H as [|x l Hx Hl IH]; [congruence |].
  change (sum (x :: l)) with (x + sum l).
  assert (Hc : count (length (x :: l)) == 1 + count (length l)).
  { unfold count. cbn [length]. rewrite Nat2Z.inj_succ, <- Z.add_1_l, inject_Z_plus.
    reflexivity. }
  rewrite Hc. destruct l as [|y l].
  - cbn. rewrite !Qplus_0_r. exact Hx.
  - apply Qplus_lt_le_compat; [exact Hx |]. apply Qlt_le_weak, IH. discriminate.
Qed.

Lemma filter_all (l : list Q) :
  Forall (λ x, x < 1) l → filter (λ x, x < 1) l = l.
Proof.
  induction 1 as [|x l Hx _ IH]; [reflexivity |].
  rewrite filter_cons_True by exact Hx. now rewrite IH.
Qed.

Lemma forecast_level_cases (score : Q) :
  (if Qle_bool 80 score then ("Très Élevé", "red")
   else if Qle_bool 60 score then ("Élevé", "orange")
   else if Qle_bool 40 score then ("Modéré", "yellow")
   else if Qle_bool 20 score then ("Faible", "blue")
   else ("Très Faible", "green")).1 ∈ forecast_risk_levels.
Proof.
  unfold forecast_risk_levels.
  repeat match goal with |- context [if ?b then _ else _] => destruct b end;
    cbn; set_solver.
Qed.

(** X18: the risk of a forecast is always computed: its score lies between
    0 and 100, its level is one of the five levels and the dry days are at
    most the days of the forecast. A forecast with at least one value and no
    value above 0.9 mm scores at least 80 and is at 'Très Élevé'. So is a
    forecast without any value: its mean is not a number, and so is its
    score until [min(100, risk_score)] makes it 100. *)
Theorem forecast_risk_range (data : ForecastData) :
  ∃ risk,
    calculate_drought_risk (Some data) = Some risk
    ∧ (0 <= risk_score risk ∧ risk_score risk <= 100)
    ∧ risk_level risk ∈ forecast_risk_levels
    ∧ (dry_days risk ≤ length (precipitation data))%nat
    ∧ (precipitation data ≠ [] → Forall (λ x, x <= 0.9) (precipitation data) →
       80 <= risk_score risk ∧ risk_level risk = "Très Élevé")
    ∧ (precipitation data = [] →
       risk_score risk = 100 ∧ risk_level risk = "Très Élevé"
       ∧ average_precipitation risk = None).
Proof.
  unfold calculate_drought_risk.
  destruct (precipitation data) as [|x0 rest] eqn:Eprecip.
  { eexists. split; [reflexivity |]. cbn.
    split; [split; discriminate |]. split; [unfold forecast_risk_levels; set_solver |].
    split; [lia |]. split; [congruence |]. intros _. repeat split. }
  set (precip := x0 :: rest) in *.
  set (n := length precip).
  assert (Hn : (0 < n)%nat) by (cbn; lia).
  set (dry := length (filter (λ x, x < 1) precip)).
  assert (Hdry : (dry ≤ n)%nat) by apply length_filter.
  destruct (dry_ratio_range dry n Hn Hdry) as [Hr0 Hr1].
  assert (Hper : ∀ x, per x n = Some (x / count n)) by (intros x; reflexivity).
  rewrite !Hper. cbn [fmap option_fmap option_map].
  set (ratio := count dry / count n) in *.
  set (avg := sum precip / count n).
  set (balance := match et0 data with
                  | Some et0 => sum precip - sum et0
                  | None => sum precip - count n * 3
                  end).
  set (a := if Qlt_le_dec avg 1 then 0 + 50
            else if Qlt_le_dec avg 2 then 0 + 30
            else if Qlt_le_dec avg 3 then 0 + 15 else 0).
  assert (Ha : 0 <= a ∧ a <= 50).
  { unfold a. repeat destruct (Qlt_le_dec _ _); split; discriminate. }
  set (b := a + ratio * 30).
  assert (Hb : 0 <= b ∧ a + 0 <= b).
  { unfold b. assert (0 <= ratio * 30) by (apply Qmult_le_0_compat; [exact Hr0 | discriminate]).
    split.
    - change 0 with (0 + 0). apply Qplus_le_compat; tauto.
    - apply Qplus_le_compat; [apply Qle_refl | assumption]. }
  set (c := if Qlt_le_dec balance (-50) then b + 20
            else if Qlt_le_dec balance (-20) then b + 10 else b).
  assert (Hc : b <= c).
  { unfold c. repeat destruct (Qlt_le_dec _ _); try apply Qle_refl;
      rewrite <- (Qplus_0_r b) at 1; apply Qplus_le_compat;
      try apply Qle_refl; discriminate. }
  set (score := Qmin 100 c).
  assert (Hscore : 0 <= score ∧ score <= 100).
  { unfold score. split; [|apply Q.le_min_l].
    apply Q.min_glb; [discriminate |]. apply Qle_trans with b; tauto. }
  set (lc := if Qle_bool 80 score then ("Très Élevé", "red")
             else if Qle_bool 60 score then ("Élevé", "orange")
             else if Qle_bool 40 score then ("Modéré", "yellow")
             else if Qle_bool 20 score then ("Faible", "blue")
             else ("Très Faible", "green")).
  assert (Hlevel : lc.1 ∈ forecast_risk_levels).
  { apply forecast_level_cases. }
  assert (Hhigh : 80 <= score → lc.1 = "Très Élevé").
  { intros H. unfold lc. apply Qle_bool_iff in H. now rewrite H. }
  destruct lc as [level color] eqn:Elc. cbn [fst] in *.
  eexists. split; [reflexivity |]. cbn [risk_score risk_level ForecastRisk.dry_days].
  split; [exact Hscore |]. split; [exact Hlevel |]. split; [exact Hdry |].
  split; [|intros E; discriminate E].
  intros _ Hlow.
  assert (Hall : Forall (λ x, x < 1) precip).
  { eapply Forall_impl; [exact Hlow |]. intros x Hx. cbv beta in Hx.
    eapply Qle_lt_trans; [exact Hx | reflexivity]. }
  assert (Hs : 80 <= score); [|split; [exact Hs | now apply Hhigh]].
  assert (Havg : avg < 1).
  { unfold avg. apply Qlt_shift_div_r; [now apply count_pos |].
    rewrite Qmult_1_l. apply sum_lt_count; [discriminate | exact Hall]. }
  assert (Hratio : ratio == 1).
  { unfold ratio, dry. rewrite filter_all by exact Hall. fold n.
    apply Qmult_inv_r. intros E. pose proof (count_pos n Hn) as Hp.
    rewrite E in Hp. discriminate. }
  assert (Hb80 : 80 <= b).
  { unfold b, a. destruct (Qlt_le_dec avg 1) as [_|Hge];
      [|exfalso; exact (Qlt_not_le _ _ Havg Hge)].
    rewrite Hratio. discriminate. }
  unfold score. apply Q.min_glb; [discriminate |]. now apply Qle_trans with b.
Qed.

Lemma forecast_risk_range_witness :
  ∃ risk,
    calculate_drought_risk (Some dry_month) = Some risk
    ∧ risk_level risk = "Très Élevé".
Proof.
  destruct (forecast_risk_range dry_month) as (risk & Hrisk & _ & _ & _ & Hdry & _).
  exists risk. split; [exact Hrisk |]. apply Hdry.
  - discriminate.
  - repeat constructor; discriminate.
Defined.

End ForecastRiskFacts.

(** ** Simulated forecasts: seed, length and shape *)

Section ForecastMore.
Import Forecast.
Open Scope Q_scope.

Lemma np_seed_is_Some (np : NumpyRandom) (s : Z) (st : rng np) :
  is_Some (np_seed np s st) ↔ (0 <= s < 2 ^ 32)%Z.
Proof.
  unfold np_seed. destruct ((0 <=? s) && (s <? 2 ^ 32))%Z eqn:E.
  - apply andb_true_iff in E as [H1 H2]. apply Z.leb_le in H1. apply Z.ltb_lt in H2.
    split; [lia | eauto].
  - split; [intros [? ?]; discriminate |]. intros [H1 H2].
    apply Z.leb_le in H1. apply Z.ltb_lt in H2. rewrite H1, H2 in E. discriminate.
Qed.

Lemma thirty_day_returns (fl : Arith) (np : NumpyRandom) (now_end now_start : Z)
    (latitude longitude : Q) (st : rng np) :
  is_Some (get_30day_forecast fl np now_end now_start latitude longitude st)
  ↔ is_Some (np_seed np (int_of (fadd fl (fmul fl latitude 100) longitude)) st).
Proof.
  unfold get_30day_forecast. cbv zeta.
  destruct (np_seed np _ st) as [st0|]; cbn [mbind option_bind].
  - repeat match goal with
      | |- context [let '(_, _) := ?d in _] => destruct d
      end.
    split; eauto.
  - split; intros [? ?]; discriminate.
Qed.

Lemma longterm_returns_iff (fl : Arith) (np : NumpyRandom) (now_start now_end : Z)
    (latitude longitude : Q) (years : N) (st : rng np) :
  is_Some (get_longterm_forecast fl np now_start now_end latitude longitude years st)
  ↔ is_Some (np_seed np (int_of (fadd fl (fmul fl latitude 100) longitude)) st).
Proof.
  split; [|apply longterm_returns].
  unfold get_longterm_forecast. cbv zeta.
  destruct (np_seed np _ st) as [st0|]; cbn [mbind option_bind]; [eauto |].
  intros [? ?]; discriminate.
Qed.

Lemma int_of_negative (x : Q) : x <= -1 → (int_of x < 0)%Z.
Proof.
  intros Hneg. unfold int_of. destruct x as [num den].
  unfold Qle in Hneg. cbn in Hneg |- *.
  assert (Hn : (num <= - Z.pos den)%Z) by lia.
  rewrite <- (Z.opp_involutive num), Z.quot_opp_l by lia.
  rewrite Z.quot_div_nonneg by lia.
  assert (1 <= - num / Z.pos den)%Z by (apply Z.div_le_lower_bound; lia). lia.
Qed.

(** X19: a simulated forecast is returned exactly when the integer part of
    latitude * 100 + longitude, as computed, is a seed NumPy accepts, that
    is from 0 to 2^32 - 1. Where the computed sum is -1 or less, both the
    30-day and the long-term forecast fail, whatever the clock, the horizon
    and the state of the generator. *)
Theorem forecast_needs_a_valid_seed (fl : Arith) (np : NumpyRandom) (now1 now2 : Z)
    (latitude longitude : Q) (years : N) (st : rng np) :
  let s := fadd fl (fmul fl latitude 100) longitude in
  (is_Some (get_30day_forecast fl np now1 now2 latitude longitude st)
   ↔ (0 <= int_of s < 2 ^ 32)%Z)
  ∧ (is_Some (get_longterm_forecast fl np now1 now2 latitude longitude years st)
     ↔ (0 <= int_of s < 2 ^ 32)%Z)
  ∧ (s <= -1 →
     get_30day_forecast fl np now1 now2 latitude longitude st = None
     ∧ get_longterm_forecast fl np now1 now2 latitude longitude years st = None).
Proof.
  cbv zeta. split; [|split].
  - rewrite thirty_day_returns. apply np_seed_is_Some.
  - rewrite longterm_returns_iff. apply np_seed_is_Some.
  - intros Hneg. apply int_of_negative in Hneg. split.
    + destruct (get_30day_forecast fl np now1 now2 latitude longitude st) eqn:E;
        [|reflexivity].
      assert (H : is_Some (get_30day_forecast fl np now1 now2 latitude longitude st))
        by (rewrite E; eauto).
      apply thirty_day_returns, np_seed_is_Some in H. lia.
    + destruct (get_longterm_forecast fl np now1 now2 latitude longitude years st) eqn:E;
        [|reflexivity].
      assert (H : is_Some (get_longterm_forecast fl np now1 now2 latitude longitude
                             years st))
        by (rewrite E; eauto).
      apply longterm_returns_iff, np_seed_is_Some in H. lia.
Qed.

Lemma forecast_needs_a_valid_seed_witness :
  get_30day_forecast exact lcg 10 11 (-4) 9.7 1%Z = None
  ∧ get_longterm_forecast exact lcg 10 11 (-4) 9.7 1 1%Z = None.
Proof.
  apply (proj2 (proj2 (forecast_needs_a_valid_seed exact lcg 10 11 (-4) 9.7 1 1%Z))).
  vm_compute. discriminate.
Defined.

(** X20: the 30-day forecast holds 31 days when both readings of the clock
    coincide and 30 days when the second reading is later by less than a
    day; every series of the forecast has one value for each date. *)
Theorem thirty_day_forecast_length (fl : Arith) (np : NumpyRandom) (now_end now_start : Z)
    (latitude longitude : Q) (st : rng np) (r : ForecastData * rng np) :
  draws_as_requested np →
  (now_end <= now_start < now_end + microseconds_per_day)%Z →
  get_30day_forecast fl np now_end now_start latitude longitude st = Some r →
  let n := if (now_start =? now_end)%Z then 31%nat else 30%nat in
  length (dates r.1) = n
  ∧ length (temperature_max r.1) = n
  ∧ (length <$> temperature_min r.1) = Some n
  ∧ length (precipitation r.1) = n
  ∧ (length <$> et0 r.1) = Some n.
Proof.
  intros (normal_length & exponential_length & binomial_length) Hclock.
  pose proof (thirty_day_range_length now_end now_start Hclock) as Hds.
  unfold get_30day_forecast. cbv zeta.
  set (ds := date_range_daily now_start (now_end + days 30)) in *.
  destruct (np_seed np _ st) as [st0|]; [|discriminate]. cbn [mbind option_bind].
  pose proof (normal_length 3 2 (length ds) st0) as H1.
  destruct (normal np 3 2 (length ds) st0) as [noise1 st1].
  pose proof (normal_length (-3) 2 (length ds) st1) as H2.
  destruct (normal np (-3) 2 (length ds) st1) as [noise2 st2].
  pose proof (exponential_length 5 (length ds) st2) as H3.
  destruct (exponential np 5 (length ds) st2) as [amounts st3].
  pose proof (binomial_length 1%nat (linspace fl 0.3 0.1 (length ds)) st3) as H4.
  destruct (binomial np 1 (linspace fl 0.3 0.1 (length ds)) st3) as [rains st4].
  pose proof (normal_length 4 1 (length ds) st4) as H5.
  destruct (normal np 4 1 (length ds) st4) as [et st5].
  cbn [fst] in *. rewrite linspace_length in H4.
  intros [= <-]. cbn [fst dates temperature_max temperature_min precipitation et0].
  rewrite <- Hds.
  repeat split.
  - now rewrite length_map.
  - cbn. now rewrite length_map, H2.
  - rewrite length_zip_with. lia.
  - cbn. now rewrite H5.
Qed.

Lemma thirty_day_forecast_length_witness :
  ∃ r, get_30day_forecast exact lcg 10 11 4 9.7 1%Z = Some r
       ∧ length (dates r.1) = 30%nat ∧ length (precipitation r.1) = 30%nat.
Proof.
  destruct (get_30day_forecast exact lcg 10 11 4 9.7 1%Z) as [r|] eqn:E.
  - exists r. split; [reflexivity |].
    destruct (thirty_day_forecast_length exact lcg 10 11 4 9.7 1%Z r
                lcg_draws_as_requested ltac:(unfold microseconds_per_day; lia) E)
      as (H1 & _ & _ & H4 & _).
    split; [exact H1 | exact H4].
  - vm_compute in E. discriminate E.
Defined.

(** X21: the long-term forecast gives one value for each month end of its
    range in every series it sets, no negative precipitation, and both
    trends; it sets neither a minimum temperature nor an
    evapotranspiration. *)
Theorem longterm_forecast_shape (fl : Arith) (np : NumpyRandom) (now_start now_end : Z)
    (latitude longitude : Q) (years : N) (st : rng np) (r : ForecastData * rng np) :
  draws_as_requested np →
  get_longterm_forecast fl np now_start now_end latitude longitude years st = Some r →
  let n := length (date_range_monthly now_start (now_end + days (365 * Z.of_N years))) in
  length (dates r.1) = n
  ∧ length (temperature_max r.1) = n
  ∧ length (precipitation r.1) = n
  ∧ Forall (λ x, 0 <= x) (precipitation r.1)
  ∧ temperature_min r.1 = None ∧ et0 r.1 = None
  ∧ (length <$> warming_trend r.1) = Some n
  ∧ (length <$> precip_trend r.1) = Some n.
Proof.
  intros (normal_length & exponential_length & _). unfold get_longterm_forecast.
  cbv zeta. set (ds := date_range_monthly _ _).
  destruct (np_seed np _ st) as [st0|]; [|discriminate]. cbn [mbind option_bind].
  pose proof (normal_length 0 2 (length ds) st0) as Hn.
  destruct (normal np 0 2 (length ds) st0) as [noise st1].
  pose proof (exponential_length 80 (length ds) st1) as He.
  destruct (exponential np 80 (length ds) st1) as [amounts st2]. cbn [fst] in Hn, He.
  intros [= <-].
  cbn [fst dates temperature_max temperature_min precipitation et0 warming_trend
         precip_trend].
  split; [reflexivity |].
  split; [rewrite length_zip_with, length_map, linspace_length; lia |].
  split; [rewrite length_map, length_zip_with, length_map, linspace_length; lia |].
  split; [apply Forall_fmap, Forall_forall; intros x _; apply Q.le_max_l |].
  split; [reflexivity |]. split; [reflexivity |].
  cbn. rewrite !linspace_length. split; reflexivity.
Qed.

Lemma longterm_forecast_shape_witness :
  ∃ r, get_longterm_forecast exact lcg noon_2023_01_15 noon_2023_01_15 4 9.7 1 1%Z
       = Some r
       ∧ length (precipitation r.1) = 12%nat
       ∧ Forall (λ x, 0 <= x) (precipitation r.1).
Proof.
  destruct (get_longterm_forecast exact lcg noon_2023_01_15 noon_2023_01_15 4 9.7 1 1%Z)
    as [r|] eqn:E.
  - exists r. split; [reflexivity |].
    destruct (longterm_forecast_shape exact lcg noon_2023_01_15 noon_2023_01_15 4 9.7 1
                1%Z r lcg_draws_as_requested E) as (_ & _ & H2 & H3 & _).
    split; [|exact H3]. rewrite H2. apply one_year_from_2023_01_15.
  - vm_compute in E. discriminate E.
Defined.

End ForecastMore.

(** ** Flood risk: dry days, intense rain and the range of the score *)

Section FloodMore.
Import Flood.
Context (str_of : value → string).
Open Scope Q_scope.

Lemma Qle_bool_below (c x : Q) : x < c → Qle_bool c x = false.
Proof.
  intros H. destruct (Qle_bool c x) eqn:E; [|reflexivity].
  apply Qle_bool_iff in E. exfalso. exact (Qlt_not_le _ _ H E).
Qed.

Lemma adjusted_score_zero (score m : Q) :
  m == 0 → Qmin (score * Qmin (m / intensity_hourly) 2.0) 1.0 == 0.
Proof.
  intros Hm. unfold intensity_hourly.
  assert (HY : Qmin (m / 50) 2.0 == 0).
  { rewrite Q.min_l; rewrite Hm; [reflexivity | discriminate]. }
  assert (HP : score * Qmin (m / 50) 2.0 == 0) by (rewrite HY; apply Qmult_0_r).
  rewrite Q.min_l; [exact HP | rewrite HP; discriminate].
Qed.

Lemma adjusted_score_capped (score m : Q) :
  score <= 1 → 0 <= m →
  Qmin (score * Qmin (m / intensity_hourly) 2.0) 1.0 <= m / intensity_hourly.
Proof.
  intros Hs Hm. unfold intensity_hourly.
  assert (H0 : 0 <= m / 50) by (apply Qle_shift_div_l; [reflexivity | Lqa.lra]).
  assert (HY : 0 <= Qmin (m / 50) 2.0) by (apply Q.min_glb; [exact H0 | discriminate]).
  pose proof (Qmult_le_compat_r _ _ _ Hs HY) as HP. rewrite Qmult_1_l in HP.
  eapply Qle_trans; [apply Q.le_min_l |].
  eapply Qle_trans; [exact HP | apply Q.le_min_l].
Qed.

Lemma max_or_zero_bounds (l : list Q) (hi : Q) :
  0 <= hi → Forall (λ x, 0 <= x ∧ x <= hi) l →
  0 <= max_or_zero l ∧ max_or_zero l <= hi.
Proof.
  intros Hhi. destruct 1 as [|x l Hx Hl]; [split; [apply Qle_refl | exact Hhi] |].
  cbn [max_or_zero].
  revert x Hx. induction Hl as [|y l Hy _ IH]; intros x Hx; [exact Hx |].
  cbn [fold_left]. apply IH. split.
  - apply Qle_trans with x; [tauto | apply Q.le_max_l].
  - apply Q.max_lub; tauto.
Qed.

Lemma max_or_zero_zero (l : list Q) : Forall (λ x, x == 0) l → max_or_zero l == 0.
Proof.
  intros H.
  destruct (max_or_zero_bounds l 0 (Qle_refl 0)) as [H1 H2].
  - eapply Forall_impl; [exact H |]. intros x Hx. cbv beta in Hx.
    rewrite Hx. split; apply Qle_refl.
  - now apply Qle_antisym.
Qed.

(** The level read off the adjusted score. *)
Lemma determine_alert_level_of (risk_score : Q) (precipitation : value)
    (precip : list Q) (level : string) (alert_details : AlertDetails) :
  numbers precipitation = Some precip →
  _determine_alert_level risk_score precipitation = Some (level, alert_details) →
  let adjusted_score :=
    Qmin (risk_score * Qmin (max_or_zero precip / intensity_hourly) 2.0) 1.0 in
  level = if Qle_bool 0.8 adjusted_score then "Alerte Maximale"
          else if Qle_bool 0.6 adjusted_score then "Alerte"
          else if Qle_bool 0.4 adjusted_score then "Pré-alerte"
          else "Vigilance".
Proof.
  intros Hp. unfold _determine_alert_level. rewrite Hp. cbn [mbind option_bind].
  cbv zeta.
  destruct (ALERT_LEVELS !! _); [|discriminate]. cbn [mbind option_bind].
  now intros [= <- _].
Qed.

Lemma ffg_le_1 (precipitation flood_type : value) (ffg : Q) :
  _calculate_ffg precipitation flood_type = Some ffg → ffg <= 1.
Proof.
  unfold _calculate_ffg. destruct (numbers precipitation); [|discriminate].
  cbn [mbind option_bind]. intros [= <-]. eapply Qle_trans; [apply Q.le_min_r | discriminate].
Qed.

Lemma ifs_le_1 (precipitation humidity locality_data : value) (ifs : Q) :
  _calculate_ifs str_of precipitation humidity locality_data = Some ifs → ifs <= 1.
Proof.
  unfold _calculate_ifs. cbv zeta.
  destruct (get locality_data "zone" _); [|discriminate]. cbn [mbind option_bind].
  destruct (get locality_data "facteurs_aggravation" _); [|discriminate].
  cbn [mbind option_bind].
  destruct (numbers humidity); [|discriminate]. cbn [mbind option_bind].
  destruct (numbers precipitation); [|discriminate]. cbn [mbind option_bind].
  intros [= <-]. eapply Qle_trans; [apply Q.le_min_r | discriminate].
Qed.

Lemma flood_type_factor_le_1 (flood_type locality_data : value) (type_factor : Q) :
  _get_flood_type_factor str_of flood_type locality_data = Some type_factor →
  type_factor <= 1.
Proof.
  unfold _get_flood_type_factor. cbv zeta.
  destruct (match flood_type with VScalar (SStr s) => _ | VScalar _ => _ | _ => None end);
    [|discriminate].
  cbn [mbind option_bind].
  destruct (get locality_data "facteurs_aggravation" _); [|discriminate].
  cbn [mbind option_bind]. intros [= <-].
  apply Qle_shift_div_r; [reflexivity |].
  apply Qle_trans with 1.5; [apply Q.le_min_r | discriminate].
Qed.

Lemma soil_saturation_le_1 (weather_data locality_data : value) (altitude soil : Q) :
  altitude_of locality_data = Some altitude → 0 <= altitude →
  _calculate_soil_saturation weather_data locality_data = Some soil → soil <= 1.
Proof.
  intros Halt Hpos. unfold _calculate_soil_saturation.
  destruct (get weather_data "soil_moisture" _) as [sequence|]; [|discriminate].
  cbn [mbind option_bind].
  destruct (first sequence) as [soil_moisture|]; [|discriminate].
  cbn [mbind option_bind].
  unfold altitude_of in Halt.
  destruct (get locality_data "altitude" _); [|discriminate].
  cbn [mbind option_bind] in Halt |- *. rewrite Halt. cbn [mbind option_bind].
  destruct (as_number soil_moisture) as [moisture|]; [|discriminate].
  cbn [mbind option_bind]. intros [= <-].
  assert (Haf : 0 <= Qmax 0.5 (1 - altitude / 1000) ∧ Qmax 0.5 (1 - altitude / 1000) <= 1).
  { split.
    - apply Qle_trans with 0.5; [discriminate | apply Q.le_max_l].
    - apply Q.max_lub; [discriminate |].
      assert (0 <= altitude / 1000) by (apply Qle_shift_div_l; [reflexivity | Lqa.lra]).
      Lqa.lra. }
  destruct Haf as [Haf0 Haf1].
  pose proof (Q.le_min_r (moisture / soil_moisture_threshold) 1.0) as Hsat.
  pose proof (Qmult_le_compat_r _ _ _ Hsat Haf0) as H.
  Lqa.lra.
Qed.

(** The score and the level of a computed result. *)
Lemma calculate_risk_try_parts (weather_data locality_data : value)
    (result : string * Q * gmap string detail) (precip : list Q) :
  calculate_risk_try str_of weather_data locality_data = Some result →
  precipitation_24h weather_data = Some precip →
  ∃ ffg_score ifs_score soil_saturation type_factor,
    ffg_score <= 1 ∧ ifs_score <= 1 ∧ type_factor <= 1
    ∧ _calculate_soil_saturation weather_data locality_data = Some soil_saturation
    ∧ result.1.2
      = ffg_score * 0.4 + ifs_score * 0.3 + soil_saturation * 0.2 + type_factor * 0.1
    ∧ let adjusted_score :=
        Qmin (result.1.2 * Qmin (max_or_zero precip / intensity_hourly) 2.0) 1.0 in
      result.1.1 = if Qle_bool 0.8 adjusted_score then "Alerte Maximale"
                   else if Qle_bool 0.6 adjusted_score then "Alerte"
                   else if Qle_bool 0.4 adjusted_score then "Pré-alerte"
                   else "Vigilance".
Proof.
  unfold calculate_risk_try, precipitation_24h. intros Htry Hp.
  destruct (get weather_data "hourly" _) as [hourly_data|]; [|discriminate].
  cbn [mbind option_bind] in Htry, Hp.
  destruct (get weather_data "daily" _) as [daily_data|]; [|discriminate].
  cbn [mbind option_bind] in Htry.
  destruct (get hourly_data "precipitation" _) as [p0|]; [|discriminate].
  cbn [mbind option_bind] in Htry, Hp.
  destruct (slice24 p0) as [precipitation|]; [|discriminate].
  cbn [mbind option_bind] in Htry, Hp.
  destruct (get hourly_data "temperature_2m" _) as [t0|]; [|discriminate].
  cbn [mbind option_bind] in Htry.
  destruct (slice24 t0) as [temperature|]; [|discriminate].
  cbn [mbind option_bind] in Htry.
  destruct (get hourly_data "relative_humidity_2m" _) as [h0|]; [|discriminate].
  cbn [mbind option_bind] in Htry.
  destruct (slice24 h0) as [humidity|]; [|discriminate].
  cbn [mbind option_bind] in Htry.
  destruct (get locality_data "type_inondation" _) as [flood_type|]; [|discriminate].
  cbn [mbind option_bind] in Htry.
  destruct (_calculate_ffg precipitation flood_type) as [ffg|] eqn:Hffg; [|discriminate].
  cbn [mbind option_bind] in Htry.
  destruct (_calculate_ifs str_of precipitation humidity locality_data) as [ifs|] eqn:Hifs;
    [|discriminate].
  cbn [mbind option_bind] in Htry.
  destruct (_calculate_soil_saturation weather_data locality_data) as [soil|] eqn:Hsoil;
    [|discriminate].
  cbn [mbind option_bind] in Htry.
  destruct (_get_flood_type_factor str_of flood_type locality_data) as [tf|] eqn:Htf;
    [|discriminate].
  cbn [mbind option_bind] in Htry.
  destruct (_determine_alert_level _ precipitation) as [[level details]|] eqn:Hlevel;
    [|discriminate].
  cbn [mbind option_bind] in Htry. rewrite Hp in Htry. cbn [mbind option_bind] in Htry.
  injection Htry as <-. cbn [fst snd].
  exists ffg, ifs, soil, tf.
  split; [exact (ffg_le_1 _ _ _ Hffg) |].
  split; [exact (ifs_le_1 _ _ _ _ Hifs) |].
  split; [exact (flood_type_factor_le_1 _ _ _ Htf) |].
  split; [reflexivity |]. split; [reflexivity |].
  exact (determine_alert_level_of _ _ _ _ _ Hp Hlevel).
Qed.

(** X22: a day without rain is under 'Vigilance': when the first 24 hourly
    precipitations are all 0, or there is none, the level is 'Vigilance'
    whatever the humidity, the soil moisture and the locality. *)
Theorem dry_day_is_vigilance (weather_data locality_data : value) (precip : list Q) :
  computable weather_data locality_data →
  precipitation_24h weather_data = Some precip →
  Forall (λ x, x == 0) precip →
  (calculate_risk str_of weather_data locality_data).1.1 = "Vigilance".
Proof.
  intros Hc Hp Hdry. apply (calculate_risk_try_returns str_of) in Hc as [result Htry].
  unfold calculate_risk. rewrite Htry.
  destruct (calculate_risk_try_parts _ _ _ _ Htry Hp)
    as (ffg & ifs & soil & tf & _ & _ & _ & _ & _ & Hlevel).
  cbv zeta in Hlevel. rewrite Hlevel.
  pose proof (adjusted_score_zero result.1.2 (max_or_zero precip)
                (max_or_zero_zero precip Hdry)) as Hzero.
  rewrite (Qle_bool_below 0.8), (Qle_bool_below 0.6), (Qle_bool_below 0.4);
    [reflexivity | | |]; rewrite Hzero; reflexivity.
Qed.

(** X23: without an hour of heavy rain there is no alert. For a locality
    that does not lie below sea level the score is at most 1; if moreover
    no hour of the first 24 brings more than 25 mm, half the hourly
    threshold, and none a negative amount, the level is 'Vigilance' or
    'Pré-alerte'. *)
Theorem flood_alert_needs_intense_rain (weather_data locality_data : value)
    (precip : list Q) (altitude : Q) :
  computable weather_data locality_data →
  precipitation_24h weather_data = Some precip →
  altitude_of locality_data = Some altitude → 0 <= altitude →
  (calculate_risk str_of weather_data locality_data).1.2 <= 1
  ∧ (Forall (λ x, 0 <= x ∧ x <= 25) precip →
     (calculate_risk str_of weather_data locality_data).1.1 ∈ below_alert).
Proof.
  intros Hc Hp Halt Hpos. apply (calculate_risk_try_returns str_of) in Hc as [result Htry].
  unfold calculate_risk. rewrite Htry.
  destruct (calculate_risk_try_parts _ _ _ _ Htry Hp)
    as (ffg & ifs & soil & tf & Hffg & Hifs & Htf & Hsoil & Hscore & Hlevel).
  pose proof (soil_saturation_le_1 _ _ _ _ Halt Hpos Hsoil) as Hsat.
  assert (Hle : result.1.2 <= 1) by (rewrite Hscore; Lqa.lra).
  split; [exact Hle |].
  intros Hrain. cbv zeta in Hlevel. rewrite Hlevel.
  destruct (max_or_zero_bounds precip 25 ltac:(discriminate) Hrain) as [Hm0 Hm25].
  pose proof (adjusted_score_capped result.1.2 (max_or_zero precip) Hle Hm0) as Hcap.
  assert (Hhalf : max_or_zero precip / intensity_hourly <= 0.5).
  { unfold intensity_hourly. apply Qle_shift_div_r; [reflexivity | Lqa.lra]. }
  rewrite (Qle_bool_below 0.8), (Qle_bool_below 0.6);
    [|eapply Qle_lt_trans; [eapply Qle_trans; [exact Hcap | exact Hhalf] | reflexivity]..].
  unfold below_alert. destruct (Qle_bool 0.4 _); set_solver.
Qed.

End FloodMore.

Section FloodMoreExamples.
Import Flood.

Lemma fallback_is_computable : computable fallback_data douala.
Proof.
  cbn. repeat split; try (repeat constructor; eexists; reflexivity); eauto.
Qed.

Lemma dry_day_is_vigilance_witness :
  (calculate_risk no_text fallback_data douala).1.1 = "Vigilance".
Proof.
  apply (dry_day_is_vigilance no_text fallback_data douala (replicate 24 0%Q)).
  - exact fallback_is_computable.
  - vm_compute. reflexivity.
  - repeat constructor.
Defined.

(** A day of drizzle, 2 mm an hour, over wet ground. *)
Lemma flood_alert_needs_intense_rain_witness :
  let drizzle :=
    VDict [("hourly",
            VDict [("precipitation", VList (replicate 24 (SNum 2)));
                   ("relative_humidity_2m", VList (replicate 24 (SNum 90)))]);
           ("soil_moisture", VList [SNum 80])] in
  ((calculate_risk no_text drizzle douala).1.2 <= 1)%Q
  ∧ (calculate_risk no_text drizzle douala).1.1 ∈ below_alert.
Proof.
  intros drizzle.
  destruct (flood_alert_needs_intense_rain no_text drizzle douala (replicate 24 2%Q) 13%Q)
    as [Hscore Hlevel].
  - cbn. repeat split; try (repeat constructor; eexists; reflexivity); eauto.
  - vm_compute. reflexivity.
  - vm_compute. reflexivity.
  - discriminate.
  - split; [exact Hscore |]. apply Hlevel. repeat constructor; discriminate.
Defined.

End FloodMoreExamples.

(** ** The simulated soil moisture *)

Section SoilMoisture.
Import DataLoader.
Open Scope R_scope.

Lemma next_moisture_bounds (previous precip et : R) :
  5 <= next_moisture previous precip et <= 95.
Proof.
  unfold next_moisture. cbv zeta. split.
  - apply Rmax_l.
  - apply Rmax_lub; [lra | apply Rmin_l].
Qed.

Lemma soil_loop_None (precipitation et0 : list R) (days : list nat) :
  fold_left
    (λ acc i,
       soil_moisture ← acc;
       precip ← precipitation !! i;
       et ← et0 !! i;
       previous ← last soil_moisture;
       Some (soil_moisture ++ [next_moisture previous precip et])%list)
    days None = None.
Proof. induction days as [|d days IH]; [reflexivity | exact IH]. Qed.

Lemma soil_loop_returns (precipitation et0 : list R) (n a : nat) (soil : list R) :
  soil ≠ [] → (a + n ≤ length precipitation)%nat → (a + n ≤ length et0)%nat →
  ∃ later,
    fold_left
      (λ acc i,
         soil_moisture ← acc;
         precip ← precipitation !! i;
         et ← et0 !! i;
         previous ← last soil_moisture;
         Some (soil_moisture ++ [next_moisture previous precip et])%list)
      (seq a n) (Some soil) = Some (soil ++ later)%list
    ∧ length later = n ∧ Forall (λ x, 5 <= x <= 95) later.
Proof.
  revert a soil. induction n as [|n IH]; intros a soil Hne Hp He.
  - exists []. cbn. rewrite app_nil_r. repeat split. constructor.
  - cbn [seq fold_left].
    destruct (lookup_lt_is_Some_2 precipitation a ltac:(lia)) as [precip Hprecip].
    destruct (lookup_lt_is_Some_2 et0 a ltac:(lia)) as [et Het].
    destruct (last soil) as [previous|] eqn:Hlast;
      [|apply last_None in Hlast; contradiction].
    cbn [mbind option_bind]. rewrite Hprecip, Het. cbn [mbind option_bind].
    rewrite Hlast. cbn [mbind option_bind].
    destruct (IH (S a) (soil ++ [next_moisture previous precip et])%list)
      as (later & Hfold & Hlen & Hall); [now destruct soil | lia | lia |].
    exists (next_moisture previous precip et :: later). rewrite Hfold.
    split; [now rewrite <- app_assoc |]. split; [cbn; lia |].
    constructor; [apply next_moisture_bounds | exact Hall].
Qed.

Lemma soil_loop_fails (precipitation et0 : list R) (n a : nat) (soil : list R) :
  soil ≠ [] → (a + n ≤ length precipitation)%nat →
  (0 < n)%nat → (length et0 < a + n)%nat →
  fold_left
    (λ acc i,
       soil_moisture ← acc;
       precip ← precipitation !! i;
       et ← et0 !! i;
       previous ← last soil_moisture;
       Some (soil_moisture ++ [next_moisture previous precip et])%list)
    (seq a n) (Some soil) = None.
Proof.
  revert a soil. induction n as [|n IH]; intros a soil Hne Hp Hn He; [lia |].
  cbn [seq fold_left].
  destruct (lookup_lt_is_Some_2 precipitation a ltac:(lia)) as [precip Hprecip].
  cbn [mbind option_bind]. rewrite Hprecip. cbn [mbind option_bind].
  destruct (et0 !! a) as [et|] eqn:Het.
  - cbn [mbind option_bind].
    destruct (last soil) as [previous|] eqn:Hlast;
      [|apply last_None in Hlast; contradiction].
    cbn [mbind option_bind]. apply lookup_lt_Some in Het.
    apply IH; [now destruct soil | lia | lia | lia].
  - cbn [mbind option_bind]. apply soil_loop_None.
Qed.

(** X24: the simulation returns exactly when the evapotranspiration series
    is at least as long as the precipitation series, or the latter holds at
    most one day. The result then has one value a day, and one value even for
    an empty series; it starts at the initial moisture, and every later
    value lies between 5 and 95. *)
Theorem simulate_soil_moisture_shape (precipitation et0 : list R) (initial_moisture : R) :
  (is_Some (simulate_soil_moisture precipitation et0 initial_moisture)
   ↔ (length precipitation ≤ 1 ∨ length precipitation ≤ length et0)%nat)
  ∧ ∀ soil_moisture,
      simulate_soil_moisture precipitation et0 initial_moisture = Some soil_moisture →
      length soil_moisture = Nat.max 1 (length precipitation)
      ∧ head soil_moisture = Some initial_moisture
      ∧ Forall (λ x, 5 <= x <= 95) (tail soil_moisture).
Proof.
  unfold simulate_soil_moisture.
  destruct (decide (length precipitation ≤ 1)%nat) as [Hshort|Hlong].
  { replace (length precipitation - 1)%nat with 0%nat by lia. cbn [seq fold_left].
    split; [split; eauto |].
    intros soil [= <-]. cbn [length head tail]. repeat split; [lia | constructor]. }
  destruct (decide (length precipitation ≤ length et0)%nat) as [Hok|Hno].
  - destruct (soil_loop_returns precipitation et0 (length precipitation - 1) 1
                [initial_moisture]) as (later & Hfold & Hlen & Hall);
      [discriminate | lia | lia |].
    rewrite Hfold. split; [split; eauto |].
    intros soil [= <-]. cbn [app length head tail]. repeat split; [lia | exact Hall].
  - rewrite (soil_loop_fails precipitation et0 (length precipitation - 1) 1
               [initial_moisture]) by (try discriminate; lia).
    split; [split; [intros [? ?]; discriminate | lia] | discriminate].
Qed.

End SoilMoisture.
